(** * para-fintech-backend: a shallow embedding of the orchestration code

    The backend chains an identity provider (Supabase), a wallet-custody
    API (Para) and a JSON-RPC node (Sepolia).  The remote services are
    modelled as oracles whose answers may depend on everything that was
    exchanged so far; every call the code makes is recorded, together with
    its outcome, in a trace.  Handlers are functions from the history to a
    result and the list of calls they made. *)

From Stdlib Require Import ZArith Lia Ascii String List.
From Stdlib Require Import Decimal DecimalString DecimalZ DecimalPos.
From stdpp Require Import base option strings gmap.
Import ListNotations.

Local Open Scope Z_scope.

(* ===================================================================== *)
(** * JavaScript values used by the code *)
(* ===================================================================== *)

(** Strings are sequences of one-byte characters; [String.length] plays the
    role of [.length].  [string?] fields and [undefined] are [option]. *)

Module JS.

(** Truthiness of a [string | undefined]: [undefined] and [""] are falsy. *)
Definition truthy (o : option string) : bool :=
  match o with
  | Some (String _ _) => true
  | _ => false
  end.

(** [a || b] on strings. *)
Definition orElse (o : option string) (d : string) : string :=
  match o with
  | Some (String c s) => String c s
  | _ => d
  end.

(** [s.startsWith(p)] *)
Definition startsWith (s p : string) : bool := String.prefix p s.

(** A thrown value.  [message] is [error.message]; [response_data_message]
    is [error.response?.data?.message] (present on HTTP client errors). *)
Record Error : Type := mkError {
  message : string;
  response_data_message : option string
}.

(** [new Error(msg)] *)
Definition newError (msg : string) : Error :=
  {| message := msg; response_data_message := None |}.

(** [error.response?.data?.message || error.message] *)
Definition upstreamMessage (e : Error) : string :=
  orElse (response_data_message e) (message e).

(** White space and line terminators below U+0080. *)
Definition isWhiteSpace (c : ascii) : bool :=
  match N_of_ascii c with
  | 9%N | 10%N | 11%N | 12%N | 13%N | 32%N => true
  | _ => false
  end.

Fixpoint trimStart (s : string) : string :=
  match s with
  | EmptyString => EmptyString
  | String c s' => if isWhiteSpace c then trimStart s' else s
  end.

Fixpoint trimEnd (s : string) : string :=
  match s with
  | EmptyString => EmptyString
  | String c s' =>
      match trimEnd s' with
      | EmptyString => if isWhiteSpace c then EmptyString else String c EmptyString
      | t => String c t
      end
  end.

Definition trim (s : string) : string := trimEnd (trimStart s).

(** Value of a digit in the given radix (2, 8, 10 or 16). *)
Definition digitValue (radix : Z) (c : ascii) : option Z :=
  let n := Z.of_N (N_of_ascii c) in
  let v :=
    if (48 <=? n) && (n <=? 57) then Some (n - 48)
    else if (97 <=? n) && (n <=? 102) then Some (n - 87)
    else if (65 <=? n) && (n <=? 70) then Some (n - 55)
    else None in
  match v with
  | Some d => if d <? radix then Some d else None
  | None => None
  end.

(** All of [s] read as digits of [radix], most significant first. *)
Fixpoint digitsFrom (radix : Z) (acc : Z) (s : string) : option Z :=
  match s with
  | EmptyString => Some acc
  | String c s' =>
      match digitValue radix c with
      | Some d => digitsFrom radix (acc * radix + d) s'
      | None => None
      end
  end.

Definition allDigits (radix : Z) (s : string) : option Z :=
  match s with
  | EmptyString => None
  | _ => digitsFrom radix 0 s
  end.

(** Decimal digits only, at least one. *)
Definition decimalDigits (s : string) : option Z :=
  match s with
  | EmptyString => None
  | _ => option_map Z.of_uint (NilEmpty.uint_of_string s)
  end.

(** [BigInt(s)] for a string [s] (StringToBigInt): surrounding white space
    is dropped, the empty string is [0n], a [0x]/[0o]/[0b] prefix selects
    the radix (no sign allowed then), otherwise an optional sign and
    decimal digits.  [None] is the [SyntaxError]. *)
Definition BigInt (s : string) : option Z :=
  match trim s with
  | EmptyString => Some 0
  | String "0" (String "x" r) | String "0" (String "X" r) => allDigits 16 r
  | String "0" (String "o" r) | String "0" (String "O" r) => allDigits 8 r
  | String "0" (String "b" r) | String "0" (String "B" r) => allDigits 2 r
  | String "-" r => option_map Z.opp (decimalDigits r)
  | String "+" r => decimalDigits r
  | t => decimalDigits t
  end.

(** [b.toString()] of a bigint, and of an integral number. *)
Definition toString (z : Z) : string := NilZero.string_of_int (Z.to_int z).

(** Longest prefix of digits of [radix], with the rest. *)
Fixpoint spanDigits (radix : Z) (s : string) : string * string :=
  match s with
  | EmptyString => (EmptyString, EmptyString)
  | String c s' =>
      match digitValue radix c with
      | Some _ => let '(ds, rest) := spanDigits radix s' in (String c ds, rest)
      | None => (EmptyString, s)
      end
  end.

(** [parseInt(s)] without a radix argument: leading white space is skipped,
    an optional sign, a [0x] prefix selects radix 16, then the longest run of
    digits; [None] is [NaN].  Results are exact integers (below 2^53 they
    coincide with the JavaScript number). *)
Definition parseInt (s : string) : option Z :=
  let s1 := trimStart s in
  let '(sign, s2) :=
    match s1 with
    | String "-" r => (-1, r)
    | String "+" r => (1, r)
    | _ => (1, s1)
    end in
  let '(radix, s3) :=
    match s2 with
    | String "0" (String "x" r) | String "0" (String "X" r) => (16, r)
    | _ => (10, s2)
    end in
  let '(ds, _) := spanDigits radix s3 in
  option_map (Z.mul sign) (allDigits radix ds).

End JS.

(** Outcome of a call that may throw. *)
Inductive result (A : Type) : Type :=
| Ok (a : A)
| Throw (e : JS.Error).
Arguments Ok {A} a.
Arguments Throw {A} e.

(* ===================================================================== *)
(** * The functions of the ethers library the code depends on *)
(* ===================================================================== *)

Module Ethers.

(** ethers is a dependency of the repository.  [parseEther] decides how an
    amount becomes base units, so it is written out here after the
    library's algorithm; [getAddress] and the serialisation stay abstract
    (see [EthersLib] below).

    [parseEther], i.e. [parseUnits(value, 18)]: the string must be
    an optional minus sign, a run of decimal digits, an optional dot and a
    second run of decimal digits, with at least one digit in all; the
    fraction is padded with zeros four at a time up to 18 digits, digits
    beyond the 18th must all be zero, and the digits are read as one
    integer which has to fit 512 signed bits.  No floating point. *)

Definition decimals : nat := 18.
Definition width : Z := 512.
Definition Zeros : string := "0000".

Fixpoint padDecimal (fuel : nat) (decimal : string) : string :=
  match fuel with
  | O => decimal
  | S fuel' =>
      if (String.length decimal <? decimals)%nat
      then padDecimal fuel' (decimal +:+ Zeros)
      else decimal
  end.

Fixpoint allZeros (s : string) : bool :=
  match s with
  | EmptyString => true
  | String c s' => Ascii.eqb c "0" && allZeros s'
  end.

Definition substringFrom (n : nat) (s : string) : string :=
  String.substring n (String.length s - n)%nat s.

Definition parseEther (ether : string) : result Z :=
  let '(sign, r0) :=
    match ether with
    | String "-" r => ("-", r)
    | _ => ("", ether)
    end in
  let '(m2, r1) := JS.spanDigits 10 r0 in
  let r2 := match r1 with String "." r => r | _ => r1 end in
  let '(m3, r3) := JS.spanDigits 10 r2 in
  match r3 with
  | EmptyString =>
      if (0 <? String.length m2 + String.length m3)%nat then
        let whole := JS.orElse (Some m2) "0" in
        let decimal := padDecimal 5 m3 in
        if allZeros (substringFrom decimals decimal) then
          let decimal' := String.substring 0 decimals decimal in
          match JS.BigInt (sign +:+ whole +:+ decimal') with
          | Some value =>
              let limit := Z.shiftl 1 (width - 1) in
              if (- limit <=? value) && (value <? limit) then Ok value
              else Throw (JS.newError "overflow")
          | None => Throw (JS.newError "Cannot convert to a BigInt")
          end
        else Throw (JS.newError "too many decimals for format")
      else Throw (JS.newError "invalid FixedNumber string value")
  | _ => Throw (JS.newError "invalid FixedNumber string value")
  end.

End Ethers.

(* ===================================================================== *)
(** * config/index.ts *)
(* ===================================================================== *)

Module Config.

Record Supabase : Type := {
  url : option string;
  anonKey : option string;
  serviceRoleKey : option string;
  jwtSecret : option string
}.

Record Para : Type := {
  apiKey : option string;
  baseUrl : string
}.

Record Ethereum : Type := {
  rpcUrl : option string;
  chainId : option Z
}.

Record t : Type := {
  port : option Z;
  nodeEnv : string;
  supabase : Supabase;
  para : Para;
  ethereum : Ethereum
}.

(** The [config] object literal, read from [process.env]. *)
Definition config (env : gmap string string) : t :=
  {| port := JS.parseInt (JS.orElse (env !! "PORT") "3000");
     nodeEnv := JS.orElse (env !! "NODE_ENV") "development";
     supabase :=
       {| url := env !! "SUPABASE_URL";
          anonKey := env !! "SUPABASE_ANON_KEY";
          serviceRoleKey := env !! "SUPABASE_SERVICE_ROLE_KEY";
          jwtSecret := env !! "SUPABASE_JWT_SECRET" |};
     para :=
       {| apiKey := env !! "PARA_API_KEY";
          baseUrl := JS.orElse (env !! "PARA_BASE_URL") "https://api.getpara.com" |};
     ethereum :=
       {| rpcUrl := env !! "SEPOLIA_RPC_URL";
          chainId := JS.parseInt (JS.orElse (env !! "SEPOLIA_CHAIN_ID") "11155111") |} |}.

Definition requiredVars : list string :=
  [ "SUPABASE_URL";
    "SUPABASE_ANON_KEY";
    "SUPABASE_SERVICE_ROLE_KEY";
    "SUPABASE_JWT_SECRET";
    "PARA_API_KEY";
    "SEPOLIA_RPC_URL" ].

(** The validation loop: the first variable that is unset or empty throws. *)
Fixpoint validate (env : gmap string string) (vars : list string) : result unit :=
  match vars with
  | [] => Ok tt
  | variable :: rest =>
      if negb (JS.truthy (env !! variable))
      then Throw (JS.newError ("Missing required environment variable: " +:+ variable))
      else validate env rest
  end.

(** Evaluating the module: the exported [config], or the error that stops
    the process while it is being imported. *)
Definition load (env : gmap string string) : result t :=
  match validate env requiredVars with
  | Ok _ => Ok (config env)
  | Throw e => Throw e
  end.

End Config.

(* ===================================================================== *)
(** * types/index.ts and the shapes of the remote answers *)
(* ===================================================================== *)

Record UserWallet : Type := {
  supabase_id : string;
  para_wallet_id : string;
  wallet_address : option string;
  created_at : string;
  updated_at : string
}.

Record ParaWallet : Type := {
  pw_id : string;
  pw_type : string;
  pw_status : string;
  pw_address : option string;
  pw_publicKey : option string;
  pw_createdAt : string
}.

Record ParaSignResponse : Type := {
  sr_signature : string;
  sr_data : string
}.

Record SendTransactionRequest : Type := {
  req_to : option string;
  req_amount : option string;
  req_gasLimit : option string;
  req_maxFeePerGas : option string;
  req_maxPriorityFeePerGas : option string
}.

(** The transaction object literal of [buildUnsignedTransaction]; the
    [signature] key exists only on the copy made by
    [serializeWithSignature]. *)
Record TxObject : Type := {
  tx_type : Z;
  tx_to : string;
  tx_from : string;
  tx_value : Z;
  tx_data : string;
  tx_gasLimit : Z;
  tx_nonce : Z;
  tx_maxFeePerGas : Z;
  tx_maxPriorityFeePerGas : Z;
  tx_chainId : option Z;
  tx_signature : option string
}.

(** [provider.getFeeData()] *)
Record FeeData : Type := {
  fd_maxFeePerGas : option Z;
  fd_maxPriorityFeePerGas : option Z
}.

(** The receipt object the status route reads. *)
Record Receipt : Type := {
  rc_hash : string;
  rc_blockNumber : Z;
  rc_blockHash : string;
  rc_status : option Z;
  rc_gasUsed : Z;
  rc_gasPrice : option Z;
  rc_from : string;
  rc_to : option string;
  rc_value : option Z
}.

(** [{ data: { user }, error }] of [supabase.auth.getUser]. *)
Record SupabaseUser : Type := {
  su_id : string;
  su_email : string
}.

Record GetUserResponse : Type := {
  gu_user : option SupabaseUser;
  gu_error : option JS.Error
}.

(** [{ data, error }] of a [.single()] query on [user_wallets]. *)
Record DbError : Type := {
  db_code : string;
  db_message : string
}.

Record DbResponse : Type := {
  db_data : option UserWallet;
  db_error : option DbError
}.

(** [req.user] *)
Record AuthUser : Type := {
  userId : string;
  email : string
}.

(* ===================================================================== *)
(** * Calls to the outside, and the monad of the async functions *)
(* ===================================================================== *)

(** One entry per call that leaves the process, with what came back. *)
Inductive Event : Type :=
| EvGetUser (token : string) (r : GetUserResponse)
| EvSelectUserWallet (supabaseId : string) (r : DbResponse)
| EvParaGetWallet (walletId : string) (r : result ParaWallet)
| EvParaSignRaw (walletId : string) (data : string) (r : result ParaSignResponse)
| EvGetBalance (address : string) (r : result Z)
| EvGetTransactionCount (address : string) (r : result Z)
| EvGetFeeData (r : result FeeData)
| EvBroadcast (signedTransaction : string) (r : result string)
| EvWaitForTransaction (txHash : string) (confirmations : Z) (r : result (option Receipt))
| EvSleep (ms : Z).

Definition Trace : Type := list Event.

(** The remote services.  Each answer may depend on the whole history. *)
Record World : Type := {
  supabase_getUser : Trace -> string -> GetUserResponse;
  supabase_selectUserWallet : Trace -> string -> DbResponse;
  para_getWallet : Trace -> string -> result ParaWallet;
  para_signRaw : Trace -> string -> string -> result ParaSignResponse;
  provider_getBalance : Trace -> string -> result Z;
  provider_getTransactionCount : Trace -> string -> result Z;
  provider_getFeeData : Trace -> result FeeData;
  provider_broadcastTransaction : Trace -> string -> result string;
  provider_waitForTransaction : Trace -> string -> Z -> result (option Receipt)
}.

(** The two ethers functions whose code decides nothing here: address
    normalisation (throws on a malformed address) and serialisation. *)
Record EthersLib : Type := {
  getAddress : string -> result string;
  serializeTransaction : TxObject -> result string
}.

(** An async computation: from the history so far to its outcome and the
    calls it made, oldest first. *)
Definition M (A : Type) : Type := Trace -> result A * list Event.

Definition ret {A : Type} (a : A) : M A := fun _ => (Ok a, []).

Definition throw {A : Type} (e : JS.Error) : M A := fun _ => (Throw e, []).

Definition bind {A B : Type} (m : M A) (k : A -> M B) : M B :=
  fun h =>
    match m h with
    | (Ok a, es) => let '(r, es') := k a (h ++ es) in (r, es ++ es')
    | (Throw e, es) => (Throw e, es)
    end.

(** [try { m } catch (error) { handler error }] *)
Definition tryCatch {A : Type} (m : M A) (handler : JS.Error -> M A) : M A :=
  fun h =>
    match m h with
    | (Ok a, es) => (Ok a, es)
    | (Throw e, es) => let '(r, es') := handler e (h ++ es) in (r, es ++ es')
    end.

(** A synchronous call that may throw. *)
Definition lift {A : Type} (r : result A) : M A := fun _ => (r, []).

(** An awaited remote call, logged with its outcome. *)
Definition call {A : Type} (oracle : Trace -> result A) (ev : result A -> Event) : M A :=
  fun h => let r := oracle h in (r, [ev r]).

(** A remote call that reports failure in its answer instead of throwing. *)
Definition query {A : Type} (oracle : Trace -> A) (ev : A -> Event) : M A :=
  fun h => let r := oracle h in (Ok r, [ev r]).

(** [await new Promise((resolve) => setTimeout(resolve, ms))] *)
Definition sleep (ms : Z) : M unit := fun _ => (Ok tt, [EvSleep ms]).

Notation "'let*' x ':=' m 'in' k" := (bind m (fun x => k))
  (at level 10, x pattern, m at level 100, k at level 200).

(* ===================================================================== *)
(** * services/supabase.ts and services/database.ts *)
(* ===================================================================== *)

Module supabaseService.
Section WithWorld.
Context (W : World).

Definition verifyToken (token : string) : M AuthUser :=
  let* r := query (fun h => supabase_getUser W h token) (EvGetUser token) in
  match gu_error r, gu_user r with
  | None, Some user => ret {| userId := su_id user; email := su_email user |}
  | _, _ => throw (JS.newError "Invalid or expired token")
  end.

End WithWorld.
End supabaseService.

Module databaseService.
Section WithWorld.
Context (W : World).

Definition getUserWallet (supabaseId : string) : M (option UserWallet) :=
  let* r := query (fun h => supabase_selectUserWallet W h supabaseId)
                  (EvSelectUserWallet supabaseId) in
  match db_error r with
  | Some error =>
      if String.eqb (db_code error) "PGRST116"
      then ret None
      else throw (JS.newError ("Failed to fetch user wallet: " +:+ db_message error))
  | None => ret (db_data r)
  end.

End WithWorld.
End databaseService.

(* ===================================================================== *)
(** * services/para.ts *)
(* ===================================================================== *)

Module paraService.
Section WithWorld.
Context (W : World).

Definition getWallet (walletId : string) : M ParaWallet :=
  tryCatch
    (call (fun h => para_getWallet W h walletId) (EvParaGetWallet walletId))
    (fun error =>
       throw (JS.newError ("Failed to fetch wallet " +:+ walletId +:+ ": "
                           +:+ JS.upstreamMessage error))).

(** The error thrown once the loop is left. *)
Definition timeoutError (walletId : string) (maxAttempts : Z) : JS.Error :=
  JS.newError ("Wallet " +:+ walletId +:+ " did not become ready after "
               +:+ JS.toString maxAttempts +:+ " attempts").

(** The [while (attempts < maxAttempts)] loop.  [fuel] bounds the number of
    iterations; [pollWalletReady] starts it with as many as the loop can
    make, so the fuel never runs out before the loop test fails. *)
Fixpoint pollLoop (fuel : nat) (walletId : string) (attempts maxAttempts delayMs : Z)
  : M ParaWallet :=
  match fuel with
  | O => throw (timeoutError walletId maxAttempts)
  | S fuel' =>
      if attempts <? maxAttempts then
        let* wallet := getWallet walletId in
        if String.eqb (pw_status wallet) "ready" then ret wallet
        else
          let attempts' := attempts + 1 in
          let* _ := (if attempts' <? maxAttempts then sleep delayMs else ret tt) in
          pollLoop fuel' walletId attempts' maxAttempts delayMs
      else throw (timeoutError walletId maxAttempts)
  end.

(** [maxAttempts] and [delayMs] are integral numbers. *)
Definition pollWalletReady (walletId : string) (maxAttempts delayMs : Z) : M ParaWallet :=
  pollLoop (Z.to_nat maxAttempts) walletId 0 maxAttempts delayMs.

Definition signRaw (walletId dataHash : string) : M ParaSignResponse :=
  tryCatch
    (let hexData := if JS.startsWith dataHash "0x" then dataHash else "0x" +:+ dataHash in
     call (fun h => para_signRaw W h walletId hexData) (EvParaSignRaw walletId hexData))
    (fun error =>
       throw (JS.newError ("Failed to sign transaction: " +:+ JS.upstreamMessage error))).

End WithWorld.
End paraService.

(* ===================================================================== *)
(** * services/blockchain.ts *)
(* ===================================================================== *)

Module blockchainService.

Record GasPrices : Type := {
  gp_maxFeePerGas : string;
  gp_maxPriorityFeePerGas : string
}.

(** [BigInt(s)] as a call that may throw. *)
Definition BigIntOf (s : string) : result Z :=
  match JS.BigInt s with
  | Some z => Ok z
  | None => Throw (JS.newError ("Cannot convert " +:+ s +:+ " to a BigInt"))
  end.

(** Truthiness of a [bigint | null]: [null] and [0n] are falsy. *)
Definition truthyBigint (o : option Z) : bool :=
  match o with
  | Some z => negb (z =? 0)
  | None => false
  end.

Section WithWorld.
Context (lib : EthersLib) (W : World) (cfg : Config.t).

Definition getBalance (address : string) : M string :=
  tryCatch
    (let* checksumAddress := lift (getAddress lib address) in
     let* balanceWei := call (fun h => provider_getBalance W h checksumAddress)
                             (EvGetBalance checksumAddress) in
     ret (JS.toString balanceWei))
    (fun error => throw (JS.newError ("Failed to fetch balance: " +:+ JS.message error))).

Definition getBalanceInEth (address : string) : M string :=
  let* balanceWei := getBalance address in
  let* b := lift (BigIntOf balanceWei) in
  ret (JS.toString (Z.quot b (10 ^ 18))).

Definition getNonce (address : string) : M Z :=
  tryCatch
    (let* checksumAddress := lift (getAddress lib address) in
     call (fun h => provider_getTransactionCount W h checksumAddress)
          (EvGetTransactionCount checksumAddress))
    (fun error => throw (JS.newError ("Failed to fetch nonce: " +:+ JS.message error))).

Definition getGasPrices : M GasPrices :=
  tryCatch
    (let* feeData := call (provider_getFeeData W) EvGetFeeData in
     if negb (truthyBigint (fd_maxFeePerGas feeData))
        || negb (truthyBigint (fd_maxPriorityFeePerGas feeData))
     then throw (JS.newError "Could not fetch fee data from provider")
     else
       match fd_maxFeePerGas feeData, fd_maxPriorityFeePerGas feeData with
       | Some maxFee, Some maxPriority =>
           ret {| gp_maxFeePerGas := JS.toString maxFee;
                  gp_maxPriorityFeePerGas := JS.toString maxPriority |}
       | _, _ => throw (JS.newError "Could not fetch fee data from provider")
       end)
    (fun error => throw (JS.newError ("Failed to fetch gas prices: " +:+ JS.message error))).

(** [getAddress(request.to)] and [parseEther(request.amount)] on a field that
    may be [undefined]. *)
Definition getAddressOf (o : option string) : result string :=
  match o with
  | Some s => getAddress lib s
  | None => Throw (JS.newError "invalid address")
  end.

Definition parseEtherOf (o : option string) : result Z :=
  match o with
  | Some s => Ethers.parseEther s
  | None => Throw (JS.newError "value must be a string")
  end.

Definition buildUnsignedTransaction (fromAddress : string) (request : SendTransactionRequest)
  : M (TxObject * string) :=
  tryCatch
    (let* checksumFrom := lift (getAddress lib fromAddress) in
     let* checksumTo := lift (getAddressOf (req_to request)) in
     let* nonce := getNonce checksumFrom in
     let* gasPrices := getGasPrices in
     let* gasLimit :=
       lift (match req_gasLimit request with
             | Some (String c s) => BigIntOf (String c s)
             | _ => Ok 21000
             end) in
     let* maxFeePerGas :=
       lift (match req_maxFeePerGas request with
             | Some (String c s) => BigIntOf (String c s)
             | _ => BigIntOf (gp_maxFeePerGas gasPrices)
             end) in
     let* maxPriorityFeePerGas :=
       lift (match req_maxPriorityFeePerGas request with
             | Some (String c s) => BigIntOf (String c s)
             | _ => BigIntOf (gp_maxPriorityFeePerGas gasPrices)
             end) in
     let* value := lift (parseEtherOf (req_amount request)) in
     let transaction :=
       {| tx_type := 2;
          tx_to := checksumTo;
          tx_from := checksumFrom;
          tx_value := value;
          tx_data := "0x";
          tx_gasLimit := gasLimit;
          tx_nonce := nonce;
          tx_maxFeePerGas := maxFeePerGas;
          tx_maxPriorityFeePerGas := maxPriorityFeePerGas;
          tx_chainId := Config.chainId (Config.ethereum cfg);
          tx_signature := None |} in
     let* serialized := lift (serializeTransaction lib transaction) in
     ret (transaction, serialized))
    (fun error => throw (JS.newError ("Failed to build transaction: " +:+ JS.message error))).

Definition broadcastTransaction (signedTransaction : string) : M string :=
  tryCatch
    (call (fun h => provider_broadcastTransaction W h signedTransaction)
          (EvBroadcast signedTransaction))
    (fun error =>
       throw (JS.newError ("Failed to broadcast transaction: " +:+ JS.upstreamMessage error))).

(** [{ ...transaction, signature: cleanSig }] *)
Definition withSignature (transaction : TxObject) (cleanSig : string) : TxObject :=
  {| tx_type := tx_type transaction;
     tx_to := tx_to transaction;
     tx_from := tx_from transaction;
     tx_value := tx_value transaction;
     tx_data := tx_data transaction;
     tx_gasLimit := tx_gasLimit transaction;
     tx_nonce := tx_nonce transaction;
     tx_maxFeePerGas := tx_maxFeePerGas transaction;
     tx_maxPriorityFeePerGas := tx_maxPriorityFeePerGas transaction;
     tx_chainId := tx_chainId transaction;
     tx_signature := Some cleanSig |}.

Definition cleanSignature (signature : string) : string :=
  if JS.startsWith signature "0x" then signature else "0x" +:+ signature.

Definition serializeWithSignature (transaction : TxObject) (signature : string)
  : result string :=
  let cleanSig := cleanSignature signature in
  let signedTx := withSignature transaction cleanSig in
  serializeTransaction lib signedTx.

Definition waitForTransaction (txHash : string) (confirmations : Z) : M (option Receipt) :=
  tryCatch
    (call (fun h => provider_waitForTransaction W h txHash confirmations)
          (EvWaitForTransaction txHash confirmations))
    (fun error =>
       throw (JS.newError ("Failed to wait for transaction: " +:+ JS.message error))).

End WithWorld.
End blockchainService.

(* ===================================================================== *)
(** * HTTP requests and responses *)
(* ===================================================================== *)

Record Request : Type := {
  headers_authorization : option string;
  user : option AuthUser;
  body : SendTransactionRequest;
  params_txHash : string
}.

Record Balance : Type := {
  wei : string;
  eth : string
}.

(** The JSON bodies the routes send. *)
Inductive Body : Type :=
| ErrorBody (error message : string)
| SendBody (transactionHash status from to value message : string)
| ReceiptBody (transactionHash : string) (blockNumber : Z) (blockHash status gasUsed : string)
              (gasPrice : option string) (from : string) (to : option string) (value : string)
| WalletBody (id type status : string) (address publicKey : option string)
             (balance : option Balance) (createdAt message : string).

(** [res.status(code).json(body)] *)
Record HttpResponse : Type := json {
  http_status : Z;
  http_body : Body
}.

(** [x || null] *)
Definition orNull (o : option string) : option string :=
  if JS.truthy o then o else None.

(* ===================================================================== *)
(** * middleware/auth.ts *)
(* ===================================================================== *)

Module auth.

(** [s.split(sep)] for a one-character separator. *)
Fixpoint split (sep : ascii) (s : string) : list string :=
  match s with
  | EmptyString => [EmptyString]
  | String c s' =>
      if Ascii.eqb c sep then EmptyString :: split sep s'
      else
        match split sep s' with
        | x :: xs => String c x :: xs
        | [] => [String c EmptyString]
        end
  end.

Section WithWorld.
Context (W : World).

(** Either the response the middleware sends itself, or the request handed
    to [next()] with [req.user] set. *)
Definition authMiddleware (req : Request) : M (HttpResponse + Request) :=
  tryCatch
    (match headers_authorization req with
     | Some (String c s) =>
         let authHeader := String c s in
         let token := nth_error (split " " authHeader) 1 in
         match token with
         | Some (String c' s') =>
             let* verified := supabaseService.verifyToken W (String c' s') in
             ret (inr {| headers_authorization := headers_authorization req;
                         user := Some verified;
                         body := body req;
                         params_txHash := params_txHash req |})
         | _ =>
             ret (inl (json 401 (ErrorBody "Unauthorized"
                    "Invalid Authorization header format. Use 'Bearer <token>'")))
         end
     | _ => ret (inl (json 401 (ErrorBody "Unauthorized" "Missing Authorization header")))
     end)
    (fun error => ret (inl (json 401 (ErrorBody "Unauthorized" (JS.message error))))).

(** [router.use(authMiddleware)] in front of a handler. *)
Definition guarded (handler : Request -> M HttpResponse) (req : Request) : M HttpResponse :=
  let* r := authMiddleware req in
  match r with
  | inl response => ret response
  | inr req' => handler req'
  end.

End WithWorld.
End auth.

(* ===================================================================== *)
(** * routes/transaction.ts *)
(* ===================================================================== *)

Module transaction.
Section WithWorld.
Context (lib : EthersLib) (W : World) (cfg : Config.t).

(** [req.user?.userId] *)
Definition userIdOf (req : Request) : option string :=
  match user req with
  | Some u => Some (userId u)
  | None => None
  end.

(** The handler of [POST /send]. *)
Definition send (req : Request) : M HttpResponse :=
  tryCatch
    (match userIdOf req with
     | Some (String c s) =>
         let userId := String c s in
         let sendRequest := body req in
         match req_to sendRequest, req_amount sendRequest with
         | Some (String c1 s1), Some (String c2 s2) =>
             let to := String c1 s1 in
             let amount := String c2 s2 in
             match getAddress lib to with
             | Throw _ =>
                 ret (json 400 (ErrorBody "Bad Request"
                        "Invalid Ethereum address for 'to' field"))
             | Ok _ =>
                 let* userWallet := databaseService.getUserWallet W userId in
                 match userWallet with
                 | None =>
                     ret (json 404 (ErrorBody "Not Found" "Wallet not found for this user"))
                 | Some userWallet =>
                     let* paraWallet :=
                       paraService.getWallet W (para_wallet_id userWallet) in
                     match String.eqb (pw_status paraWallet) "ready",
                           pw_address paraWallet with
                     | true, Some (String c3 s3) =>
                         let address := String c3 s3 in
                         let* built :=
                           blockchainService.buildUnsignedTransaction lib W cfg
                             address sendRequest in
                         let '(transaction, dataHash) := built in
                         let* signResponse :=
                           paraService.signRaw W (para_wallet_id userWallet) dataHash in
                         let* signedTx :=
                           lift (blockchainService.serializeWithSignature lib
                                   transaction (sr_signature signResponse)) in
                         let* txHash := blockchainService.broadcastTransaction W signedTx in
                         ret (json 201
                                (SendBody txHash "pending" address to amount
                                   "Transaction broadcasted. Monitor the hash on Sepolia block explorer."))
                     | _, _ =>
                         ret (json 400 (ErrorBody "Wallet Not Ready"
                                "Wallet is still being created. Please try again later."))
                     end
                 end
             end
         | _, _ =>
             ret (json 400 (ErrorBody "Bad Request"
                    "Missing required fields: 'to' and 'amount'"))
         end
     | _ => ret (json 401 (ErrorBody "Unauthorized" "User ID not found in token"))
     end)
    (fun error => ret (json 500 (ErrorBody "Transaction Failed" (JS.message error)))).

(** The handler of [GET /:txHash]. *)
Definition status (req : Request) : M HttpResponse :=
  tryCatch
    (let txHash := params_txHash req in
     if negb (JS.startsWith txHash "0x") || negb (String.length txHash =? 66)%nat then
       ret (json 400 (ErrorBody "Bad Request" "Invalid transaction hash format"))
     else
       tryCatch
         (let* receipt := blockchainService.waitForTransaction W txHash 0 in
          match receipt with
          | None =>
              ret (json 404 (ErrorBody "Not Found" "Transaction not found or not yet mined"))
          | Some receipt =>
              ret (json 200
                     (ReceiptBody
                        (rc_hash receipt)
                        (rc_blockNumber receipt)
                        (rc_blockHash receipt)
                        (match rc_status receipt with
                         | Some 1 => "success"
                         | _ => "failed"
                         end)
                        (JS.toString (rc_gasUsed receipt))
                        (option_map JS.toString (rc_gasPrice receipt))
                        (rc_from receipt)
                        (rc_to receipt)
                        (JS.orElse (option_map JS.toString (rc_value receipt)) "0")))
          end)
         (fun _ =>
            ret (json 404 (ErrorBody "Not Found" "Transaction not yet mined or invalid hash"))))
    (fun error => ret (json 500 (ErrorBody "Internal Server Error" (JS.message error)))).

End WithWorld.
End transaction.

(* ===================================================================== *)
(** * routes/wallet.ts *)
(* ===================================================================== *)

Module wallet.
Section WithWorld.
Context (lib : EthersLib) (W : World).

(** The handler of [GET /] (wallet details). *)
Definition details (req : Request) : M HttpResponse :=
  tryCatch
    (match transaction.userIdOf req with
     | Some (String c s) =>
         let* userWallet := databaseService.getUserWallet W (String c s) in
         match userWallet with
         | None => ret (json 404 (ErrorBody "Not Found" "Wallet not found for this user"))
         | Some userWallet =>
             let* paraWallet := paraService.getWallet W (para_wallet_id userWallet) in
             let* balance :=
               match String.eqb (pw_status paraWallet) "ready", pw_address paraWallet with
               | true, Some (String c' s') =>
                   let* balanceWei := blockchainService.getBalance lib W (String c' s') in
                   let* balanceEth := blockchainService.getBalanceInEth lib W (String c' s') in
                   ret (Some {| wei := balanceWei; eth := balanceEth |})
               | _, _ => ret None
               end in
             ret (json 200
                    (WalletBody
                       (pw_id paraWallet)
                       (pw_type paraWallet)
                       (pw_status paraWallet)
                       (orNull (pw_address paraWallet))
                       (orNull (pw_publicKey paraWallet))
                       balance
                       (pw_createdAt paraWallet)
                       (if String.eqb (pw_status paraWallet) "creating"
                        then "Wallet is still being created. MPC key generation in progress."
                        else "Wallet is ready for transactions!")))
         end
     | _ => ret (json 401 (ErrorBody "Unauthorized" "User ID not found in token"))
     end)
    (fun error => ret (json 500 (ErrorBody "Internal Server Error" (JS.message error)))).

End WithWorld.
End wallet.

(* ===================================================================== *)
(** * Vocabulary of the statements *)
(* ===================================================================== *)

(** Calls to the JSON-RPC node. *)
Definition isChainCall (e : Event) : bool :=
  match e with
  | EvGetBalance _ _ | EvGetTransactionCount _ _ | EvGetFeeData _
  | EvBroadcast _ _ | EvWaitForTransaction _ _ _ => true
  | _ => false
  end.

(** Calls to the custody provider. *)
Definition isCustodyCall (e : Event) : bool :=
  match e with
  | EvParaGetWallet _ _ | EvParaSignRaw _ _ _ => true
  | _ => false
  end.

(** Calls to the database. *)
Definition isDatabaseCall (e : Event) : bool :=
  match e with
  | EvSelectUserWallet _ _ => true
  | _ => false
  end.

(** Wallet fetches. *)
Definition isFetch (e : Event) : bool :=
  match e with
  | EvParaGetWallet _ _ => true
  | _ => false
  end.

Fixpoint fetches (es : list Event) : nat :=
  match es with
  | [] => 0%nat
  | e :: es' => ((if isFetch e then 1 else 0) + fetches es')%nat
  end.

(** What [pollWalletReady] does between two attempts: a fetch of the polled
    wallet that answered with a status other than ["ready"], or the pause. *)
Definition pendingEvent (walletId : string) (delayMs : Z) (e : Event) : Prop :=
  match e with
  | EvParaGetWallet id (Ok w) => id = walletId /\ String.eqb (pw_status w) "ready" = false
  | EvSleep ms => ms = delayMs
  | _ => False
  end.

(** [getAddress] throws on [s]. *)
Definition malformed (lib : EthersLib) (s : string) : Prop :=
  match getAddress lib s with
  | Ok _ => False
  | Throw _ => True
  end.

(** The wallet is not usable for signing: [status !== "ready" || !address]. *)
Definition notReady (w : ParaWallet) : Prop :=
  String.eqb (pw_status w) "ready" = false \/ JS.truthy (pw_address w) = false.

(** A gas field [v] is the override when one is given (a non-empty string,
    converted with [BigInt]) and [fallback] otherwise. *)
Definition overrideOr (override : option string) (fallback : Z) (v : Z) : Prop :=
  match override with
  | Some (String c s) => JS.BigInt (String c s) = Some v
  | _ => v = fallback
  end.

(** The shape test of the status route. *)
Definition hashShape (txHash : string) : bool :=
  JS.startsWith txHash "0x" && (String.length txHash =? 66)%nat.

(** Every character after the prefix is a hexadecimal digit. *)
Fixpoint allHex (s : string) : bool :=
  match s with
  | EmptyString => true
  | String c s' =>
      match JS.digitValue 16 c with
      | Some _ => allHex s'
      | None => false
      end
  end.

Definition isHexHash (txHash : string) : bool :=
  match txHash with
  | String "0" (String "x" r) => (String.length r =? 64)%nat && allHex r
  | _ => false
  end.

(** The two reads [buildUnsignedTransaction] makes. *)
Definition isBuildCall (e : Event) : bool :=
  match e with
  | EvGetTransactionCount _ _ | EvGetFeeData _ => true
  | _ => false
  end.

(** Neither the database, nor the custody provider, nor the node. *)
Definition identityOnly (e : Event) : Prop :=
  isDatabaseCall e = false /\ isCustodyCall e = false /\ isChainCall e = false.

(** Every [to] the request carries is rejected by [getAddress]. *)
Definition malformedTo (lib : EthersLib) (req : Request) : Prop :=
  forall s, req_to (body req) = Some s -> malformed lib s.

(** The 400 response of the readiness check. *)
Definition walletNotReady : HttpResponse :=
  json 400 (ErrorBody "Wallet Not Ready"
              "Wallet is still being created. Please try again later.").

(** The error [getWallet] throws when the custody API call fails with [e]. *)
Definition fetchError (walletId : string) (e : JS.Error) : JS.Error :=
  JS.newError ("Failed to fetch wallet " +:+ walletId +:+ ": " +:+ JS.upstreamMessage e).

(** The ways a run of [pollWalletReady] can end. *)
Inductive PollOutcome (walletId : string) (maxAttempts delayMs : Z)
          (r : result ParaWallet) (es : list Event) : Prop :=
| BecameReady (pre : list Event) (w : ParaWallet) :
    es = pre ++ [EvParaGetWallet walletId (Ok w)] ->
    Forall (pendingEvent walletId delayMs) pre ->
    String.eqb (pw_status w) "ready" = true ->
    r = Ok w ->
    PollOutcome walletId maxAttempts delayMs r es
| TimedOut :
    Forall (pendingEvent walletId delayMs) es ->
    fetches es = Z.to_nat maxAttempts ->
    r = Throw (paraService.timeoutError walletId maxAttempts) ->
    PollOutcome walletId maxAttempts delayMs r es
| FetchFailed (pre : list Event) (e : JS.Error) :
    es = pre ++ [EvParaGetWallet walletId (Throw e)] ->
    Forall (pendingEvent walletId delayMs) pre ->
    r = Throw (fetchError walletId e) ->
    PollOutcome walletId maxAttempts delayMs r es.

(** The same library with another [serializeTransaction]. *)
Definition withSerializer (lib : EthersLib) (serialize : TxObject -> result string)
  : EthersLib :=
  {| getAddress := getAddress lib; serializeTransaction := serialize |}.

(** A run of [buildUnsignedTransaction] makes the calls [es] and gets as
    far as its call of [serializeTransaction], to which it passes the
    object [tx]: whatever that function is, the run ends as the function
    does on [tx]. *)
Definition buildsObject (lib : EthersLib) (W : World) (cfg : Config.t)
    (fromAddress : string) (request : SendTransactionRequest) (h : Trace)
    (tx : TxObject) (es : list Event) : Prop :=
  forall serialize : TxObject -> result string,
    blockchainService.buildUnsignedTransaction (withSerializer lib serialize) W cfg
      fromAddress request h
    = (match serialize tx with
       | Ok serialized => Ok (tx, serialized)
       | Throw error =>
           Throw (JS.newError ("Failed to build transaction: " +:+ JS.message error))
       end, es).

(** The module was evaluated without throwing. *)
Definition started (r : result Config.t) : Prop :=
  match r with
  | Ok _ => True
  | Throw _ => False
  end.

(** Variables the configuration reads but does not require. *)
Definition optionalVars : list string :=
  [ "PORT"; "NODE_ENV"; "PARA_BASE_URL"; "SEPOLIA_CHAIN_ID" ].

(** Only decimal digits. *)
Fixpoint allDec (s : string) : bool :=
  match s with
  | EmptyString => true
  | String c s' =>
      match JS.digitValue 10 c with
      | Some _ => allDec s'
      | None => false
      end
  end.

(* ===================================================================== *)
(** * Test doubles for the remote services *)
(* ===================================================================== *)

Module Fixture.

Definition isHexAddress (s : string) : bool :=
  match s with
  | String "0" (String "x" r) => (String.length r =? 40)%nat && allHex r
  | _ => false
  end.

(** Renders the fields in a fixed order. *)
Definition render (tx : TxObject) : string :=
  "0x02:" +:+ JS.toString (default 0 (tx_chainId tx))
  +:+ ":" +:+ JS.toString (tx_nonce tx)
  +:+ ":" +:+ JS.toString (tx_maxPriorityFeePerGas tx)
  +:+ ":" +:+ JS.toString (tx_maxFeePerGas tx)
  +:+ ":" +:+ JS.toString (tx_gasLimit tx)
  +:+ ":" +:+ tx_to tx
  +:+ ":" +:+ JS.toString (tx_value tx)
  +:+ ":" +:+ tx_data tx
  +:+ ":" +:+ default "" (tx_signature tx).

(** Accepts [0x] followed by 40 hexadecimal digits, unchanged. *)
Definition lib : EthersLib :=
  {| getAddress := fun s =>
       if isHexAddress s then Ok s else Throw (JS.newError "invalid address");
     serializeTransaction := fun tx => Ok (render tx) |}.

Definition sender : string := "0x1234567890abcdef1234567890abcdef12345678".
Definition recipient : string := "0x8ba1f109551bd432803012645ac136ddd64dba72".
Definition minedHash : string :=
  "0x1234567890abcdef1234567890abcdef1234567890abcdef1234567890abcdef".
Definition unminedHash : string :=
  "0xfedcba0987654321fedcba0987654321fedcba0987654321fedcba0987654321".
Definition notHexHash : string :=
  "0xzzzzzzzzzzzzzzzzzzzzzzzzzzzzzzzzzzzzzzzzzzzzzzzzzzzzzzzzzzzzzzzz".

Definition mapping : UserWallet :=
  {| supabase_id := "user-1";
     para_wallet_id := "wallet-1";
     wallet_address := None;
     created_at := "2024-01-01T00:00:00.000Z";
     updated_at := "2024-01-01T00:00:00.000Z" |}.

Definition creating : ParaWallet :=
  {| pw_id := "wallet-1"; pw_type := "EVM"; pw_status := "creating";
     pw_address := None; pw_publicKey := None;
     pw_createdAt := "2024-01-01T00:00:00.000Z" |}.

Definition ready : ParaWallet :=
  {| pw_id := "wallet-1"; pw_type := "EVM"; pw_status := "ready";
     pw_address := Some sender; pw_publicKey := Some "0x04ab";
     pw_createdAt := "2024-01-01T00:00:00.000Z" |}.

Definition receipt (status : Z) : Receipt :=
  {| rc_hash := minedHash;
     rc_blockNumber := 4567890;
     rc_blockHash := unminedHash;
     rc_status := Some status;
     rc_gasUsed := 21000;
     rc_gasPrice := Some 50000000000;
     rc_from := sender;
     rc_to := Some recipient;
     rc_value := None |}.

(** The wallet is ready from the [k]-th fetch on (counting from 0). *)
Definition readyAfter (k : nat) (n : nat) : result ParaWallet :=
  if (n <? k)%nat then Ok creating else Ok ready.

(** The custody API is unreachable. *)
Definition unreachable (n : nat) : result ParaWallet :=
  Throw {| JS.message := "Network Error"; JS.response_data_message := None |}.

(** A world in which the [n]-th wallet fetch is answered by [walletAt n], the
    balance of every address is [balance] and [minedHash] was mined with the
    given receipt status. *)
Definition world (walletAt : nat -> result ParaWallet) (balance : Z) (receiptStatus : Z)
  : World :=
  {| supabase_getUser := fun _ token =>
       if String.eqb token "good-token"
       then {| gu_user := Some {| su_id := "user-1"; su_email := "a@x.com" |};
               gu_error := None |}
       else {| gu_user := None; gu_error := Some (JS.newError "invalid JWT") |};
     supabase_selectUserWallet := fun _ id =>
       if String.eqb id "user-1"
       then {| db_data := Some mapping; db_error := None |}
       else {| db_data := None;
               db_error := Some {| db_code := "PGRST116"; db_message := "no rows" |} |};
     para_getWallet := fun h _ => walletAt (fetches h);
     para_signRaw := fun _ _ _ =>
       Ok {| sr_signature := "c0ffee"; sr_data := "0xdeadbeef" |};
     provider_getBalance := fun _ _ => Ok balance;
     provider_getTransactionCount := fun _ _ => Ok 7;
     provider_getFeeData := fun _ =>
       Ok {| fd_maxFeePerGas := Some 30000000000;
             fd_maxPriorityFeePerGas := Some 2000000000 |};
     provider_broadcastTransaction := fun _ _ => Ok minedHash;
     provider_waitForTransaction := fun _ txHash _ =>
       if String.eqb txHash minedHash then Ok (Some (receipt receiptStatus)) else Ok None |}.

(** An environment that sets the six required variables and nothing else. *)
Definition env : gmap string string :=
  list_to_map
    [ ("SUPABASE_URL", "https://p.supabase.co");
      ("SUPABASE_ANON_KEY", "anon");
      ("SUPABASE_SERVICE_ROLE_KEY", "service");
      ("SUPABASE_JWT_SECRET", "secret");
      ("PARA_API_KEY", "key");
      ("SEPOLIA_RPC_URL", "https://rpc.sepolia.org") ].

Definition cfg : Config.t := Config.config env.

Definition sendRequest (to amount : string) : SendTransactionRequest :=
  {| req_to := Some to; req_amount := Some amount;
     req_gasLimit := None; req_maxFeePerGas := None; req_maxPriorityFeePerGas := None |}.

(** A request that passed the middleware. *)
Definition authed (b : SendTransactionRequest) (txHash : string) : Request :=
  {| headers_authorization := Some "Bearer good-token";
     user := Some {| userId := "user-1"; email := "a@x.com" |};
     body := b;
     params_txHash := txHash |}.

(** The same request as it arrives. *)
Definition incoming (authorization : option string) (b : SendTransactionRequest)
  : Request :=
  {| headers_authorization := authorization;
     user := None;
     body := b;
     params_txHash := "" |}.

End Fixture.

(* ===================================================================== *)
(** * routes/wallet.ts: the status route *)
(* ===================================================================== *)

Module walletStatus.

(** The JSON bodies of [GET /status]. *)
Inductive StatusBody : Type :=
| StatusError (error message : string)
| StatusOk (status : string) (address : option string).

Section WithWorld.
Context (W : World).

(** The handler of [GET /status]: response code and body. *)
Definition status (req : Request) : M (Z * StatusBody) :=
  tryCatch
    (match transaction.userIdOf req with
     | Some (String c s) =>
         let* userWallet := databaseService.getUserWallet W (String c s) in
         match userWallet with
         | None => ret (404, StatusError "Not Found" "Wallet not found for this user")
         | Some userWallet =>
             let* paraWallet := paraService.getWallet W (para_wallet_id userWallet) in
             ret (200, StatusOk (pw_status paraWallet) (orNull (pw_address paraWallet)))
         end
     | _ => ret (401, StatusError "Unauthorized" "User ID not found in token")
     end)
    (fun error => ret (500, StatusError "Internal Server Error" (JS.message error))).

End WithWorld.
End walletStatus.

(* ===================================================================== *)
(** * The signup and login path *)
(* ===================================================================== *)

(** The same monad of async functions, over any type of logged calls. *)
Module Flow.
Section Over.
Context {E : Type}.

Definition M (A : Type) : Type := list E -> result A * list E.

Definition ret {A : Type} (a : A) : M A := fun _ => (Ok a, []).

Definition throw {A : Type} (e : JS.Error) : M A := fun _ => (Throw e, []).

Definition bind {A B : Type} (m : M A) (k : A -> M B) : M B :=
  fun h =>
    match m h with
    | (Ok a, es) => let '(r, es') := k a (h ++ es) in (r, es ++ es')
    | (Throw e, es) => (Throw e, es)
    end.

Definition tryCatch {A : Type} (m : M A) (handler : JS.Error -> M A) : M A :=
  fun h =>
    match m h with
    | (Ok a, es) => (Ok a, es)
    | (Throw e, es) => let '(r, es') := handler e (h ++ es) in (r, es ++ es')
    end.

(** An awaited remote call that answers with a value, logged. *)
Definition query {A : Type} (oracle : list E -> A) (ev : A -> E) : M A :=
  fun h => let r := oracle h in (Ok r, [ev r]).

End Over.
End Flow.

Notation "'let+' x ':=' m 'in' k" := (Flow.bind m (fun x => k))
  (at level 10, x pattern, m at level 100, k at level 200).

Module AuthFlow.

(** [SignupRequest] / [LoginRequest] as they arrive in [req.body]. *)
Record Credentials : Type := {
  cr_email : option string;
  cr_password : option string
}.

(** [AuthResponse] of types/index.ts. *)
Record User : Type := {
  au_id : string;
  au_email : string
}.

Record Session : Type := {
  access_token : string;
  token_type : string
}.

Record AuthResponse : Type := {
  ar_user : User;
  ar_session : Session
}.

(** [{ data: { user, session }, error }] of [supabase.auth.signUp] and
    [signInWithPassword]; the session is given by its access token. *)
Record AuthResult : Type := {
  ares_user : option SupabaseUser;
  ares_session : option string;
  ares_error : option JS.Error
}.

(** What the HTTP client throws: [error.message] and [error.response?.status]. *)
Record AxiosError : Type := {
  ax_message : string;
  ax_status : option Z
}.

(** The calls of the signup and login path.  The row written by
    [saveUserWallet] is logged without its two timestamps. *)
Inductive Event : Type :=
| EvSignUp (email password : string) (r : AuthResult)
| EvSignInWithPassword (email password : string) (r : AuthResult)
| EvCreateWallet (userIdentifier : string) (r : ParaWallet + AxiosError)
| EvInsertUserWallet (supabaseId paraWalletId : string) (walletAddress : option string)
                     (r : DbResponse)
| EvUpdateWalletAddress (supabaseId walletAddress : string) (r : DbResponse).

Record World : Type := {
  auth_signUp : list Event -> string -> string -> AuthResult;
  auth_signInWithPassword : list Event -> string -> string -> AuthResult;
  para_postWallet : list Event -> string -> ParaWallet + AxiosError;
  db_insertUserWallet : list Event -> string -> string -> option string -> DbResponse;
  db_updateWalletAddress : list Event -> string -> string -> DbResponse
}.

Definition M (A : Type) : Type := @Flow.M Event A.

(** The part shared by [signup] and [login]: what is made of the answer. *)
Definition authResponseOf (failure : string) (r : AuthResult) : M AuthResponse :=
  match ares_error r with
  | Some error => Flow.throw error
  | None =>
      match ares_user r, ares_session r with
      | Some user, Some token =>
          Flow.ret {| ar_user := {| au_id := su_id user; au_email := su_email user |};
                      ar_session := {| access_token := token; token_type := "Bearer" |} |}
      | _, _ => Flow.throw (JS.newError failure)
      end
  end.

Module supabaseService.
Section WithWorld.
Context (W : World).

Definition signup (email password : string) : M AuthResponse :=
  let+ r := Flow.query (fun h => auth_signUp W h email password) (EvSignUp email password) in
  authResponseOf "Signup failed: No user or session returned" r.

Definition login (email password : string) : M AuthResponse :=
  let+ r := Flow.query (fun h => auth_signInWithPassword W h email password)
                       (EvSignInWithPassword email password) in
  authResponseOf "Login failed: Invalid credentials" r.

End WithWorld.
End supabaseService.

Module paraService.
Section WithWorld.
Context (W : World).

(** [POST /v1/wallets] with type EVM and the user id as a CUSTOM_ID. *)
Definition createWallet (supabaseUserId : string) : M ParaWallet :=
  let+ r := Flow.query (fun h => para_postWallet W h supabaseUserId)
                       (EvCreateWallet supabaseUserId) in
  match r with
  | inl wallet => Flow.ret wallet
  | inr error =>
      match ax_status error with
      | Some 409 =>
          Flow.throw (JS.newError
            ("Wallet already exists for user " +:+ supabaseUserId
             +:+ ". One wallet per (type, scheme, userIdentifier) is allowed."))
      | _ =>
          Flow.throw (JS.newError ("Para wallet creation failed: " +:+ ax_message error))
      end
  end.

End WithWorld.
End paraService.

Module databaseService.
Section WithWorld.
Context (W : World).

Definition saveUserWallet (supabaseId paraWalletId : string) (walletAddress : option string)
  : M (option UserWallet) :=
  let+ r := Flow.query (fun h => db_insertUserWallet W h supabaseId paraWalletId walletAddress)
                       (EvInsertUserWallet supabaseId paraWalletId walletAddress) in
  match db_error r with
  | Some error => Flow.throw (JS.newError ("Failed to save user wallet: " +:+ db_message error))
  | None => Flow.ret (db_data r)
  end.

Definition updateWalletAddress (supabaseId walletAddress : string) : M (option UserWallet) :=
  let+ r := Flow.query (fun h => db_updateWalletAddress W h supabaseId walletAddress)
                       (EvUpdateWalletAddress supabaseId walletAddress) in
  match db_error r with
  | Some error =>
      Flow.throw (JS.newError ("Failed to update wallet address: " +:+ db_message error))
  | None => Flow.ret (db_data r)
  end.

End WithWorld.
End databaseService.

(** The JSON bodies of routes/auth.ts. *)
Inductive Body : Type :=
| ErrorBody (error message : string)
| SignupBody (user : User) (session : Session)
             (walletId walletStatus : string) (walletAddress : option string)
             (walletMessage : string)
| LoginBody (response : AuthResponse).

Record Response : Type := json {
  http_status : Z;
  http_body : Body
}.

Module routes.
Section WithWorld.
Context (W : World).

(** The handler of [POST /signup]. *)
Definition signup (body : Credentials) : M Response :=
  Flow.tryCatch
    (match cr_email body, cr_password body with
     | Some (String c1 s1), Some (String c2 s2) =>
         let email := String c1 s1 in
         let password := String c2 s2 in
         let+ authResponse := supabaseService.signup W email password in
         let supabaseUserId := au_id (ar_user authResponse) in
         let+ created :=
           Flow.tryCatch
             (let+ wallet := paraService.createWallet W supabaseUserId in
              Flow.ret (inr wallet))
             (fun paraError =>
                Flow.ret (inl (json 500 (ErrorBody "Wallet Creation Failed"
                                           (JS.message paraError))))) in
         match created with
         | inl response => Flow.ret response
         | inr paraWallet =>
             let+ saved :=
               Flow.tryCatch
                 (let+ _ := databaseService.saveUserWallet W supabaseUserId
                              (pw_id paraWallet) None in
                  Flow.ret None)
                 (fun dbError =>
                    Flow.ret (Some (json 500 (ErrorBody "Database Error"
                                                (JS.message dbError))))) in
             match saved with
             | Some response => Flow.ret response
             | None =>
                 Flow.ret (json 201
                   (SignupBody (ar_user authResponse) (ar_session authResponse)
                      (pw_id paraWallet) (pw_status paraWallet)
                      (orNull (pw_address paraWallet))
                      (if String.eqb (pw_status paraWallet) "creating"
                       then "Wallet is being created. Poll the /wallet endpoint to check status."
                       else "Wallet is ready!")))
             end
         end
     | _, _ =>
         Flow.ret (json 400 (ErrorBody "Bad Request" "Email and password are required"))
     end)
    (fun error =>
       Flow.ret (json 500 (ErrorBody "Internal Server Error" (JS.message error)))).

(** The handler of [POST /login]. *)
Definition login (body : Credentials) : M Response :=
  Flow.tryCatch
    (match cr_email body, cr_password body with
     | Some (String c1 s1), Some (String c2 s2) =>
         let+ authResponse := supabaseService.login W (String c1 s1) (String c2 s2) in
         Flow.ret (json 200 (LoginBody authResponse))
     | _, _ =>
         Flow.ret (json 400 (ErrorBody "Bad Request" "Email and password are required"))
     end)
    (fun _ => Flow.ret (json 401 (ErrorBody "Unauthorized" "Invalid email or password"))).

End WithWorld.
End routes.

(** Test doubles: the identity provider knows [a@x.com]; the custody API
    answers the wallet request with [wallet]; the insert answers [saved]. *)
Module Fixture.

Definition world (wallet : ParaWallet + AxiosError) (saved : DbResponse) : World :=
  {| auth_signUp := fun _ email _ =>
       if String.eqb email "a@x.com"
       then {| ares_user := Some {| su_id := "user-1"; su_email := "a@x.com" |};
               ares_session := Some "jwt-1";
               ares_error := None |}
       else {| ares_user := None; ares_session := None;
               ares_error := Some (JS.newError "User already registered") |};
     auth_signInWithPassword := fun _ email password =>
       if String.eqb email "a@x.com" && String.eqb password "secret"
       then {| ares_user := Some {| su_id := "user-1"; su_email := "a@x.com" |};
               ares_session := Some "jwt-2";
               ares_error := None |}
       else {| ares_user := None; ares_session := None;
               ares_error := Some (JS.newError "Invalid login credentials") |};
     para_postWallet := fun _ _ => wallet;
     db_insertUserWallet := fun _ _ _ _ => saved;
     db_updateWalletAddress := fun _ _ _ => saved |}.

Definition credentials (email password : string) : Credentials :=
  {| cr_email := Some email; cr_password := Some password |}.

Definition inserted : DbResponse :=
  {| db_data := Some Fixture.mapping; db_error := None |}.

Definition conflict : AxiosError :=
  {| ax_message := "Request failed with status code 409"; ax_status := Some 409 |}.

End Fixture.

End AuthFlow.

(* ===================================================================== *)
(** * More vocabulary *)
(* ===================================================================== *)

(** Pauses of the polling loop. *)
Fixpoint sleeps (es : list Event) : nat :=
  match es with
  | [] => 0%nat
  | EvSleep _ :: es' => S (sleeps es')
  | _ :: es' => sleeps es'
  end.

(** Broadcast attempts. *)
Fixpoint broadcasts (es : list Event) : nat :=
  match es with
  | [] => 0%nat
  | EvBroadcast _ _ :: es' => S (broadcasts es')
  | _ :: es' => broadcasts es'
  end.

(** No space character in the string. *)
Fixpoint noSpace (s : string) : bool :=
  match s with
  | EmptyString => true
  | String c s' => negb (Ascii.eqb c " ") && noSpace s'
  end.

(** The fee data lacks a usable fee: a value is [null] or [0n]. *)
Definition feeMissing (fee : FeeData) : Prop :=
  blockchainService.truthyBigint (fd_maxFeePerGas fee) = false \/
  blockchainService.truthyBigint (fd_maxPriorityFeePerGas fee) = false.

(** The database answered that the user has no row: the PostgREST code
    for an empty [.single()], or no error and no data. *)
Definition noRow (r : DbResponse) : Prop :=
  match db_error r with
  | Some error => String.eqb (db_code error) "PGRST116" = true
  | None => db_data r = None
  end.

(** [req.user = user] *)
Definition withUser (req : Request) (u : AuthUser) : Request :=
  {| headers_authorization := headers_authorization req;
     user := Some u;
     body := body req;
     params_txHash := params_txHash req |}.

(** Test doubles with one failing part: the custody API refuses to sign,
    the node rejects the raw transaction, the node has no fee estimate. *)
Module Faulty.

Definition signingDown (W : World) : World :=
  {| supabase_getUser := supabase_getUser W;
     supabase_selectUserWallet := supabase_selectUserWallet W;
     para_getWallet := para_getWallet W;
     para_signRaw := fun _ _ _ =>
       Throw {| JS.message := "Request failed with status code 503";
                JS.response_data_message := Some "signer unavailable" |};
     provider_getBalance := provider_getBalance W;
     provider_getTransactionCount := provider_getTransactionCount W;
     provider_getFeeData := provider_getFeeData W;
     provider_broadcastTransaction := provider_broadcastTransaction W;
     provider_waitForTransaction := provider_waitForTransaction W |}.

Definition nodeRejects (W : World) : World :=
  {| supabase_getUser := supabase_getUser W;
     supabase_selectUserWallet := supabase_selectUserWallet W;
     para_getWallet := para_getWallet W;
     para_signRaw := para_signRaw W;
     provider_getBalance := provider_getBalance W;
     provider_getTransactionCount := provider_getTransactionCount W;
     provider_getFeeData := provider_getFeeData W;
     provider_broadcastTransaction := fun _ _ =>
       Throw (JS.newError "insufficient funds for gas * price + value");
     provider_waitForTransaction := provider_waitForTransaction W |}.

Definition noFeeEstimate (W : World) : World :=
  {| supabase_getUser := supabase_getUser W;
     supabase_selectUserWallet := supabase_selectUserWallet W;
     para_getWallet := para_getWallet W;
     para_signRaw := para_signRaw W;
     provider_getBalance := provider_getBalance W;
     provider_getTransactionCount := provider_getTransactionCount W;
     provider_getFeeData := fun _ =>
       Ok {| fd_maxFeePerGas := None; fd_maxPriorityFeePerGas := Some 2000000000 |};
     provider_broadcastTransaction := provider_broadcastTransaction W;
     provider_waitForTransaction := provider_waitForTransaction W |}.

(** A send request that overrides all three gas fields. *)
Definition overridden (to amount : string) : SendTransactionRequest :=
  {| req_to := Some to; req_amount := Some amount;
     req_gasLimit := Some "50000";
     req_maxFeePerGas := Some "40000000000";
     req_maxPriorityFeePerGas := Some "1000000000" |}.

(** [serializeTransaction] as the program finds it in a release of ethers
    that exports no function of that name: the call throws a TypeError. *)
Definition notAFunction : JS.Error :=
  JS.newError "serializeTransaction is not a function".

Definition noSerializer : EthersLib :=
  withSerializer Fixture.lib (fun _ => Throw notAFunction).

(** Addresses without a letter: [getAddress] returns them as they are. *)
Definition plainSender : string := "0x1111111111111111111111111111111111111111".
Definition plainRecipient : string := "0x2222222222222222222222222222222222222222".

End Faulty.

Module SignupSteps.
Import AuthFlow.

(** The steps of a signup, one after the other. *)
Inductive Shape (W : World) (body : Credentials) (h : list Event)
  : Response -> list Event -> Prop :=
| NoCredentials :
    JS.truthy (cr_email body) = false \/ JS.truthy (cr_password body) = false ->
    Shape W body h (json 400 (ErrorBody "Bad Request" "Email and password are required")) []
| IdentityFailed email password answer message :
    cr_email body = Some email -> cr_password body = Some password ->
    answer = auth_signUp W h email password ->
    match ares_error answer with
    | Some error => message = JS.message error
    | None =>
        (ares_user answer = None \/ ares_session answer = None) /\
        message = "Signup failed: No user or session returned"
    end ->
    Shape W body h (json 500 (ErrorBody "Internal Server Error" message))
      [EvSignUp email password answer]
| WalletFailed email password answer user token error message :
    cr_email body = Some email -> cr_password body = Some password ->
    answer = auth_signUp W h email password ->
    ares_error answer = None -> ares_user answer = Some user ->
    ares_session answer = Some token ->
    para_postWallet W (h ++ [EvSignUp email password answer]) (su_id user) = inr error ->
    message
    = (if decide (ax_status error = Some 409)
       then "Wallet already exists for user " +:+ su_id user
            +:+ ". One wallet per (type, scheme, userIdentifier) is allowed."
       else "Para wallet creation failed: " +:+ ax_message error) ->
    Shape W body h (json 500 (ErrorBody "Wallet Creation Failed" message))
      [EvSignUp email password answer; EvCreateWallet (su_id user) (inr error)]
| Stored email password answer user token wallet saved response :
    cr_email body = Some email -> cr_password body = Some password ->
    answer = auth_signUp W h email password ->
    ares_error answer = None -> ares_user answer = Some user ->
    ares_session answer = Some token ->
    para_postWallet W (h ++ [EvSignUp email password answer]) (su_id user) = inl wallet ->
    saved = db_insertUserWallet W
              (h ++ [EvSignUp email password answer; EvCreateWallet (su_id user) (inl wallet)])
              (su_id user) (pw_id wallet) None ->
    response
    = match db_error saved with
      | Some error =>
          json 500 (ErrorBody "Database Error"
                      ("Failed to save user wallet: " +:+ db_message error))
      | None =>
          json 201
            (SignupBody {| au_id := su_id user; au_email := su_email user |}
               {| access_token := token; token_type := "Bearer" |}
               (pw_id wallet) (pw_status wallet) (orNull (pw_address wallet))
               (if String.eqb (pw_status wallet) "creating"
                then "Wallet is being created. Poll the /wallet endpoint to check status."
                else "Wallet is ready!"))
      end ->
    Shape W body h response
      [EvSignUp email password answer; EvCreateWallet (su_id user) (inl wallet);
       EvInsertUserWallet (su_id user) (pw_id wallet) None saved].

End SignupSteps.

(* ===================================================================== *)
(** * Facts about the JavaScript conversions *)
(* ===================================================================== *)

Module JSFacts.

Lemma allDec_string_of_uint (d : Decimal.uint) :
  allDec (NilEmpty.string_of_uint d) = true.
Proof. induction d; simpl; auto. Qed.

Lemma digit_not_space (c : ascii) (v : Z) :
  JS.digitValue 10 c = Some v -> JS.isWhiteSpace c = false.
Proof.
  destruct c as [[] [] [] [] [] [] [] []]; vm_compute; congruence.
Qed.

Lemma trimStart_allDec (s : string) : allDec s = true -> JS.trimStart s = s.
Proof.
  destruct s as [|c s]; simpl; auto.
  destruct (JS.digitValue 10 c) eqn:E; [|discriminate].
  intros _. now rewrite (digit_not_space _ _ E).
Qed.

Lemma trimEnd_allDec (s : string) : allDec s = true -> JS.trimEnd s = s.
Proof.
  induction s as [|c s IH]; simpl; auto.
  destruct (JS.digitValue 10 c) eqn:E; [|discriminate].
  intros H. rewrite (IH H). destruct s; auto.
  now rewrite (digit_not_space _ _ E).
Qed.

Lemma BigInt_allDec (c : ascii) (s : string) :
  allDec (String c s) = true -> JS.BigInt (String c s) = JS.decimalDigits (String c s).
Proof.
  intros H. unfold JS.BigInt, JS.trim.
  rewrite (trimStart_allDec _ H), (trimEnd_allDec _ H).
  simpl in H.
  destruct c as [[] [] [] [] [] [] [] []]; try discriminate H; try reflexivity.
  destruct s as [|c' s']; try reflexivity.
  simpl in H.
  destruct c' as [[] [] [] [] [] [] [] []]; try discriminate H; reflexivity.
Qed.

Lemma BigInt_minus (s : string) :
  allDec s = true -> s <> EmptyString ->
  JS.BigInt (String "-" s) = option_map Z.opp (JS.decimalDigits s).
Proof.
  intros H Hne. unfold JS.BigInt, JS.trim.
  change (JS.trimStart (String "-" s)) with (String "-" s).
  simpl JS.trimEnd. rewrite (trimEnd_allDec _ H).
  destruct s; [congruence|]. reflexivity.
Qed.

Lemma decimalDigits_string_of_uint (d : Decimal.uint) :
  d <> Decimal.Nil ->
  JS.decimalDigits (NilEmpty.string_of_uint d) = Some (Z.of_uint d).
Proof.
  intros Hd. unfold JS.decimalDigits.
  rewrite NilEmpty.usu. destruct d; try congruence; reflexivity.
Qed.

Lemma string_of_uint_pos (p : positive) :
  NilZero.string_of_uint (Pos.to_uint p) = NilEmpty.string_of_uint (Pos.to_uint p)
  /\ NilEmpty.string_of_uint (Pos.to_uint p) <> EmptyString.
Proof.
  pose proof (DecimalPos.Unsigned.to_uint_nonnil p) as Hn.
  unfold NilZero.string_of_uint.
  destruct (Pos.to_uint p); try congruence; split; simpl; congruence.
Qed.

(** A bigint survives the trip through its decimal string. *)
Lemma BigInt_toString (z : Z) : JS.BigInt (JS.toString z) = Some z.
Proof.
  destruct z as [|p|p].
  - reflexivity.
  - unfold JS.toString. simpl Z.to_int. simpl NilZero.string_of_int.
    destruct (string_of_uint_pos p) as [E Hne]. rewrite E.
    pose proof (allDec_string_of_uint (Pos.to_uint p)) as Hd.
    destruct (NilEmpty.string_of_uint (Pos.to_uint p)) as [|c s] eqn:Es;
      [congruence|].
    rewrite (BigInt_allDec _ _ Hd), <- Es.
    rewrite (decimalDigits_string_of_uint _ (DecimalPos.Unsigned.to_uint_nonnil p)).
    f_equal. exact (DecimalZ.of_to (Z.pos p)).
  - unfold JS.toString. simpl Z.to_int. simpl NilZero.string_of_int.
    destruct (string_of_uint_pos p) as [E Hne]. rewrite E.
    pose proof (allDec_string_of_uint (Pos.to_uint p)) as Hd.
    rewrite (BigInt_minus _ Hd Hne).
    rewrite (decimalDigits_string_of_uint _ (DecimalPos.Unsigned.to_uint_nonnil p)).
    simpl. f_equal.
    pose proof (DecimalZ.of_to (Z.neg p)) as H. simpl in H.
    unfold Z.of_int in H. exact H.
Qed.

(** BigInt division by [10^18] of an amount below one ether. *)
Lemma quot_small (b : Z) : 0 <= b < 10 ^ 18 -> Z.quot b (10 ^ 18) = 0.
Proof. intros Hb. apply Z.quot_small. exact Hb. Qed.

End JSFacts.

Module EthersFacts.

Lemma length_append (s1 s2 : string) :
  String.length (s1 +:+ s2) = (String.length s1 + String.length s2)%nat.
Proof. induction s1 as [|c s1 IH]; simpl; [reflexivity | f_equal; exact IH]. Qed.

(** Five rounds of padding always reach 18 digits: the fuel of [padDecimal]
    never cuts the loop short. *)
Lemma padDecimal_enough (decimal : string) :
  (Ethers.decimals <= String.length (Ethers.padDecimal 5 decimal))%nat.
Proof.
  cbn [Ethers.padDecimal].
  repeat match goal with
  | |- context [(String.length ?s <? Ethers.decimals)%nat] =>
      destruct (Nat.ltb_spec (String.length s) Ethers.decimals)
  end; unfold Ethers.decimals, Ethers.Zeros in *;
  rewrite ?length_append in *; cbn [String.length] in *; lia.
Qed.

(** The conversion is exact down to one base unit, and a digit beyond the
    eighteenth is an error, never a rounding. *)
Lemma parseEther_examples :
  Ethers.parseEther "1" = Ok (10 ^ 18) /\
  Ethers.parseEther "1.5" = Ok 1500000000000000000 /\
  Ethers.parseEther "0.000000000000000001" = Ok 1 /\
  Ethers.parseEther "123456789.123456789123456789" = Ok 123456789123456789123456789 /\
  Ethers.parseEther "0.1000000000000000000" = Ok (10 ^ 17) /\
  Ethers.parseEther "0.0000000000000000001"
    = Throw (JS.newError "too many decimals for format") /\
  Ethers.parseEther "1e18" = Throw (JS.newError "invalid FixedNumber string value") /\
  Ethers.parseEther "" = Throw (JS.newError "invalid FixedNumber string value").
Proof. repeat split; vm_compute; reflexivity. Qed.

End EthersFacts.

(* ===================================================================== *)
(** * Running the services *)
(* ===================================================================== *)

Ltac unfold_monad :=
  unfold bind, tryCatch, ret, throw, lift, call, query, sleep in *.

(** One step of case analysis on a run. *)
Ltac step :=
  match goal with
  | H : (_, _) = (_, _) |- _ => inversion H; subst; clear H
  | H : Ok _ = Ok _ |- _ => inversion H; subst; clear H
  | H : Some _ = Some _ |- _ => inversion H; subst; clear H
  | H : json _ _ = json _ _ |- _ => inversion H; subst; clear H
  | H : Ok _ = Throw _ |- _ => discriminate H
  | H : Throw _ = Ok _ |- _ => discriminate H
  | H : context [match ?x with _ => _ end] |- _ => destruct x eqn:?
  end.

Ltac tidy := rewrite ?app_nil_r in *; cbn [app] in *.

Ltac run := repeat step; try discriminate; tidy.

Ltac in_cases :=
  repeat match goal with
  | H : In _ [] |- _ => destruct H
  | H : In _ (_ :: _) |- _ => destruct H as [H | H]
  | H : In _ (_ ++ _) |- _ => apply in_app_or in H; destruct H as [H | H]
  | H : _ \/ _ |- _ => destruct H as [H | H]
  | H : False |- _ => destruct H
  end.

Module Runs.

Lemma fetches_app (es1 es2 : list Event) :
  fetches (es1 ++ es2) = (fetches es1 + fetches es2)%nat.
Proof. induction es1 as [|e es1 IH]; cbn; [reflexivity|]. rewrite IH. lia. Qed.

Lemma BigIntOf_Ok (s : string) (v : Z) :
  blockchainService.BigIntOf s = Ok v -> JS.BigInt s = Some v.
Proof. unfold blockchainService.BigIntOf. destruct (JS.BigInt s); congruence. Qed.

Lemma BigIntOf_toString (z v : Z) :
  blockchainService.BigIntOf (JS.toString z) = Ok v -> v = z.
Proof.
  intros H. apply BigIntOf_Ok in H. rewrite JSFacts.BigInt_toString in H. congruence.
Qed.

Lemma getUserWallet_events W u h r es :
  databaseService.getUserWallet W u h = (r, es) ->
  es = [EvSelectUserWallet u (supabase_selectUserWallet W h u)].
Proof.
  unfold databaseService.getUserWallet. unfold_monad. intros H. run; reflexivity.
Qed.

Lemma getWallet_run W walletId h r es :
  paraService.getWallet W walletId h = (r, es) ->
  exists answer,
    answer = para_getWallet W h walletId /\
    es = [EvParaGetWallet walletId answer] /\
    (forall w, r = Ok w <-> answer = Ok w) /\
    (forall e, answer = Throw e -> r = Throw (fetchError walletId e)).
Proof.
  unfold paraService.getWallet, fetchError. unfold_monad. intros H.
  exists (para_getWallet W h walletId).
  destruct (para_getWallet W h walletId) eqn:E; run.
  all: repeat split; try congruence.
Qed.

Lemma signRaw_events W walletId dataHash h r es :
  paraService.signRaw W walletId dataHash h = (r, es) ->
  exists hexData answer,
    es = [EvParaSignRaw walletId hexData answer] /\
    (forall s, r = Ok s -> answer = Ok s).
Proof.
  unfold paraService.signRaw. unfold_monad. intros H. run.
  all: do 2 eexists; split; [reflexivity|]; intros ? ?; congruence.
Qed.

Lemma broadcast_events W signedTx h r es :
  blockchainService.broadcastTransaction W signedTx h = (r, es) ->
  es = [EvBroadcast signedTx (provider_broadcastTransaction W h signedTx)].
Proof.
  unfold blockchainService.broadcastTransaction. unfold_monad. intros H.
  run; reflexivity.
Qed.

Lemma getBalanceInEth_ok lib W address h s es :
  blockchainService.getBalanceInEth lib W address h = (Ok s, es) ->
  exists a b,
    getAddress lib address = Ok a /\
    provider_getBalance W h a = Ok b /\
    es = [EvGetBalance a (Ok b)] /\
    s = JS.toString (Z.quot b (10 ^ 18)).
Proof.
  unfold blockchainService.getBalanceInEth, blockchainService.getBalance,
    blockchainService.BigIntOf.
  unfold_monad. intros H. run.
  all: match goal with
       | H : JS.BigInt (JS.toString ?z) = _ |- _ =>
           rewrite JSFacts.BigInt_toString in H; inversion H; subst
       end.
  eauto 10.
Qed.

Lemma getNonce_run lib W address h r es :
  blockchainService.getNonce lib W address h = (r, es) ->
  Forall (fun e => isBuildCall e = true) es /\
  forall n, r = Ok n ->
    exists a, getAddress lib address = Ok a /\
              provider_getTransactionCount W h a = Ok n /\
              es = [EvGetTransactionCount a (Ok n)].
Proof.
  unfold blockchainService.getNonce. unfold_monad. intros H. run.
  all: split; [repeat constructor | intros n Hn; try discriminate].
  inversion Hn; subst. eauto.
Qed.

Lemma getGasPrices_run W h r es :
  blockchainService.getGasPrices W h = (r, es) ->
  Forall (fun e => isBuildCall e = true) es /\
  forall g, r = Ok g ->
    exists maxFee maxPriority,
      provider_getFeeData W h
        = Ok {| fd_maxFeePerGas := Some maxFee; fd_maxPriorityFeePerGas := Some maxPriority |} /\
      es = [EvGetFeeData (provider_getFeeData W h)] /\
      g = {| blockchainService.gp_maxFeePerGas := JS.toString maxFee;
             blockchainService.gp_maxPriorityFeePerGas := JS.toString maxPriority |}.
Proof.
  unfold blockchainService.getGasPrices. unfold_monad. intros H. run.
  all: split; [repeat constructor | intros g Hg; try discriminate].
  inversion Hg; subst.
  match goal with H : provider_getFeeData _ _ = Ok ?f |- _ => destruct f; simpl in * end.
  subst. eauto.
Qed.

Lemma build_events lib W cfg fromAddress request h r es :
  blockchainService.buildUnsignedTransaction lib W cfg fromAddress request h = (r, es) ->
  Forall (fun e => isBuildCall e = true) es.
Proof.
  unfold blockchainService.buildUnsignedTransaction.
  intros H. unfold bind, tryCatch, ret, throw, lift in H.
  run.
  all: repeat match goal with
       | H : blockchainService.getNonce _ _ _ _ = _ |- _ =>
           apply getNonce_run in H; destruct H as [H _]
       | H : blockchainService.getGasPrices _ _ = _ |- _ =>
           apply getGasPrices_run in H; destruct H as [H _]
       end.
  all: repeat apply Forall_app_2; auto.
Qed.

Lemma build_ok lib W cfg fromAddress request h tx dataHash es :
  blockchainService.buildUnsignedTransaction lib W cfg fromAddress request h
    = (Ok (tx, dataHash), es) ->
  exists checksumFrom checksumTo a nonce maxFee maxPriority gasLimit maxFeePerGas
         maxPriorityFeePerGas value,
    getAddress lib fromAddress = Ok checksumFrom /\
    blockchainService.getAddressOf lib (req_to request) = Ok checksumTo /\
    getAddress lib checksumFrom = Ok a /\
    provider_getTransactionCount W h a = Ok nonce /\
    provider_getFeeData W (h ++ [EvGetTransactionCount a (Ok nonce)])
      = Ok {| fd_maxFeePerGas := Some maxFee; fd_maxPriorityFeePerGas := Some maxPriority |} /\
    es = [EvGetTransactionCount a (Ok nonce);
          EvGetFeeData (Ok {| fd_maxFeePerGas := Some maxFee;
                              fd_maxPriorityFeePerGas := Some maxPriority |})] /\
    overrideOr (req_gasLimit request) 21000 gasLimit /\
    overrideOr (req_maxFeePerGas request) maxFee maxFeePerGas /\
    overrideOr (req_maxPriorityFeePerGas request) maxPriority maxPriorityFeePerGas /\
    blockchainService.parseEtherOf (req_amount request) = Ok value /\
    tx = {| tx_type := 2;
            tx_to := checksumTo;
            tx_from := checksumFrom;
            tx_value := value;
            tx_data := "0x";
            tx_gasLimit := gasLimit;
            tx_nonce := nonce;
            tx_maxFeePerGas := maxFeePerGas;
            tx_maxPriorityFeePerGas := maxPriorityFeePerGas;
            tx_chainId := Config.chainId (Config.ethereum cfg);
            tx_signature := None |} /\
    serializeTransaction lib tx = Ok dataHash.
Proof.
  unfold blockchainService.buildUnsignedTransaction.
  intros H. unfold bind, tryCatch, ret, throw, lift in H.
  run.
  all: match goal with
       | H : blockchainService.getNonce _ _ _ _ = _ |- _ =>
           apply getNonce_run in H; destruct H as [_ H];
           destruct (H _ eq_refl) as (? & ? & ? & ->); clear H
       end.
  all: match goal with
       | H : blockchainService.getGasPrices _ _ = _ |- _ =>
           apply getGasPrices_run in H; destruct H as [_ H];
           destruct (H _ eq_refl) as (? & ? & Hfee & -> & ->); clear H
       end.
  all: tidy; rewrite Hfee.
  all: cbn [blockchainService.gp_maxFeePerGas blockchainService.gp_maxPriorityFeePerGas] in *.
  all: repeat match goal with
       | H : blockchainService.BigIntOf (JS.toString _) = Ok _ |- _ =>
           apply BigIntOf_toString in H; subst
       | H : blockchainService.BigIntOf (String _ _) = Ok _ |- _ =>
           apply BigIntOf_Ok in H
       end.
  all: do 10 eexists; unfold overrideOr.
  all: repeat split; try eassumption; try reflexivity.
Qed.

Lemma build_not_fetch es walletId r :
  Forall (fun e => isBuildCall e = true) es -> ~ In (EvParaGetWallet walletId r) es.
Proof.
  intros HF HIn. rewrite List.Forall_forall in HF. apply HF in HIn. discriminate.
Qed.

Lemma build_not_broadcast es raw r :
  Forall (fun e => isBuildCall e = true) es -> ~ In (EvBroadcast raw r) es.
Proof.
  intros HF HIn. rewrite List.Forall_forall in HF. apply HF in HIn. discriminate.
Qed.

Lemma ready_not_notReady w c s :
  String.eqb (pw_status w) "ready" = true -> pw_address w = Some (String c s) ->
  ~ notReady w.
Proof.
  intros Hs Ha [H | H]; [congruence|]. rewrite Ha in H. discriminate.
Qed.

Lemma signRaw_ok W walletId dataHash h s es :
  paraService.signRaw W walletId dataHash h = (Ok s, es) ->
  let hexData := if JS.startsWith dataHash "0x" then dataHash else "0x" +:+ dataHash in
  para_signRaw W h walletId hexData = Ok s /\
  es = [EvParaSignRaw walletId hexData (Ok s)].
Proof.
  unfold paraService.signRaw. unfold_monad. intros H. run.
  all: split; reflexivity.
Qed.

Lemma last_two {A : Type} (l l' : list A) (a b a' b' : A) :
  l ++ [a; b] = l' ++ [a'; b'] -> l = l' /\ a = a' /\ b = b'.
Proof.
  intros H.
  change (l ++ [a; b]) with (l ++ [a] ++ [b]) in H.
  change (l' ++ [a'; b']) with (l' ++ [a'] ++ [b']) in H.
  rewrite !app_assoc in H.
  apply app_inj_tail in H. destruct H as [H ->].
  apply app_inj_tail in H. destruct H as [-> ->].
  auto.
Qed.

End Runs.

(* ===================================================================== *)
(** * The send route *)
(* ===================================================================== *)

Ltac use_events :=
  repeat match goal with
  | H : databaseService.getUserWallet _ _ _ = _ |- _ =>
      apply Runs.getUserWallet_events in H
  | H : paraService.getWallet _ _ _ = _ |- _ =>
      apply Runs.getWallet_run in H; destruct H as (? & _ & ? & ? & _)
  | H : paraService.signRaw _ _ _ _ = _ |- _ =>
      apply Runs.signRaw_events in H; destruct H as (? & ? & ? & ?)
  | H : blockchainService.broadcastTransaction _ _ _ = _ |- _ =>
      apply Runs.broadcast_events in H
  end.

(** C1. Whenever a run of the send handler fetched a custody wallet whose
    status is not "ready" or whose address is missing, the handler answers
    400 "Wallet Not Ready", and the only calls it made are the database
    lookup and that fetch: no nonce lookup, no fee lookup, no sign call and
    no broadcast, before or after the check. *)
Theorem C1_wallet_not_ready lib W cfg req h r es walletId w :
  transaction.send lib W cfg req h = (r, es) ->
  In (EvParaGetWallet walletId (Ok w)) es ->
  notReady w ->
  r = Ok walletNotReady /\
  (exists uid answer,
     es = [EvSelectUserWallet uid answer; EvParaGetWallet walletId (Ok w)]) /\
  Forall (fun e => isChainCall e = false) es /\
  Forall (fun e => forall wid d a, e <> EvParaSignRaw wid d a) es.
Proof.
  intros H HIn Hnr.
  unfold transaction.send in H.
  unfold bind, tryCatch, ret, throw, lift in H.
  run.
  all: try match goal with
       | H : blockchainService.buildUnsignedTransaction _ _ _ _ _ _ = _ |- _ =>
           apply Runs.build_events in H
       end.
  all: use_events; subst; cbn [app] in HIn; in_cases; try discriminate.
  all: try match goal with
       | H : In _ ?l, HF : Forall _ ?l |- _ => destruct (Runs.build_not_fetch _ _ _ HF H)
       end.
  all: match goal with
       | H : EvParaGetWallet _ _ = EvParaGetWallet _ _ |- _ => inversion H; subst; clear H
       end.
  all: match goal with
       | H : forall w0, _ <-> Ok ?w = Ok w0 |- _ =>
           pose proof (proj2 (H w) eq_refl) as Hfetched; inversion Hfetched; subst
       end.
  all: try (exfalso; eapply Runs.ready_not_notReady; eassumption).
  all: cbn [app]; split; [reflexivity|]; split; [eauto|].
  all: split; repeat constructor; intros; discriminate.
Qed.

Lemma C1_wallet_not_ready_witness :
  let W := Fixture.world (Fixture.readyAfter 1) 0 1 in
  let req := Fixture.authed (Fixture.sendRequest Fixture.recipient "0.1") "" in
  let es := [EvSelectUserWallet "user-1"
               {| db_data := Some Fixture.mapping; db_error := None |};
             EvParaGetWallet "wallet-1" (Ok Fixture.creating)] in
  transaction.send Fixture.lib W Fixture.cfg req [] = (Ok walletNotReady, es) /\
  In (EvParaGetWallet "wallet-1" (Ok Fixture.creating)) es /\
  notReady Fixture.creating /\
  Forall (fun e => isChainCall e = false) es.
Proof.
  intros W req es.
  assert (Hrun : transaction.send Fixture.lib W Fixture.cfg req [] = (Ok walletNotReady, es))
    by (vm_compute; reflexivity).
  assert (HIn : In (EvParaGetWallet "wallet-1" (Ok Fixture.creating)) es)
    by (right; left; reflexivity).
  assert (Hnr : notReady Fixture.creating) by (left; reflexivity).
  repeat split; try assumption.
  exact (proj1 (proj2 (proj2
    (C1_wallet_not_ready Fixture.lib W Fixture.cfg req [] _ _ _ _ Hrun HIn Hnr)))).
Defined.

(** C2. [serializeWithSignature] hands to the serialiser the transaction
    object it was given with one key added, the signature string prefixed
    with 0x when it lacks the prefix; every other field is passed on as it
    is.  In the send handler the object is the orchestrator's own, the one
    [buildUnsignedTransaction] returned, and the string is the signature of
    the answer the signer gave to the serialisation of that object:
    whenever a run reaches the broadcast, the bytes broadcast are the
    serialisation of that object with that signature.  [to], [value],
    [nonce], [gasLimit], [maxFeePerGas], [maxPriorityFeePerGas] and
    [chainId], as well as [type], [from] and [data], are those of the
    unsigned transaction; the [data] echoed by the signer does not enter
    the result. *)
Theorem C2_signature_is_the_only_addition lib W cfg req h :
  (forall tx signature,
     blockchainService.serializeWithSignature lib tx signature
     = serializeTransaction lib
         {| tx_type := tx_type tx;
            tx_to := tx_to tx;
            tx_from := tx_from tx;
            tx_value := tx_value tx;
            tx_data := tx_data tx;
            tx_gasLimit := tx_gasLimit tx;
            tx_nonce := tx_nonce tx;
            tx_maxFeePerGas := tx_maxFeePerGas tx;
            tx_maxPriorityFeePerGas := tx_maxPriorityFeePerGas tx;
            tx_chainId := tx_chainId tx;
            tx_signature :=
              Some (if JS.startsWith signature "0x" then signature
                    else "0x" +:+ signature) |}) /\
  (forall r es raw answer,
     transaction.send lib W cfg req h = (r, es) ->
     In (EvBroadcast raw answer) es ->
     exists fromAddress pre built tx dataHash walletId signature echo,
       let hexData := if JS.startsWith dataHash "0x" then dataHash else "0x" +:+ dataHash in
       es = pre ++ built
              ++ [EvParaSignRaw walletId hexData
                    (Ok {| sr_signature := signature; sr_data := echo |});
                  EvBroadcast raw answer] /\
       blockchainService.buildUnsignedTransaction lib W cfg fromAddress (body req) (h ++ pre)
         = (Ok (tx, dataHash), built) /\
       para_signRaw W (h ++ pre ++ built) walletId hexData
         = Ok {| sr_signature := signature; sr_data := echo |} /\
       tx_signature tx = None /\
       serializeTransaction lib
         {| tx_type := tx_type tx;
            tx_to := tx_to tx;
            tx_from := tx_from tx;
            tx_value := tx_value tx;
            tx_data := tx_data tx;
            tx_gasLimit := tx_gasLimit tx;
            tx_nonce := tx_nonce tx;
            tx_maxFeePerGas := tx_maxFeePerGas tx;
            tx_maxPriorityFeePerGas := tx_maxPriorityFeePerGas tx;
            tx_chainId := tx_chainId tx;
            tx_signature :=
              Some (if JS.startsWith signature "0x" then signature
                    else "0x" +:+ signature) |}
       = Ok raw).
Proof.
  split; [reflexivity|].
  intros r es raw answer H HIn.
  unfold transaction.send in H.
  unfold bind, tryCatch, ret, throw, lift in H.
  run.
  all: try match goal with
       | H : blockchainService.buildUnsignedTransaction _ _ _ _ _ _ = _ |- _ =>
           pose proof (Runs.build_events _ _ _ _ _ _ _ _ H) as Hbuilt
       end.
  all: try match goal with
       | H : paraService.signRaw _ _ _ _ = (Ok _, _) |- _ =>
           apply Runs.signRaw_ok in H; cbn zeta in H; destruct H as [Hsign ->]
       end.
  all: use_events; subst; cbn [app] in HIn; in_cases; try discriminate.
  all: try match goal with
       | H : In _ ?l, HF : Forall _ ?l |- _ => destruct (Runs.build_not_broadcast _ _ _ HF H)
       end.
  all: match goal with
       | H : EvBroadcast _ _ = EvBroadcast _ _ |- _ => inversion H; subst; clear H
       end.
  all: match goal with
       | H : para_signRaw _ _ _ _ = Ok ?sr |- _ => destruct sr as [sig echo]
       end.
  all: rewrite <- ?app_assoc in *; cbn [app] in *.
  all: match goal with
       | H : blockchainService.buildUnsignedTransaction _ _ _ ?from _ (?h0 ++ ?p) = (Ok (?tx, ?dh), ?b)
         |- _ =>
           exists from, p, b, tx, dh;
           destruct (Runs.build_ok _ _ _ _ _ _ _ _ _ H)
             as (? & ? & ? & ? & ? & ? & ? & ? & ? & ? & _ & _ & _ & _ & _ & _ & _ & _ & _ & _ & Htx & _)
       end.
  all: eexists; exists sig, echo; cbn zeta.
  all: split; [reflexivity|].
  all: split; [eassumption|].
  all: split; [eassumption|].
  all: split; [rewrite Htx; reflexivity|].
  all: assumption.
Qed.

Lemma C2_signature_is_the_only_addition_witness :
  let W := Fixture.world (Fixture.readyAfter 0) 0 1 in
  let req := Fixture.authed (Fixture.sendRequest Fixture.recipient "0.001") "" in
  let raw :=
    "0x02:11155111:7:2000000000:30000000000:21000:0x8ba1f109551bd432803012645ac136ddd64dba72:1000000000000000:0x:0xc0ffee" in
  exists r es,
    transaction.send Fixture.lib W Fixture.cfg req [] = (r, es) /\
    In (EvBroadcast raw (Ok Fixture.minedHash)) es /\
    exists tx dataHash walletId hexData echo,
      In (EvParaSignRaw walletId hexData (Ok {| sr_signature := "c0ffee"; sr_data := echo |}))
         es /\
      hexData = (if JS.startsWith dataHash "0x" then dataHash else "0x" +:+ dataHash) /\
      serializeTransaction Fixture.lib tx = Ok dataHash /\
      tx_signature tx = None /\
      Fixture.render
        {| tx_type := tx_type tx;
           tx_to := tx_to tx;
           tx_from := tx_from tx;
           tx_value := tx_value tx;
           tx_data := tx_data tx;
           tx_gasLimit := tx_gasLimit tx;
           tx_nonce := tx_nonce tx;
           tx_maxFeePerGas := tx_maxFeePerGas tx;
           tx_maxPriorityFeePerGas := tx_maxPriorityFeePerGas tx;
           tx_chainId := tx_chainId tx;
           tx_signature := Some "0xc0ffee" |}
      = raw.
Proof.
  intros W req raw.
  destruct (transaction.send Fixture.lib W Fixture.cfg req []) as [r es] eqn:Hrun.
  exists r, es.
  assert (Hes : exists pre hexData,
             es = pre ++ [EvParaSignRaw "wallet-1" hexData
                            (Ok {| sr_signature := "c0ffee"; sr_data := "0xdeadbeef" |});
                          EvBroadcast raw (Ok Fixture.minedHash)]).
  { clear - Hrun. vm_compute in Hrun. inversion Hrun.
    eexists [_; _; _; _]. eexists. reflexivity. }
  destruct Hes as (pre0 & hexData0 & Hes).
  assert (HIn : In (EvBroadcast raw (Ok Fixture.minedHash)) es).
  { rewrite Hes. apply in_or_app. right. right. left. reflexivity. }
  split; [reflexivity|]. split; [exact HIn|].
  destruct (proj2 (C2_signature_is_the_only_addition Fixture.lib W Fixture.cfg req [])
              r es raw _ Hrun HIn)
    as (fromAddress & pre & built & tx & dataHash & walletId & signature & echo
        & Hshape & Hbuild & _ & Hunsigned & Hser).
  cbn zeta in Hshape.
  rewrite Hes, app_assoc in Hshape.
  apply Runs.last_two in Hshape. destruct Hshape as (_ & Hsign & _).
  injection Hsign as Hw Hhex Hsig Hecho.
  subst walletId signature echo.
  exists tx, dataHash, "wallet-1", hexData0, "0xdeadbeef".
  split; [rewrite Hes; apply in_or_app; right; left; reflexivity|].
  split; [exact Hhex|].
  split.
  { destruct (Runs.build_ok _ _ _ _ _ _ _ _ _ Hbuild)
      as (? & ? & ? & ? & ? & ? & ? & ? & ? & ? & _ & _ & _ & _ & _ & _ & _ & _ & _ & _ & _
          & Hserial).
    exact Hserial. }
  split; [exact Hunsigned|].
  exact (f_equal (fun x => match x with Ok s => s | Throw _ => raw end) Hser).
Defined.

Module SendFacts.

(** The handler never answers 400 "Bad Request" once [to] is well formed and
    [amount] is a non-empty string: the amount is not validated. *)
Lemma amount_never_bad_request lib W cfg req h r es uid to amount checksum msg :
  transaction.userIdOf req = Some uid -> JS.truthy (Some uid) = true ->
  req_to (body req) = Some to -> JS.truthy (Some to) = true ->
  req_amount (body req) = Some amount -> JS.truthy (Some amount) = true ->
  getAddress lib to = Ok checksum ->
  transaction.send lib W cfg req h = (r, es) ->
  r <> Ok (json 400 (ErrorBody "Bad Request" msg)).
Proof.
  intros Hu Hut Ht Htt Ha Hat Hg H.
  unfold transaction.send in H. rewrite Hu, Ht, Ha in H.
  destruct uid; [discriminate|]. destruct to; [discriminate|].
  destruct amount; [discriminate|]. rewrite Hg in H.
  unfold bind, tryCatch, ret, throw, lift in H.
  run; discriminate.
Qed.

(** [send] on a request whose [to] is rejected by [getAddress]. *)
Lemma send_malformed lib W cfg req h :
  malformedTo lib req ->
  exists code title msg,
    transaction.send lib W cfg req h = (Ok (json code (ErrorBody title msg)), []) /\
    ((code = 400 /\ title = "Bad Request" /\ JS.truthy (transaction.userIdOf req) = true)
     \/ (code = 401 /\ title = "Unauthorized" /\ JS.truthy (transaction.userIdOf req) = false)).
Proof.
  intros Hm. unfold transaction.send, tryCatch, ret.
  destruct (transaction.userIdOf req) as [[|c s]|] eqn:Eu;
    try (do 3 eexists; split; [reflexivity | right; auto]).
  destruct (req_to (body req)) as [[|c1 s1]|] eqn:Et;
    try (do 3 eexists; split; [reflexivity | left; auto]).
  destruct (req_amount (body req)) as [[|c2 s2]|] eqn:Ea;
    try (do 3 eexists; split; [reflexivity | left; auto]).
  specialize (Hm _ Et). unfold malformed in Hm.
  destruct (getAddress lib (String c1 s1)); [destruct Hm|].
  do 3 eexists; split; [reflexivity | left; auto].
Qed.

(** The middleware talks to the identity provider only, and either answers
    401 itself or passes the request on with its body untouched. *)
Lemma authMiddleware_run W req h r es :
  auth.authMiddleware W req h = (r, es) ->
  Forall identityOnly es /\
  exists out, r = Ok out /\
    match out with
    | inl response => exists msg, response = json 401 (ErrorBody "Unauthorized" msg)
    | inr req' => body req' = body req
    end.
Proof.
  unfold auth.authMiddleware, supabaseService.verifyToken. unfold_monad.
  intros H. run.
  all: split; [repeat constructor|]; eexists; split; [reflexivity|]; cbn; eauto.
Qed.

End SendFacts.

(** C3. The amount "0.001" is converted to exactly 1000000000000000 base
    units (a thousand times that is one ether).  But an amount that is not
    a number is not answered with 400: with a ready wallet the request
    "abc" goes through the database lookup, the custody fetch, the nonce
    and the fee lookups, fails inside [buildUnsignedTransaction] and is
    answered 500 "Transaction Failed"; and the amount "0" is accepted,
    signed and broadcast (201). *)
Theorem C3_amount_parsing_and_rejection :
  let W := Fixture.world (Fixture.readyAfter 0) 0 1 in
  let lookups :=
    [EvSelectUserWallet "user-1" {| db_data := Some Fixture.mapping; db_error := None |};
     EvParaGetWallet "wallet-1" (Ok Fixture.ready);
     EvGetTransactionCount Fixture.sender (Ok 7);
     EvGetFeeData (Ok {| fd_maxFeePerGas := Some 30000000000;
                         fd_maxPriorityFeePerGas := Some 2000000000 |})] in
  Ethers.parseEther "0.001" = Ok 1000000000000000 /\
  1000 * 1000000000000000 = 10 ^ 18 /\
  Ethers.parseEther "0" = Ok 0 /\
  Ethers.parseEther "-1" = Ok (- 10 ^ 18) /\
  Ethers.parseEther "abc" = Throw (JS.newError "invalid FixedNumber string value") /\
  transaction.send Fixture.lib W Fixture.cfg
    (Fixture.authed (Fixture.sendRequest Fixture.recipient "abc") "") []
  = (Ok (json 500 (ErrorBody "Transaction Failed"
           "Failed to build transaction: invalid FixedNumber string value")),
     lookups) /\
  exists signing,
    transaction.send Fixture.lib W Fixture.cfg
      (Fixture.authed (Fixture.sendRequest Fixture.recipient "0") "") []
    = (Ok (json 201 (SendBody Fixture.minedHash "pending" Fixture.sender Fixture.recipient "0"
             "Transaction broadcasted. Monitor the hash on Sepolia block explorer.")),
       lookups ++ signing).
Proof.
  intros W lookups.
  repeat split; try (vm_compute; reflexivity).
  eexists. vm_compute. reflexivity.
Qed.

(** C4. A request whose [to] is not a well-formed address is answered 400
    "Bad Request" by the send handler without a single call leaving the
    process; on the whole route, behind the authentication middleware, the
    only call made is the identity provider's token check, so that no
    database lookup, no custody call and no chain call occurs, and the
    answer is that 400 or the middleware's 401. *)
Theorem C4_malformed_address_rejected lib W cfg req h :
  malformedTo lib req ->
  (JS.truthy (transaction.userIdOf req) = true ->
   exists msg,
     transaction.send lib W cfg req h = (Ok (json 400 (ErrorBody "Bad Request" msg)), []))
  /\
  (forall r es,
     auth.guarded W (transaction.send lib W cfg) req h = (r, es) ->
     Forall identityOnly es /\
     exists msg, r = Ok (json 400 (ErrorBody "Bad Request" msg))
              \/ r = Ok (json 401 (ErrorBody "Unauthorized" msg))).
Proof.
  intros Hm. split.
  - intros Hu.
    destruct (SendFacts.send_malformed lib W cfg req h Hm)
      as (code & title & msg & Hs & [H | H]);
      destruct H as (-> & -> & Hu'); [eauto | congruence].
  - intros r es H. unfold auth.guarded, bind, ret in H.
    destruct (auth.authMiddleware W req h) as [out es1] eqn:Ea.
    apply SendFacts.authMiddleware_run in Ea. destruct Ea as (HF & out' & -> & Hout).
    destruct out' as [response | req'].
    + destruct Hout as (msg & ->). inversion H; subst. rewrite app_nil_r.
      split; eauto.
    + assert (Hm' : malformedTo lib req').
      { unfold malformedTo. rewrite Hout. exact Hm. }
      destruct (SendFacts.send_malformed lib W cfg req' (h ++ es1) Hm')
        as (code & title & msg & Hs & Hc).
      rewrite Hs in H. inversion H; subst. rewrite app_nil_r. split; [exact HF|].
      exists msg. destruct Hc as [(-> & -> & _) | (-> & -> & _)]; auto.
Qed.

Lemma C4_malformed_address_rejected_witness :
  let W := Fixture.world (Fixture.readyAfter 0) 0 1 in
  let req := Fixture.authed (Fixture.sendRequest "not-an-address" "0.001") "" in
  malformedTo Fixture.lib req /\
  JS.truthy (transaction.userIdOf req) = true /\
  exists msg,
    transaction.send Fixture.lib W Fixture.cfg req []
    = (Ok (json 400 (ErrorBody "Bad Request" msg)), []).
Proof.
  intros W req.
  assert (Hm : malformedTo Fixture.lib req).
  { intros s Hs. injection Hs as <-. exact I. }
  split; [exact Hm|]. split; [reflexivity|].
  exact (proj1 (C4_malformed_address_rejected Fixture.lib W Fixture.cfg req [] Hm) eq_refl).
Defined.

(* ===================================================================== *)
(** * Building the transaction *)
(* ===================================================================== *)

Module ObjectFacts.

(** Every run of [buildUnsignedTransaction] either gets as far as the call
    of [serializeTransaction], and then ends as that call does, or fails
    before it, and then does not depend on that function. *)
Lemma reaches_or_fails lib W cfg fromAddress request h r es :
  blockchainService.buildUnsignedTransaction lib W cfg fromAddress request h = (r, es) ->
  (exists tx,
     buildsObject lib W cfg fromAddress request h tx es /\
     r = match serializeTransaction lib tx with
         | Ok serialized => Ok (tx, serialized)
         | Throw error =>
             Throw (JS.newError ("Failed to build transaction: " +:+ JS.message error))
         end) \/
  ((exists e, r = Throw e) /\
   forall serialize,
     blockchainService.buildUnsignedTransaction (withSerializer lib serialize) W cfg
       fromAddress request h = (r, es)).
Proof.
  destruct lib as [address serializer].
  unfold buildsObject, withSerializer.
  cbn [getAddress serializeTransaction].
  unfold blockchainService.buildUnsignedTransaction, blockchainService.getNonce,
    blockchainService.getGasPrices, blockchainService.getAddressOf,
    blockchainService.parseEtherOf.
  cbn [getAddress serializeTransaction].
  unfold bind, tryCatch, ret, throw, lift, call.
  intros H.
  run.
  all: cbv beta iota zeta.
  all: first
    [ right; split; [eexists; reflexivity|]; intros serialize; reflexivity
    | left;
      match goal with
      | E : ?f ?tx = _ |- _ =>
          exists tx; split;
          [ intros serialize; destruct (serialize tx); reflexivity
          | rewrite E; reflexivity ]
      end ].
Qed.

End ObjectFacts.

(** C6 (as amended). In the object [buildUnsignedTransaction] builds and
    passes to [serializeTransaction] (the object it returns when that call
    succeeds), the nonce is the transaction count the node reported for the
    sender address; [maxFeePerGas] and [maxPriorityFeePerGas] are the
    caller's override when one is given and otherwise the node's fee
    estimate; [gasLimit] is the caller's override when one is given and
    otherwise the constant 21000.  The two reads are the only calls made.
    Every run either builds such an object and ends as the serialiser does
    on it, or fails before the serialiser is called. *)
Theorem C6_nonce_and_gas_fields lib W cfg fromAddress request h :
  (forall tx es,
     buildsObject lib W cfg fromAddress request h tx es ->
     exists checksumFrom sender nonce maxFee maxPriority,
       getAddress lib fromAddress = Ok checksumFrom /\
       getAddress lib checksumFrom = Ok sender /\
       provider_getTransactionCount W h sender = Ok nonce /\
       es = [EvGetTransactionCount sender (Ok nonce);
             EvGetFeeData (Ok {| fd_maxFeePerGas := Some maxFee;
                                 fd_maxPriorityFeePerGas := Some maxPriority |})] /\
       tx_nonce tx = nonce /\
       overrideOr (req_gasLimit request) 21000 (tx_gasLimit tx) /\
       overrideOr (req_maxFeePerGas request) maxFee (tx_maxFeePerGas tx) /\
       overrideOr (req_maxPriorityFeePerGas request) maxPriority
         (tx_maxPriorityFeePerGas tx)) /\
  (forall r es,
     blockchainService.buildUnsignedTransaction lib W cfg fromAddress request h = (r, es) ->
     (exists tx,
        buildsObject lib W cfg fromAddress request h tx es /\
        r = match serializeTransaction lib tx with
            | Ok serialized => Ok (tx, serialized)
            | Throw error =>
                Throw (JS.newError ("Failed to build transaction: " +:+ JS.message error))
            end) \/
     ((exists e, r = Throw e) /\
      forall serialize,
        blockchainService.buildUnsignedTransaction (withSerializer lib serialize) W cfg
          fromAddress request h = (r, es))).
Proof.
  split; [|intros r es; apply ObjectFacts.reaches_or_fails].
  intros tx es Hbuilt.
  pose proof (Hbuilt (fun _ => Ok "")) as H. cbv beta iota in H.
  destruct (Runs.build_ok _ _ _ _ _ _ _ _ _ H)
    as (cf & ct & a & n & mf & mp & gl & mfg & mpg & v
        & Hcf & _ & Ha & Hn & _ & Hes & Hgl & Hmf & Hmp & _ & -> & _).
  exists cf, a, n, mf, mp. cbn. repeat split; assumption.
Qed.

Lemma C6_nonce_and_gas_fields_witness :
  let W := Fixture.world (Fixture.readyAfter 0) 0 1 in
  let request :=
    {| req_to := Some Faulty.plainRecipient; req_amount := Some "0.5";
       req_gasLimit := Some "50000"; req_maxFeePerGas := None;
       req_maxPriorityFeePerGas := Some "0x10" |} in
  let tx :=
    {| tx_type := 2;
       tx_to := Faulty.plainRecipient;
       tx_from := Faulty.plainSender;
       tx_value := 500000000000000000;
       tx_data := "0x";
       tx_gasLimit := 50000;
       tx_nonce := 7;
       tx_maxFeePerGas := 30000000000;
       tx_maxPriorityFeePerGas := 16;
       tx_chainId := Some 11155111;
       tx_signature := None |} in
  let es :=
    [EvGetTransactionCount Faulty.plainSender (Ok 7);
     EvGetFeeData (Ok {| fd_maxFeePerGas := Some 30000000000;
                         fd_maxPriorityFeePerGas := Some 2000000000 |})] in
  buildsObject Faulty.noSerializer W Fixture.cfg Faulty.plainSender request [] tx es /\
  blockchainService.buildUnsignedTransaction Faulty.noSerializer W Fixture.cfg
    Faulty.plainSender request []
  = (Throw (JS.newError ("Failed to build transaction: " +:+ JS.message Faulty.notAFunction)),
     es) /\
  exists nonce maxFee maxPriority,
    provider_getTransactionCount W [] Faulty.plainSender = Ok nonce /\
    es = [EvGetTransactionCount Faulty.plainSender (Ok nonce);
          EvGetFeeData (Ok {| fd_maxFeePerGas := Some maxFee;
                              fd_maxPriorityFeePerGas := Some maxPriority |})] /\
    tx_nonce tx = nonce /\
    overrideOr (req_gasLimit request) 21000 (tx_gasLimit tx) /\
    overrideOr (req_maxFeePerGas request) maxFee (tx_maxFeePerGas tx) /\
    overrideOr (req_maxPriorityFeePerGas request) maxPriority (tx_maxPriorityFeePerGas tx).
Proof.
  intros W request tx es.
  assert (Hbuilt : buildsObject Faulty.noSerializer W Fixture.cfg Faulty.plainSender
                     request [] tx es).
  { intros serialize. vm_compute. destruct (serialize _); reflexivity. }
  split; [exact Hbuilt|].
  split; [vm_compute; reflexivity|].
  destruct (proj1 (C6_nonce_and_gas_fields Faulty.noSerializer W Fixture.cfg
                     Faulty.plainSender request []) tx es Hbuilt)
    as (cf & a & n & mf & mp & Hcf & Ha & Hn & Hes & Hnonce & Hgl & Hmf & Hmp).
  assert (Ecf : cf = Faulty.plainSender)
    by (vm_compute in Hcf; injection Hcf as <-; reflexivity).
  subst cf.
  assert (Ea : a = Faulty.plainSender)
    by (vm_compute in Ha; injection Ha as <-; reflexivity).
  subst a.
  exists n, mf, mp. repeat split; assumption.
Defined.

(** The specification's sentence fails for [gasLimit], also in an
    installation whose ethers has no [serializeTransaction]: for a request
    without overrides the run asks the node for the transaction count and
    the two fees only, builds the object with the gas limit 21000, which is
    neither fee, passes it to the serialiser and fails there. *)
Lemma C6_gas_limit_counterexample :
  let W := Fixture.world (Fixture.readyAfter 0) 0 1 in
  let request := Fixture.sendRequest Faulty.plainRecipient "0.5" in
  let tx :=
    {| tx_type := 2;
       tx_to := Faulty.plainRecipient;
       tx_from := Faulty.plainSender;
       tx_value := 500000000000000000;
       tx_data := "0x";
       tx_gasLimit := 21000;
       tx_nonce := 7;
       tx_maxFeePerGas := 30000000000;
       tx_maxPriorityFeePerGas := 2000000000;
       tx_chainId := Some 11155111;
       tx_signature := None |} in
  let es :=
    [EvGetTransactionCount Faulty.plainSender (Ok 7);
     EvGetFeeData (Ok {| fd_maxFeePerGas := Some 30000000000;
                         fd_maxPriorityFeePerGas := Some 2000000000 |})] in
  req_gasLimit request = None /\
  blockchainService.buildUnsignedTransaction Faulty.noSerializer W Fixture.cfg
    Faulty.plainSender request []
  = (Throw (JS.newError ("Failed to build transaction: " +:+ JS.message Faulty.notAFunction)),
     es) /\
  buildsObject Faulty.noSerializer W Fixture.cfg Faulty.plainSender request [] tx es /\
  tx_gasLimit tx = 21000 /\
  tx_gasLimit tx <> 30000000000 /\
  tx_gasLimit tx <> 2000000000.
Proof.
  cbv zeta. split; [reflexivity|].
  split; [vm_compute; reflexivity|].
  split; [intros serialize; vm_compute; destruct (serialize _); reflexivity|].
  cbn. repeat split; discriminate.
Qed.

(* ===================================================================== *)
(** * The status route *)
(* ===================================================================== *)

(** C8 (as amended). The status handler rejects, with 400 and without
    asking the node, exactly the strings that do not start with 0x or whose
    length is not 66; whether the other 64 characters are hexadecimal digits
    is not looked at.  A string of that shape is looked up once: no receipt
    (or a failing lookup) gives 404; a receipt gives 200 with the block
    number, the gas used, the value (0 when the receipt has none) and a
    status that is "success" for the receipt's code 1 and "failed" for 0. *)
Theorem C8_transaction_status W req h :
  let txHash := params_txHash req in
  let answer := provider_waitForTransaction W h txHash 0 in
  (hashShape txHash = false ->
   transaction.status W req h
   = (Ok (json 400 (ErrorBody "Bad Request" "Invalid transaction hash format")), []))
  /\
  (hashShape txHash = true ->
   exists response,
     transaction.status W req h = (Ok response, [EvWaitForTransaction txHash 0 answer]) /\
     match answer with
     | Throw _ =>
         response = json 404 (ErrorBody "Not Found" "Transaction not yet mined or invalid hash")
     | Ok None =>
         response = json 404 (ErrorBody "Not Found" "Transaction not found or not yet mined")
     | Ok (Some receipt) =>
         exists outcome,
           response = json 200
             (ReceiptBody (rc_hash receipt) (rc_blockNumber receipt) (rc_blockHash receipt)
                outcome (JS.toString (rc_gasUsed receipt))
                (option_map JS.toString (rc_gasPrice receipt))
                (rc_from receipt) (rc_to receipt)
                (JS.orElse (option_map JS.toString (rc_value receipt)) "0")) /\
           (rc_status receipt = Some 1 -> outcome = "success") /\
           (rc_status receipt = Some 0 -> outcome = "failed")
     end).
Proof.
  intros txHash answer. unfold hashShape. subst txHash answer.
  unfold transaction.status, blockchainService.waitForTransaction.
  unfold_monad.
  destruct (JS.startsWith (params_txHash req) "0x");
    destruct (String.length (params_txHash req) =? 66)%nat; cbn [andb negb orb];
    split; intros Hs; try discriminate Hs; try reflexivity.
  rewrite app_nil_r.
  destruct (provider_waitForTransaction W h (params_txHash req) 0) as [[receipt|]|e];
    cbn; eexists; (split; [reflexivity|]); try reflexivity.
  eexists. split; [reflexivity|]. split; intros ->; reflexivity.
Qed.

Lemma C8_transaction_status_witness :
  let W := Fixture.world (Fixture.readyAfter 0) 0 1 in
  transaction.status W (Fixture.authed (Fixture.sendRequest "" "") "0x1234") []
  = (Ok (json 400 (ErrorBody "Bad Request" "Invalid transaction hash format")), []) /\
  exists response answer,
    transaction.status W (Fixture.authed (Fixture.sendRequest "" "") Fixture.unminedHash) []
    = (Ok response, [EvWaitForTransaction Fixture.unminedHash 0 answer]).
Proof.
  intros W. split.
  - exact (proj1 (C8_transaction_status W
             (Fixture.authed (Fixture.sendRequest "" "") "0x1234") []) eq_refl).
  - destruct (proj2 (C8_transaction_status W
             (Fixture.authed (Fixture.sendRequest "" "") Fixture.unminedHash) []) eq_refl)
      as (response & Hrun & _).
    exists response. eexists. exact Hrun.
Defined.

(** The specification's sentence fails on a string with the prefix and the length
    of a hash that is not hexadecimal: it is not rejected with 400, the node
    is asked about it, and the answer is 404. *)
Lemma C8_not_hex_counterexample :
  let W := Fixture.world (Fixture.readyAfter 0) 0 1 in
  isHexHash Fixture.notHexHash = false /\
  transaction.status W (Fixture.authed (Fixture.sendRequest "" "") Fixture.notHexHash) []
  = (Ok (json 404 (ErrorBody "Not Found" "Transaction not found or not yet mined")),
     [EvWaitForTransaction Fixture.notHexHash 0 (Ok None)]).
Proof. cbv zeta. split; vm_compute; reflexivity. Qed.

(* ===================================================================== *)
(** * Polling *)
(* ===================================================================== *)

Module PollFacts.

(** The loop, started with exactly the fuel the loop test allows. *)
Lemma pollLoop_run W walletId maxAttempts delayMs :
  forall fuel attempts h r es,
    fuel = Z.to_nat (maxAttempts - attempts) ->
    paraService.pollLoop W fuel walletId attempts maxAttempts delayMs h = (r, es) ->
    (fetches es <= fuel)%nat /\
    ((exists pre w,
        es = pre ++ [EvParaGetWallet walletId (Ok w)] /\
        Forall (pendingEvent walletId delayMs) pre /\
        String.eqb (pw_status w) "ready" = true /\
        r = Ok w)
     \/ (Forall (pendingEvent walletId delayMs) es /\
         fetches es = fuel /\
         r = Throw (paraService.timeoutError walletId maxAttempts))
     \/ (exists pre e,
           es = pre ++ [EvParaGetWallet walletId (Throw e)] /\
           Forall (pendingEvent walletId delayMs) pre /\
           r = Throw (fetchError walletId e))).
Proof.
  induction fuel as [|fuel IH]; intros attempts h r es Hfuel H.
  - cbn in H. unfold throw in H. inversion H; subst.
    split; [reflexivity|]. right; left. repeat split; constructor.
  - cbn [paraService.pollLoop] in H.
    assert (Hlt : (attempts <? maxAttempts) = true) by (apply Z.ltb_lt; lia).
    rewrite Hlt in H.
    unfold bind at 1 in H.
    destruct (paraService.getWallet W walletId h) as [rw ew] eqn:Eg.
    apply Runs.getWallet_run in Eg. destruct Eg as (answer & _ & -> & Hok & Herr).
    destruct rw as [w | e0].
    + pose proof (proj1 (Hok w) eq_refl) as ->.
      destruct (String.eqb (pw_status w) "ready") eqn:Es.
      * unfold ret in H. inversion H; subst. rewrite ?app_nil_r.
        split; [cbn; lia|]. left. exists [], w. repeat split; auto.
      * unfold bind at 1 in H.
        destruct ((if attempts + 1 <? maxAttempts then sleep delayMs else ret tt)
                    (h ++ [EvParaGetWallet walletId (Ok w)])) as [rs esl] eqn:Esl.
        assert (Hsl : rs = Ok tt /\ Forall (pendingEvent walletId delayMs) esl
                      /\ fetches esl = 0%nat).
        { destruct (attempts + 1 <? maxAttempts); unfold sleep, ret in Esl;
            inversion Esl; subst; repeat split; repeat constructor. }
        destruct Hsl as (-> & Hpend & Hzero).
        destruct (paraService.pollLoop W fuel walletId (attempts + 1) maxAttempts delayMs
                    ((h ++ [EvParaGetWallet walletId (Ok w)]) ++ esl)) as [r' es'] eqn:Er.
        inversion H; subst. clear H.
        apply IH in Er; [|lia].
        destruct Er as (Hle & Hcases).
        assert (Hhead : Forall (pendingEvent walletId delayMs)
                          (EvParaGetWallet walletId (Ok w) :: esl)).
        { constructor; [cbn; auto | exact Hpend]. }
        assert (Hcount : fetches (EvParaGetWallet walletId (Ok w) :: esl ++ es')
                         = S (fetches es')).
        { cbn [fetches isFetch]. rewrite Runs.fetches_app, Hzero. reflexivity. }
        cbn [app].
        split; [lia|].
        destruct Hcases as [(pre & w' & -> & Hpre & Hs & ->)
                           | [(Hall & Hn & ->) | (pre & e & -> & Hpre & ->)]].
        -- left. exists ((EvParaGetWallet walletId (Ok w) :: esl) ++ pre), w'.
           repeat split; auto.
           ++ cbn [app]. now rewrite <- app_assoc.
           ++ apply Forall_app_2; auto.
        -- right; left. repeat split; auto.
           ++ change (Forall (pendingEvent walletId delayMs)
                        ((EvParaGetWallet walletId (Ok w) :: esl) ++ es')).
              apply Forall_app_2; auto.
           ++ lia.
        -- right; right.
           exists ((EvParaGetWallet walletId (Ok w) :: esl) ++ pre), e.
           repeat split; auto.
           ++ cbn [app]. now rewrite <- app_assoc.
           ++ apply Forall_app_2; auto.
    + destruct answer as [w | e].
      { pose proof (proj2 (Hok w) eq_refl). discriminate. }
      pose proof (Herr e eq_refl) as He. inversion He; subst.
      inversion H; subst.
      split; [cbn; lia|]. right; right. exists [], e. repeat split; auto.
Qed.

(** More fuel than the loop test allows changes nothing: the fuel of
    [pollWalletReady] never cuts a run short. *)
Lemma pollLoop_more_fuel W walletId maxAttempts delayMs (extra : nat) :
  forall fuel attempts h,
    fuel = Z.to_nat (maxAttempts - attempts) ->
    paraService.pollLoop W (fuel + extra) walletId attempts maxAttempts delayMs h
    = paraService.pollLoop W fuel walletId attempts maxAttempts delayMs h.
Proof.
  induction fuel as [|fuel IH]; intros attempts h Hfuel.
  - assert (Hge : (attempts <? maxAttempts) = false) by (apply Z.ltb_ge; lia).
    destruct extra; cbn; [reflexivity|]. now rewrite Hge.
  - cbn [Nat.add paraService.pollLoop].
    destruct (attempts <? maxAttempts); [|reflexivity].
    unfold bind.
    destruct (paraService.getWallet W walletId h) as [[w|e] es]; [|reflexivity].
    destruct (String.eqb (pw_status w) "ready"); [reflexivity|].
    destruct ((if attempts + 1 <? maxAttempts then sleep delayMs else ret tt) (h ++ es))
      as [[u|e] es']; [|reflexivity].
    rewrite IH by lia. reflexivity.
Qed.

Lemma timeout_is_not_fetch_error walletId maxAttempts e :
  paraService.timeoutError walletId maxAttempts <> fetchError walletId e.
Proof. unfold paraService.timeoutError, fetchError, JS.newError. cbn. discriminate. Qed.

End PollFacts.

(** C5 (as amended). A run of [pollWalletReady] makes at most [maxAttempts]
    wallet fetches and ends in exactly one of three ways: with the wallet of
    the first fetch that reported "ready"; with the timeout error, after
    [maxAttempts] fetches none of which reported "ready"; or, when a fetch
    itself fails, at that fetch with its error.  The run does not depend on
    the fuel of the model. *)
Theorem C5_poll_outcomes W walletId maxAttempts delayMs h r es :
  paraService.pollWalletReady W walletId maxAttempts delayMs h = (r, es) ->
  (fetches es <= Z.to_nat maxAttempts)%nat /\
  (0 <= maxAttempts -> Z.of_nat (fetches es) <= maxAttempts) /\
  PollOutcome walletId maxAttempts delayMs r es /\
  (forall e, paraService.timeoutError walletId maxAttempts <> fetchError walletId e) /\
  (forall extra,
     paraService.pollLoop W (Z.to_nat maxAttempts + extra) walletId 0 maxAttempts delayMs h
     = (r, es)).
Proof.
  unfold paraService.pollWalletReady. intros H.
  assert (Hfuel : Z.to_nat maxAttempts = Z.to_nat (maxAttempts - 0)) by (f_equal; lia).
  destruct (PollFacts.pollLoop_run W walletId maxAttempts delayMs _ _ _ _ _ Hfuel H)
    as (Hle & Hcases).
  split; [exact Hle|]. split; [lia|]. split.
  - destruct Hcases as [(pre & w & He & Hpre & Hs & Hr)
                       | [(Hall & Hn & Hr) | (pre & e & He & Hpre & Hr)]].
    + eapply BecameReady; eassumption.
    + apply TimedOut; assumption.
    + eapply FetchFailed; eassumption.
  - split; [intros e; apply PollFacts.timeout_is_not_fetch_error|].
    intros extra. rewrite PollFacts.pollLoop_more_fuel by exact Hfuel. exact H.
Qed.

Lemma C5_poll_outcomes_witness :
  let W := Fixture.world (Fixture.readyAfter 1) 0 1 in
  let es := [EvParaGetWallet "wallet-1" (Ok Fixture.creating);
             EvSleep 1000;
             EvParaGetWallet "wallet-1" (Ok Fixture.ready)] in
  paraService.pollWalletReady W "wallet-1" 5 1000 [] = (Ok Fixture.ready, es) /\
  (fetches es <= 5)%nat /\
  PollOutcome "wallet-1" 5 1000 (Ok Fixture.ready) es.
Proof.
  intros W es.
  assert (Hrun : paraService.pollWalletReady W "wallet-1" 5 1000 [] = (Ok Fixture.ready, es))
    by (vm_compute; reflexivity).
  split; [exact Hrun|].
  pose proof (C5_poll_outcomes W "wallet-1" 5 1000 [] _ _ Hrun) as (Hle & _ & Hout & _).
  split; [exact Hle | exact Hout].
Defined.

(** The specification's sentence fails when the custody API cannot be reached: the
    run ends at the first fetch, with that fetch's error, which is neither a
    ready wallet nor the timeout, and two attempts are left unused. *)
Lemma C5_fetch_failure_counterexample :
  let W := Fixture.world Fixture.unreachable 0 1 in
  let e := {| JS.message := "Network Error"; JS.response_data_message := None |} in
  paraService.pollWalletReady W "wallet-1" 3 1000 []
  = (Throw (JS.newError "Failed to fetch wallet wallet-1: Network Error"),
     [EvParaGetWallet "wallet-1" (Throw e)]) /\
  JS.newError "Failed to fetch wallet wallet-1: Network Error"
  <> paraService.timeoutError "wallet-1" 3.
Proof.
  cbv zeta. split; [vm_compute; reflexivity|].
  vm_compute. discriminate.
Qed.

(* ===================================================================== *)
(** * Configuration *)
(* ===================================================================== *)

Module ConfigFacts.

Lemma validate_ok (env : gmap string string) (vars : list string) :
  Config.validate env vars = Ok tt <->
  Forall (fun v => JS.truthy (env !! v) = true) vars.
Proof.
  induction vars as [|v vars IH]; cbn.
  - split; [constructor | reflexivity].
  - destruct (JS.truthy (env !! v)) eqn:E; cbn.
    + rewrite IH. split; [intros H; constructor; assumption | intros H; now inversion H].
    + split; [discriminate | intros H; inversion H; congruence].
Qed.

Lemma validate_throw (env : gmap string string) (vars : list string) (e : JS.Error) :
  Config.validate env vars = Throw e ->
  exists v, In v vars /\ JS.truthy (env !! v) = false /\
            e = JS.newError ("Missing required environment variable: " +:+ v).
Proof.
  induction vars as [|v vars IH]; cbn; [discriminate|].
  destruct (JS.truthy (env !! v)) eqn:E; cbn.
  - intros H. destruct (IH H) as (v' & Hin & Hv & He). eauto.
  - intros H. inversion H; subst. eauto.
Qed.

Lemma started_iff (env : gmap string string) :
  started (Config.load env) <-> Config.validate env Config.requiredVars = Ok tt.
Proof.
  unfold started, Config.load.
  destruct (Config.validate env Config.requiredVars) as [[]|e]; split; intros H.
  - reflexivity.
  - exact I.
  - destruct H.
  - discriminate H.
Qed.

Lemma optional_not_required (k : string) :
  In k optionalVars -> ~ In k Config.requiredVars.
Proof.
  intros Hk Hr. cbn in Hk, Hr.
  repeat match goal with H : _ \/ _ |- _ => destruct H as [H | H] end;
    subst; try discriminate; try contradiction.
Qed.

End ConfigFacts.

(** C9 (as amended). The process starts exactly when the six required
    variables (identity-provider URL and its three keys, custody API key,
    RPC URL) are all set and non-empty; otherwise evaluating the
    configuration throws, naming a missing one.  The listen port, the
    environment name, the custody base URL and the chain id are not
    required: setting or unsetting them never decides whether the process
    starts, and when they are unset the configuration holds 3000,
    "development", "https://api.getpara.com" and 11155111. *)
Theorem C9_required_configuration (env : gmap string string) :
  (started (Config.load env) <->
   Forall (fun v => JS.truthy (env !! v) = true) Config.requiredVars) /\
  (Config.load env = Ok (Config.config env) \/
   exists v, In v Config.requiredVars /\ JS.truthy (env !! v) = false /\
     Config.load env
     = Throw (JS.newError ("Missing required environment variable: " +:+ v))) /\
  (forall k, In k optionalVars ->
     (started (Config.load (delete k env)) <-> started (Config.load env)) /\
     (forall v, started (Config.load (<[k := v]> env)) <-> started (Config.load env))) /\
  (env !! "PORT" = None -> Config.port (Config.config env) = Some 3000) /\
  (env !! "NODE_ENV" = None -> Config.nodeEnv (Config.config env) = "development") /\
  (env !! "PARA_BASE_URL" = None ->
   Config.baseUrl (Config.para (Config.config env)) = "https://api.getpara.com") /\
  (env !! "SEPOLIA_CHAIN_ID" = None ->
   Config.chainId (Config.ethereum (Config.config env)) = Some 11155111).
Proof.
  split; [|split; [|split]].
  - rewrite ConfigFacts.started_iff. apply ConfigFacts.validate_ok.
  - unfold Config.load.
    destruct (Config.validate env Config.requiredVars) as [[]|e] eqn:E; [left; reflexivity|].
    right. destruct (ConfigFacts.validate_throw _ _ _ E) as (v & Hin & Hv & ->). eauto.
  - intros k Hk. pose proof (ConfigFacts.optional_not_required k Hk) as Hnot.
    assert (Hd : forall v, In v Config.requiredVars -> delete k env !! v = env !! v).
    { intros v Hv. apply lookup_delete_ne. intros ->. contradiction. }
    assert (Hi : forall x v, In v Config.requiredVars -> <[k := x]> env !! v = env !! v).
    { intros x v Hv. apply lookup_insert_ne. intros ->. contradiction. }
    split; [|intros x];
      rewrite !ConfigFacts.started_iff, !ConfigFacts.validate_ok, !List.Forall_forall;
      split; intros H v Hv.
    + rewrite <- (Hd v Hv). auto.
    + rewrite (Hd v Hv). auto.
    + rewrite <- (Hi x v Hv). auto.
    + rewrite (Hi x v Hv). auto.
  - unfold Config.config; cbn.
    repeat split; intros ->; reflexivity.
Qed.

(** The specification's sentence fails: with the six required variables set and
    none of the port, the environment name, the custody base URL and the
    chain id, the configuration is evaluated without an error. *)
Lemma C9_defaults_counterexample :
  Fixture.env !! "PORT" = None /\
  Fixture.env !! "NODE_ENV" = None /\
  Fixture.env !! "PARA_BASE_URL" = None /\
  Fixture.env !! "SEPOLIA_CHAIN_ID" = None /\
  Config.load Fixture.env = Ok (Config.config Fixture.env) /\
  Config.port (Config.config Fixture.env) = Some 3000 /\
  Config.chainId (Config.ethereum (Config.config Fixture.env)) = Some 11155111.
Proof. repeat split; vm_compute; reflexivity. Qed.

(* ===================================================================== *)
(** * The wallet route *)
(* ===================================================================== *)

(** C10. When the wallet-details handler answers with a balance, its [eth]
    field is the decimal string of the balance the node reported to
    [getBalanceInEth], divided by 10^18 with the BigInt division, which
    truncates toward zero: "0" for every balance below 10^18 wei, and "1"
    for 1500000000000000000 wei. *)
Theorem C10_eth_balance_truncates lib W req h
        id type status address publicKey bal createdAt msg es :
  wallet.details lib W req h
  = (Ok (json 200 (WalletBody id type status address publicKey (Some bal) createdAt msg)),
     es) ->
  exists pre a b,
    es = pre ++ [EvGetBalance a (Ok b)] /\
    provider_getBalance W (h ++ pre) a = Ok b /\
    eth bal = JS.toString (Z.quot b (10 ^ 18)) /\
    (0 <= b < 10 ^ 18 -> eth bal = "0") /\
    (b = 1500000000000000000 -> eth bal = "1").
Proof.
  intros H.
  unfold wallet.details in H.
  unfold bind at 1 2 3 4, tryCatch at 1, ret in H.
  run.
  unfold bind in *. run.
  match goal with
  | H : blockchainService.getBalanceInEth _ _ _ _ = _ |- _ =>
      apply Runs.getBalanceInEth_ok in H; destruct H as (a' & b & Ha & Hb & Hes & Hs)
  end.
  subst. exists (l ++ l1 ++ l2), a', b.
  rewrite !app_assoc in *. cbn [eth].
  repeat split; auto.
  - intros Hsmall. now rewrite JSFacts.quot_small.
  - intros ->. reflexivity.
Qed.

Lemma C10_eth_balance_truncates_witness :
  let W := Fixture.world (Fixture.readyAfter 0) 1500000000000000000 1 in
  let W' := Fixture.world (Fixture.readyAfter 0) 999999999999999999 1 in
  let req := Fixture.authed (Fixture.sendRequest "" "") "" in
  (exists es, wallet.details Fixture.lib W req []
     = (Ok (json 200 (WalletBody "wallet-1" "EVM" "ready" (Some Fixture.sender) (Some "0x04ab")
              (Some {| wei := "1500000000000000000"; eth := "1" |})
              "2024-01-01T00:00:00.000Z" "Wallet is ready for transactions!")), es)) /\
  (exists es, wallet.details Fixture.lib W' req []
     = (Ok (json 200 (WalletBody "wallet-1" "EVM" "ready" (Some Fixture.sender) (Some "0x04ab")
              (Some {| wei := "999999999999999999"; eth := "0" |})
              "2024-01-01T00:00:00.000Z" "Wallet is ready for transactions!")), es)) /\
  exists b, eth {| wei := "1500000000000000000"; eth := "1" |}
            = JS.toString (Z.quot b (10 ^ 18)).
Proof.
  intros W W' req.
  assert (Hrun : exists es, wallet.details Fixture.lib W req []
     = (Ok (json 200 (WalletBody "wallet-1" "EVM" "ready" (Some Fixture.sender) (Some "0x04ab")
              (Some {| wei := "1500000000000000000"; eth := "1" |})
              "2024-01-01T00:00:00.000Z" "Wallet is ready for transactions!")), es))
    by (eexists; vm_compute; reflexivity).
  split; [exact Hrun|]. split; [eexists; vm_compute; reflexivity|].
  destruct Hrun as [es Hrun].
  destruct (C10_eth_balance_truncates _ _ _ _ _ _ _ _ _ _ _ _ _ Hrun)
    as (_ & _ & b & _ & _ & Heth & _).
  exists b. exact Heth.
Defined.

(* ===================================================================== *)
(** * The authentication middleware *)
(* ===================================================================== *)

Module AuthFacts.

Lemma split_noSpace (s : string) :
  noSpace s = true -> auth.split " " s = [s].
Proof.
  induction s as [|c s IH]; cbn; [reflexivity|].
  destruct (Ascii.eqb c " "); cbn; [discriminate|].
  intros H. now rewrite (IH H).
Qed.

Lemma split_cons (a b : string) :
  noSpace a = true -> auth.split " " (a +:+ String " " b) = a :: auth.split " " b.
Proof.
  induction a as [|c a IH]; simpl; [reflexivity|].
  destruct (Ascii.eqb c " ") eqn:E; simpl; [discriminate|].
  intros H. now rewrite (IH H).
Qed.

Lemma append_truthy (a b : string) :
  JS.truthy (Some (a +:+ String " " b)) = true.
Proof. destruct a; reflexivity. Qed.

End AuthFacts.

(** X1. Without a token the middleware answers 401 by itself and the
    identity provider is not asked: "Missing Authorization header" when the
    header is absent or empty, and the hint at the Bearer format when the
    header has no non-empty second word. *)
Theorem X1_no_token_no_identity_call W req h :
  (JS.truthy (headers_authorization req) = false \/
   exists header, headers_authorization req = Some header /\
                  JS.truthy (nth_error (auth.split " " header) 1) = false) ->
  auth.authMiddleware W req h
  = (Ok (inl (json 401
               (ErrorBody "Unauthorized"
                  (if JS.truthy (headers_authorization req)
                   then "Invalid Authorization header format. Use 'Bearer <token>'"
                   else "Missing Authorization header")))), []).
Proof.
  unfold auth.authMiddleware, tryCatch, ret.
  intros [H | (header & Hh & Ht)].
  - destruct (headers_authorization req) as [[|c s]|]; try discriminate H; reflexivity.
  - rewrite Hh. destruct header as [|c s]; [reflexivity|].
    destruct (nth_error (auth.split " " (String c s)) 1) as [[|c' s']|];
      try discriminate Ht; reflexivity.
Qed.

Lemma X1_no_token_no_identity_call_witness :
  let W := Fixture.world (Fixture.readyAfter 0) 0 1 in
  let req := Fixture.incoming (Some "Bearer") (Fixture.sendRequest "" "") in
  auth.authMiddleware W req []
  = (Ok (inl (json 401
               (ErrorBody "Unauthorized"
                  "Invalid Authorization header format. Use 'Bearer <token>'"))), []).
Proof.
  intros W req.
  apply (X1_no_token_no_identity_call W req []).
  right. exists "Bearer". split; reflexivity.
Defined.

(** X2. The token is the word after the first space of the header, whatever
    the first word is (the scheme is not compared with "Bearer").  The
    identity provider is asked once about that token; its user becomes
    [req.user], replacing whatever the request carried, and an error or a
    missing user gives 401 "Invalid or expired token". *)
Theorem X2_token_is_second_word W req h scheme token :
  headers_authorization req = Some (scheme +:+ String " " token) ->
  noSpace scheme = true -> noSpace token = true -> JS.truthy (Some token) = true ->
  let answer := supabase_getUser W h token in
  auth.authMiddleware W req h
  = (Ok (match gu_error answer, gu_user answer with
         | None, Some u =>
             inr (withUser req {| userId := su_id u; email := su_email u |})
         | _, _ => inl (json 401 (ErrorBody "Unauthorized" "Invalid or expired token"))
         end),
     [EvGetUser token answer]).
Proof.
  intros Hh Hs Ht Htok answer. subst answer.
  unfold auth.authMiddleware, withUser. rewrite Hh.
  pose proof (AuthFacts.append_truthy scheme token) as Hne.
  destruct (scheme +:+ String " " token) as [|c s] eqn:E; [discriminate Hne|].
  rewrite <- E, (AuthFacts.split_cons _ _ Hs), (AuthFacts.split_noSpace _ Ht).
  cbn [nth_error]. destruct token as [|c' s']; [discriminate Htok|].
  unfold supabaseService.verifyToken. unfold_monad.
  destruct (supabase_getUser W (h ++ []) (String c' s')) as [u e] eqn:Eg.
  rewrite app_nil_r in Eg. rewrite Eg. cbn.
  destruct e; destruct u; reflexivity.
Qed.

Lemma X2_token_is_second_word_witness :
  let W := Fixture.world (Fixture.readyAfter 0) 0 1 in
  let req := Fixture.incoming (Some "Basic good-token") (Fixture.sendRequest "" "") in
  headers_authorization req = Some ("Basic" +:+ String " " "good-token") /\
  auth.authMiddleware W req []
  = (Ok (inr (withUser req {| userId := "user-1"; email := "a@x.com" |})),
     [EvGetUser "good-token"
        {| gu_user := Some {| su_id := "user-1"; su_email := "a@x.com" |};
           gu_error := None |}]).
Proof.
  intros W req. split; [reflexivity|].
  exact (X2_token_is_second_word W req [] "Basic" "good-token"
           eq_refl eq_refl eq_refl eq_refl).
Defined.

(* ===================================================================== *)
(** * More about the send route *)
(* ===================================================================== *)

Module SendRuns.

Lemma getUserWallet_run W u h r es :
  databaseService.getUserWallet W u h = (r, es) ->
  let answer := supabase_selectUserWallet W h u in
  es = [EvSelectUserWallet u answer] /\
  match db_error answer with
  | Some error =>
      if String.eqb (db_code error) "PGRST116" then r = Ok None
      else r = Throw (JS.newError ("Failed to fetch user wallet: " +:+ db_message error))
  | None => r = Ok (db_data answer)
  end.
Proof.
  unfold databaseService.getUserWallet. unfold_monad. intros H. cbn zeta.
  destruct (db_error (supabase_selectUserWallet W h u)) as [error|] eqn:Ee;
    [destruct (String.eqb (db_code error) "PGRST116") eqn:Ec|];
    inversion H; subst; split; reflexivity.
Qed.

Lemma signRaw_run W walletId dataHash h r es :
  paraService.signRaw W walletId dataHash h = (r, es) ->
  let hexData := if JS.startsWith dataHash "0x" then dataHash else "0x" +:+ dataHash in
  let answer := para_signRaw W h walletId hexData in
  es = [EvParaSignRaw walletId hexData answer] /\
  match answer with
  | Ok s => r = Ok s
  | Throw e => r = Throw (JS.newError ("Failed to sign transaction: " +:+ JS.upstreamMessage e))
  end.
Proof.
  unfold paraService.signRaw. unfold_monad. intros H. cbn zeta.
  destruct (para_signRaw W h walletId
              (if JS.startsWith dataHash "0x" then dataHash else "0x" +:+ dataHash));
    inversion H; subst; split; reflexivity.
Qed.

Lemma broadcast_run W signedTx h r es :
  blockchainService.broadcastTransaction W signedTx h = (r, es) ->
  let answer := provider_broadcastTransaction W h signedTx in
  es = [EvBroadcast signedTx answer] /\
  match answer with
  | Ok hash => r = Ok hash
  | Throw e =>
      r = Throw (JS.newError ("Failed to broadcast transaction: " +:+ JS.upstreamMessage e))
  end.
Proof.
  unfold blockchainService.broadcastTransaction. unfold_monad. intros H. cbn zeta.
  destruct (provider_broadcastTransaction W h signedTx);
    inversion H; subst; split; reflexivity.
Qed.

Lemma build_no_broadcast es :
  Forall (fun e => isBuildCall e = true) es -> broadcasts es = 0%nat.
Proof.
  induction 1 as [|e es He _ IH]; [reflexivity|].
  destruct e; cbn in *; try discriminate; exact IH.
Qed.

Lemma broadcasts_app (es1 es2 : list Event) :
  broadcasts (es1 ++ es2) = (broadcasts es1 + broadcasts es2)%nat.
Proof.
  induction es1 as [|e es1 IH]; [reflexivity|].
  destruct e; cbn; rewrite ?IH; reflexivity.
Qed.

(** The middleware lets a request through only with the identity
    provider's user in it. *)
Lemma authMiddleware_pass W req h req' es :
  auth.authMiddleware W req h = (Ok (inr req'), es) ->
  exists token u,
    es = [EvGetUser token {| gu_user := Some u; gu_error := None |}] /\
    req' = withUser req {| userId := su_id u; email := su_email u |}.
Proof.
  unfold auth.authMiddleware, supabaseService.verifyToken. unfold_monad.
  intros H. run.
  destruct (supabase_getUser W h (String a0 s2)) as [gu ge]; cbn in *; subst.
  unfold withUser. rewrite Heqo. do 2 eexists. split; reflexivity.
Qed.

Lemma authMiddleware_stop W req h response es :
  auth.authMiddleware W req h = (Ok (inl response), es) ->
  Forall identityOnly es.
Proof.
  intros H. exact (proj1 (SendFacts.authMiddleware_run _ _ _ _ _ H)).
Qed.

End SendRuns.

Ltac use_runs :=
  repeat match goal with
  | H : databaseService.getUserWallet _ _ _ = _ |- _ =>
      apply SendRuns.getUserWallet_run in H; cbn zeta in H; destruct H as [? ?]
  | H : paraService.getWallet _ _ _ = _ |- _ =>
      apply Runs.getWallet_run in H; destruct H as (? & ? & ? & ? & ?)
  | H : paraService.signRaw _ _ _ _ = _ |- _ =>
      apply SendRuns.signRaw_run in H; cbn zeta in H; destruct H as [? ?]
  | H : blockchainService.broadcastTransaction _ _ _ = _ |- _ =>
      apply SendRuns.broadcast_run in H; cbn zeta in H; destruct H as [? ?]
  end.

(** X3. On the send route the wallet lookup is made for the user the
    identity provider reported for the token, never for a user id the
    request carried: the first call of such a run is the token check, it
    succeeded, and the database is asked about that user's id. *)
Theorem X3_lookup_uses_verified_identity lib W cfg req h r es uid answer :
  auth.guarded W (transaction.send lib W cfg) req h = (r, es) ->
  In (EvSelectUserWallet uid answer) es ->
  exists token u rest,
    es = EvGetUser token {| gu_user := Some u; gu_error := None |} :: rest /\
    su_id u = uid.
Proof.
  intros H HIn. unfold auth.guarded, bind, ret in H.
  destruct (auth.authMiddleware W req h) as [[[response|req']|e] es1] eqn:Ea.
  - apply SendRuns.authMiddleware_stop in Ea. inversion H; subst.
    rewrite app_nil_r in HIn. rewrite List.Forall_forall in Ea.
    destruct (Ea _ HIn) as (Hd & _). discriminate.
  - apply SendRuns.authMiddleware_pass in Ea. destruct Ea as (token & u & -> & ->).
    destruct (transaction.send lib W cfg _ _) as [r2 es2] eqn:Es.
    inversion H; subst. cbn [app] in HIn. destruct HIn as [HIn | HIn]; [discriminate|].
    exists token, u, es2. split; [reflexivity|].
    unfold transaction.send in Es.
    unfold bind, tryCatch, ret, throw, lift in Es.
    cbn [transaction.userIdOf withUser user userId] in Es.
    run.
    all: try match goal with
         | H : blockchainService.buildUnsignedTransaction _ _ _ _ _ _ = _ |- _ =>
             apply Runs.build_events in H
         end.
    all: use_runs; subst; cbn [app] in HIn; in_cases; try discriminate.
    all: try match goal with
         | H : In _ ?l, HF : Forall _ ?l |- _ =>
             rewrite List.Forall_forall in HF; apply HF in H; discriminate
         end.
    all: match goal with
         | H : EvSelectUserWallet _ _ = EvSelectUserWallet _ _ |- _ =>
             inversion H; subst; reflexivity
         end.
  - apply SendFacts.authMiddleware_run in Ea. destruct Ea as (_ & out & Hout & _).
    discriminate.
Qed.

Lemma X3_lookup_uses_verified_identity_witness :
  let W := Fixture.world (Fixture.readyAfter 0) 0 1 in
  let req := Fixture.incoming (Some "Bearer good-token")
               (Fixture.sendRequest Fixture.recipient "0.001") in
  exists r es token u rest,
    auth.guarded W (transaction.send Fixture.lib W Fixture.cfg) req [] = (r, es) /\
    In (EvSelectUserWallet "user-1" {| db_data := Some Fixture.mapping; db_error := None |}) es /\
    es = EvGetUser token {| gu_user := Some u; gu_error := None |} :: rest /\
    su_id u = "user-1".
Proof.
  intros W req.
  destruct (auth.guarded W (transaction.send Fixture.lib W Fixture.cfg) req [])
    as [r es] eqn:Hrun.
  assert (HIn : In (EvSelectUserWallet "user-1"
                      {| db_data := Some Fixture.mapping; db_error := None |}) es).
  { clear - Hrun. vm_compute in Hrun. inversion Hrun. cbn. auto. }
  destruct (X3_lookup_uses_verified_identity Fixture.lib W Fixture.cfg req [] r es _ _ Hrun HIn)
    as (token & u & rest & Hes & Hid).
  exists r, es, token, u, rest. auto.
Defined.

Ltac count_broadcasts :=
  repeat rewrite SendRuns.broadcasts_app;
  repeat match goal with
  | HF : Forall (fun e => isBuildCall e = true) ?l |- context [broadcasts ?l] =>
      rewrite (SendRuns.build_no_broadcast l HF)
  end;
  cbn [broadcasts Nat.add].

(** X4. A 201 from the send handler means the whole chain ran once, in
    order: the mapping lookup, the custody fetch, the reads of
    [buildUnsignedTransaction], one successful signature with the mapping's
    wallet id and one successful broadcast.  The body carries the hash the
    node returned, the custody wallet's address as [from], and [to] and
    [value] exactly as the request wrote them. *)
Theorem X4_created_means_one_broadcast lib W cfg req h b es :
  transaction.send lib W cfg req h = (Ok (json 201 b), es) ->
  exists uid answer userWallet w address to amount built data sig echo raw hash,
    es = [EvSelectUserWallet uid answer;
          EvParaGetWallet (para_wallet_id userWallet) (Ok w)]
         ++ built
         ++ [EvParaSignRaw (para_wallet_id userWallet) data
               (Ok {| sr_signature := sig; sr_data := echo |});
             EvBroadcast raw (Ok hash)] /\
    db_data answer = Some userWallet /\
    pw_address w = Some address /\
    req_to (body req) = Some to /\
    req_amount (body req) = Some amount /\
    Forall (fun e => isBuildCall e = true) built /\
    broadcasts es = 1%nat /\
    b = SendBody hash "pending" address to amount
          "Transaction broadcasted. Monitor the hash on Sepolia block explorer.".
Proof.
  intros H.
  unfold transaction.send in H.
  unfold bind, tryCatch, ret, throw, lift in H.
  run.
  match goal with
  | H : blockchainService.buildUnsignedTransaction _ _ _ _ _ _ = _ |- _ =>
      apply Runs.build_events in H
  end.
  use_runs; subst.
  repeat match goal with
  | H : match ?x with _ => _ end |- _ => destruct x eqn:?; try discriminate
  | H : if ?x then _ else _ |- _ => destruct x eqn:?; try discriminate
  | H : Ok _ = Ok _ |- _ => inversion H; subst; clear H
  end.
  match goal with
  | H : forall w0, Ok ?w = Ok w0 <-> ?a = Ok w0 |- _ =>
      pose proof (proj1 (H w) eq_refl) as Hw
  end.
  match goal with
  | H : para_signRaw _ _ _ _ = Ok ?s |- _ => destruct s as [sig echo]
  end.
  rewrite Hw in *.
  do 13 eexists.
  split; [cbn [app]; reflexivity|].
  split; [symmetry; eassumption|].
  split; [eassumption|].
  split; [reflexivity|]. split; [reflexivity|].
  split; [eassumption|].
  split; [|reflexivity].
  cbn [app]. cbn [broadcasts]. count_broadcasts. reflexivity.
Qed.

Lemma X4_created_means_one_broadcast_witness :
  let W := Fixture.world (Fixture.readyAfter 0) 0 1 in
  let req := Fixture.authed (Fixture.sendRequest Fixture.recipient "0.001") "" in
  exists es message,
    transaction.send Fixture.lib W Fixture.cfg req []
    = (Ok (json 201 (SendBody Fixture.minedHash "pending" Fixture.sender Fixture.recipient
                       "0.001" message)), es) /\
    broadcasts es = 1%nat.
Proof.
  intros W req.
  destruct (transaction.send Fixture.lib W Fixture.cfg req []) as [r es] eqn:Hrun.
  assert (Hr : r = Ok (json 201 (SendBody Fixture.minedHash "pending" Fixture.sender
                                   Fixture.recipient "0.001"
                 "Transaction broadcasted. Monitor the hash on Sepolia block explorer."))).
  { clear - Hrun. vm_compute in Hrun. inversion Hrun. reflexivity. }
  subst r.
  destruct (X4_created_means_one_broadcast Fixture.lib W Fixture.cfg req [] _ es Hrun)
    as (uid & answer & userWallet & w & address & to & amount & built & data & sig & echo
        & raw & hash & _ & _ & _ & _ & _ & _ & Hcount & _).
  exists es. eexists. split; [reflexivity | exact Hcount].
Defined.

(** X5. When the database reports no row for the user (the empty-result
    code, or neither error nor data), the send handler answers 404 "Not
    Found" and that lookup is the only call of the run; the custody provider
    and the node are not contacted. *)
Theorem X5_no_mapping_is_not_found lib W cfg req h r es uid answer :
  transaction.send lib W cfg req h = (r, es) ->
  In (EvSelectUserWallet uid answer) es ->
  noRow answer ->
  r = Ok (json 404 (ErrorBody "Not Found" "Wallet not found for this user")) /\
  es = [EvSelectUserWallet uid answer].
Proof.
  intros H HIn Hno.
  unfold transaction.send in H.
  unfold bind, tryCatch, ret, throw, lift in H.
  run.
  all: try match goal with
       | H : blockchainService.buildUnsignedTransaction _ _ _ _ _ _ = _ |- _ =>
           apply Runs.build_events in H
       end.
  all: use_runs; subst; cbn [app] in HIn; in_cases; try discriminate.
  all: try match goal with
       | H : In _ ?l, HF : Forall _ ?l |- _ =>
           rewrite List.Forall_forall in HF; apply HF in H; discriminate
       end.
  all: match goal with
       | H : EvSelectUserWallet _ _ = EvSelectUserWallet _ _ |- _ =>
           inversion H; subst; clear H
       end.
  all: unfold noRow in Hno.
  all: repeat match goal with
       | H : match ?x with _ => _ end |- _ => destruct x eqn:?
       | H : if ?x then _ else _ |- _ => destruct x eqn:?
       end.
  all: try congruence.
  all: split; reflexivity.
Qed.

Lemma X5_no_mapping_is_not_found_witness :
  let W := Fixture.world (Fixture.readyAfter 0) 0 1 in
  let req :=
    {| headers_authorization := None;
       user := Some {| userId := "user-2"; email := "b@x.com" |};
       body := Fixture.sendRequest Fixture.recipient "0.1";
       params_txHash := "" |} in
  let answer :=
    {| db_data := None;
       db_error := Some {| db_code := "PGRST116"; db_message := "no rows" |} |} in
  noRow answer /\
  transaction.send Fixture.lib W Fixture.cfg req []
  = (Ok (json 404 (ErrorBody "Not Found" "Wallet not found for this user")),
     [EvSelectUserWallet "user-2" answer]).
Proof.
  intros W req answer.
  assert (Hno : noRow answer) by reflexivity.
  split; [exact Hno|].
  destruct (transaction.send Fixture.lib W Fixture.cfg req []) as [r es] eqn:Hrun.
  assert (HIn : In (EvSelectUserWallet "user-2" answer) es).
  { vm_compute in Hrun. inversion Hrun; subst. left. reflexivity. }
  destruct (X5_no_mapping_is_not_found _ _ _ _ _ _ _ _ _ Hrun HIn Hno) as [-> ->].
  reflexivity.
Defined.

(** X6. When the custody provider refuses to sign, the send handler answers
    500 "Transaction Failed" with the provider's message behind "Failed to
    sign transaction: ", and nothing is broadcast. *)
Theorem X6_sign_failure_stops_before_broadcast lib W cfg req h r es walletId data e :
  transaction.send lib W cfg req h = (r, es) ->
  In (EvParaSignRaw walletId data (Throw e)) es ->
  r = Ok (json 500 (ErrorBody "Transaction Failed"
                      ("Failed to sign transaction: " +:+ JS.upstreamMessage e))) /\
  broadcasts es = 0%nat.
Proof.
  intros H HIn.
  unfold transaction.send in H.
  unfold bind, tryCatch, ret, throw, lift in H.
  run.
  all: try match goal with
       | H : blockchainService.buildUnsignedTransaction _ _ _ _ _ _ = _ |- _ =>
           apply Runs.build_events in H
       end.
  all: use_runs; subst; cbn [app] in HIn; in_cases; try discriminate.
  all: try match goal with
       | H : In _ ?l, HF : Forall _ ?l |- _ =>
           let HF' := fresh in
           pose proof HF as HF';
           rewrite List.Forall_forall in HF'; apply HF' in H; discriminate
       end.
  all: match goal with
       | H : EvParaSignRaw _ _ _ = EvParaSignRaw _ _ _ |- _ =>
           inversion H; subst; clear H
       end.
  all: repeat match goal with
       | H : match ?x with _ => _ end |- _ => destruct x eqn:?; try discriminate
       | H : Throw _ = Throw _ |- _ => inversion H; subst; clear H
       | H : Ok _ = Ok _ |- _ => inversion H; subst; clear H
       end.
  all: try congruence.
  all: split; [reflexivity|].
  all: cbn [app broadcasts]; count_broadcasts; reflexivity.
Qed.

Lemma X6_sign_failure_stops_before_broadcast_witness :
  let W := Faulty.signingDown (Fixture.world (Fixture.readyAfter 0) 0 1) in
  let req := Fixture.authed (Fixture.sendRequest Fixture.recipient "0.001") "" in
  exists es,
    transaction.send Fixture.lib W Fixture.cfg req []
    = (Ok (json 500 (ErrorBody "Transaction Failed"
                       "Failed to sign transaction: signer unavailable")), es) /\
    broadcasts es = 0%nat.
Proof.
  intros W req.
  destruct (transaction.send Fixture.lib W Fixture.cfg req []) as [r es] eqn:Hrun.
  assert (HIn : exists data,
             In (EvParaSignRaw "wallet-1" data
                   (Throw {| JS.message := "Request failed with status code 503";
                             JS.response_data_message := Some "signer unavailable" |})) es).
  { clear - Hrun. vm_compute in Hrun. inversion Hrun. eexists.
    repeat (try (left; reflexivity); right). }
  destruct HIn as (data & HIn).
  destruct (X6_sign_failure_stops_before_broadcast Fixture.lib W Fixture.cfg req [] r es
              _ _ _ Hrun HIn) as (Hr & Hcount).
  exists es. rewrite Hr. split; [reflexivity | exact Hcount].
Defined.

(** X7. The send handler never broadcasts twice: every run holds at most
    one broadcast, and when that broadcast is refused the answer is 500
    "Transaction Failed" with the node's message behind "Failed to
    broadcast transaction: "; there is no retry. *)
Theorem X7_at_most_one_broadcast lib W cfg req h r es :
  transaction.send lib W cfg req h = (r, es) ->
  (broadcasts es <= 1)%nat /\
  (forall raw e,
     In (EvBroadcast raw (Throw e)) es ->
     r = Ok (json 500 (ErrorBody "Transaction Failed"
                         ("Failed to broadcast transaction: " +:+ JS.upstreamMessage e)))).
Proof.
  intros H.
  unfold transaction.send in H.
  unfold bind, tryCatch, ret, throw, lift in H.
  run.
  all: try match goal with
       | H : blockchainService.buildUnsignedTransaction _ _ _ _ _ _ = _ |- _ =>
           apply Runs.build_events in H
       end.
  all: use_runs; subst.
  all: split;
    [cbn [app broadcasts]; count_broadcasts; cbn [broadcasts]; lia
    |intros ? ? HIn; cbn [app] in HIn; in_cases; try discriminate].
  all: try match goal with
       | H : In _ ?l, HF : Forall _ ?l |- _ =>
           rewrite List.Forall_forall in HF; apply HF in H; discriminate
       end.
  all: match goal with
       | H : EvBroadcast _ _ = EvBroadcast _ _ |- _ => inversion H; subst; clear H
       end.
  all: repeat match goal with
       | H : match ?x with _ => _ end |- _ => destruct x eqn:?; try discriminate
       | H : Throw _ = Throw _ |- _ => inversion H; subst; clear H
       | H : Ok _ = Ok _ |- _ => inversion H; subst; clear H
       end.
  all: try congruence.
  all: reflexivity.
Qed.

Lemma X7_at_most_one_broadcast_witness :
  let W := Faulty.nodeRejects (Fixture.world (Fixture.readyAfter 0) 0 1) in
  let req := Fixture.authed (Fixture.sendRequest Fixture.recipient "0.001") "" in
  exists es,
    transaction.send Fixture.lib W Fixture.cfg req []
    = (Ok (json 500 (ErrorBody "Transaction Failed"
         "Failed to broadcast transaction: insufficient funds for gas * price + value")), es) /\
    (broadcasts es <= 1)%nat.
Proof.
  intros W req.
  destruct (transaction.send Fixture.lib W Fixture.cfg req []) as [r es] eqn:Hrun.
  destruct (X7_at_most_one_broadcast Fixture.lib W Fixture.cfg req [] r es Hrun)
    as (Hcount & Hfail).
  assert (HIn : exists raw,
             In (EvBroadcast raw
                   (Throw (JS.newError "insufficient funds for gas * price + value"))) es).
  { clear - Hrun. vm_compute in Hrun. inversion Hrun. eexists.
    repeat (try (left; reflexivity); right). }
  destruct HIn as (raw & HIn).
  exists es. rewrite (Hfail _ _ HIn). split; [reflexivity | exact Hcount].
Defined.

(* ===================================================================== *)
(** * More about the blockchain service *)
(* ===================================================================== *)

Module BuildFacts.

Lemma getGasPrices_missing W h r es fee :
  blockchainService.getGasPrices W h = (r, es) ->
  In (EvGetFeeData (Ok fee)) es ->
  feeMissing fee ->
  r = Throw (JS.newError
               "Failed to fetch gas prices: Could not fetch fee data from provider").
Proof.
  unfold blockchainService.getGasPrices, feeMissing. unfold_monad.
  intros H HIn Hm.
  destruct (provider_getFeeData W h) as [f|e] eqn:Ef.
  - assert (f = fee) as ->.
    { destruct (negb _ || negb _); [|destruct (fd_maxFeePerGas f), (fd_maxPriorityFeePerGas f)];
        inversion H; subst; cbn in HIn; in_cases; congruence. }
    destruct Hm as [Hm | Hm]; rewrite Hm in H; cbn [negb orb] in H;
      rewrite ?orb_true_r in H; inversion H; reflexivity.
  - inversion H; subst. cbn in HIn. in_cases; discriminate.
Qed.

Lemma getNonce_shape lib W address h r es :
  blockchainService.getNonce lib W address h = (r, es) ->
  (es = [] /\ exists e, r = Throw e) \/
  (exists a, es = [EvGetTransactionCount a (provider_getTransactionCount W h a)] /\
             (forall n, r = Ok n <-> provider_getTransactionCount W h a = Ok n)).
Proof.
  unfold blockchainService.getNonce. unfold_monad. intros H.
  destruct (getAddress lib address) as [a|e]; [|inversion H; subst; left; eauto].
  rewrite app_nil_r in H.
  right. exists a.
  destruct (provider_getTransactionCount W h a) eqn:E; inversion H; subst;
    (split; [reflexivity|]); intros n; split; congruence.
Qed.

Lemma getGasPrices_shape W h r es :
  blockchainService.getGasPrices W h = (r, es) ->
  es = [EvGetFeeData (provider_getFeeData W h)].
Proof.
  unfold blockchainService.getGasPrices. unfold_monad. intros H.
  run; reflexivity.
Qed.

(** The calls of [buildUnsignedTransaction], in order. *)
Lemma build_order lib W cfg fromAddress request h r es :
  blockchainService.buildUnsignedTransaction lib W cfg fromAddress request h = (r, es) ->
  (es = [] /\ exists e, r = Throw e) \/
  (exists a e answer, es = [EvGetTransactionCount a (Throw e)] /\ r = Throw answer) \/
  (exists a n answer, es = [EvGetTransactionCount a (Ok n); EvGetFeeData answer]).
Proof.
  unfold blockchainService.buildUnsignedTransaction.
  intros H. unfold bind, tryCatch, ret, throw, lift in H.
  run.
  all: repeat match goal with
       | H : blockchainService.getNonce _ _ _ _ = _ |- _ =>
           apply getNonce_shape in H;
           destruct H as [(-> & ? & ?) | (? & -> & ?)]
       | H : blockchainService.getGasPrices _ _ = _ |- _ =>
           apply getGasPrices_shape in H; subst
       end.
  all: try discriminate.
  all: cbn [app].
  all: try (left; split; [reflexivity | eauto]; fail).
  all: try match goal with
       | H : forall n, Ok ?x = Ok n <-> ?p = Ok n |- _ =>
           rewrite (proj1 (H x) eq_refl) in *
       end.
  all: try (right; right; eauto; fail).
  all: right; left.
  all: match goal with
       | H : forall n, Throw _ = Ok n <-> ?p = Ok n |- _ =>
           destruct p eqn:?; [exfalso; pose proof (proj2 (H _) eq_refl); discriminate|]
       end.
  all: eauto.
Qed.

End BuildFacts.

(** X8. When the node's fee data lacks a fee (null or zero),
    [buildUnsignedTransaction] fails, even for a request that overrides both
    fees: the estimate is fetched and checked before the overrides are
    looked at. *)
Theorem X8_missing_fee_data_fails_despite_overrides
        lib W cfg fromAddress request h r es fee :
  blockchainService.buildUnsignedTransaction lib W cfg fromAddress request h = (r, es) ->
  In (EvGetFeeData (Ok fee)) es ->
  feeMissing fee ->
  r = Throw (JS.newError
    "Failed to build transaction: Failed to fetch gas prices: Could not fetch fee data from provider").
Proof.
  intros H HIn Hm.
  unfold blockchainService.buildUnsignedTransaction in H.
  unfold bind, tryCatch, ret, throw, lift in H.
  run.
  all: cbn [app] in HIn.
  all: try match goal with
       | H : blockchainService.getGasPrices _ _ = (_, ?l) |- _ =>
           assert (HIn' : In (EvGetFeeData (Ok fee)) l);
           [ match goal with
             | Hn : blockchainService.getNonce _ _ _ _ = _ |- _ =>
                 apply BuildFacts.getNonce_shape in Hn;
                 destruct Hn as [(-> & _) | (? & -> & _)]
             end; in_cases; try discriminate; assumption
           | pose proof (BuildFacts.getGasPrices_missing _ _ _ _ _ H HIn' Hm) as Hthrow;
             inversion Hthrow; subst; try discriminate; reflexivity ]
       end.
  all: try match goal with
       | Hn : blockchainService.getNonce _ _ _ _ = _ |- _ =>
           apply BuildFacts.getNonce_shape in Hn;
           destruct Hn as [(-> & _) | (? & -> & _)]
       end.
  all: in_cases; discriminate.
Qed.

Lemma X8_missing_fee_data_fails_despite_overrides_witness :
  let W := Faulty.noFeeEstimate (Fixture.world (Fixture.readyAfter 0) 0 1) in
  let request := Faulty.overridden Fixture.recipient "0.001" in
  let fee := {| fd_maxFeePerGas := None; fd_maxPriorityFeePerGas := Some 2000000000 |} in
  feeMissing fee /\
  exists es,
    blockchainService.buildUnsignedTransaction Fixture.lib W Fixture.cfg Fixture.sender
      request []
    = (Throw (JS.newError
         "Failed to build transaction: Failed to fetch gas prices: Could not fetch fee data from provider"),
       es) /\
    In (EvGetFeeData (Ok fee)) es.
Proof.
  intros W request fee.
  assert (Hm : feeMissing fee) by (left; reflexivity).
  split; [exact Hm|].
  destruct (blockchainService.buildUnsignedTransaction Fixture.lib W Fixture.cfg
              Fixture.sender request []) as [r es] eqn:Hrun.
  assert (HIn : In (EvGetFeeData (Ok fee)) es).
  { clear - Hrun. vm_compute in Hrun. inversion Hrun. cbn. auto. }
  exists es.
  rewrite (X8_missing_fee_data_fails_despite_overrides _ _ _ _ _ _ _ _ _ Hrun HIn Hm).
  split; [reflexivity | exact HIn].
Defined.

(** X9. [buildUnsignedTransaction] validates both addresses before it
    talks to the node, and reads the fee estimate only after a successful
    nonce read: a run makes no call and fails when the sender or the
    recipient address is rejected, and otherwise its calls are the nonce
    read alone (when that read failed) or the nonce read followed by the
    fee read. *)
Theorem X9_addresses_first_then_nonce_then_fee
        lib W cfg fromAddress request h r es :
  blockchainService.buildUnsignedTransaction lib W cfg fromAddress request h = (r, es) ->
  ((malformed lib fromAddress \/
    forall to, req_to request = Some to -> malformed lib to) ->
   es = [] /\ exists e, r = Throw e) /\
  ((es = [] /\ exists e, r = Throw e) \/
   (exists a e answer, es = [EvGetTransactionCount a (Throw e)] /\ r = Throw answer) \/
   (exists a n answer, es = [EvGetTransactionCount a (Ok n); EvGetFeeData answer])).
Proof.
  intros H. split; [|exact (BuildFacts.build_order _ _ _ _ _ _ _ _ H)].
  unfold blockchainService.buildUnsignedTransaction in H.
  unfold bind, tryCatch, ret, throw, lift in H.
  intros [Hm | Hm].
  - unfold malformed in Hm.
    destruct (getAddress lib fromAddress); [destruct Hm|].
    inversion H; subst. split; eauto.
  - destruct (getAddress lib fromAddress); [|inversion H; subst; split; eauto].
    unfold blockchainService.getAddressOf in H.
    destruct (req_to request) as [to|] eqn:Et.
    + pose proof (Hm to eq_refl) as Hto. unfold malformed in Hto.
      destruct (getAddress lib to); [destruct Hto|].
      inversion H; subst. split; eauto.
    + inversion H; subst. split; eauto.
Qed.

Lemma X9_addresses_first_then_nonce_then_fee_witness :
  let W := Fixture.world (Fixture.readyAfter 0) 0 1 in
  let request := Fixture.sendRequest "not-an-address" "0.1" in
  exists r e,
    blockchainService.buildUnsignedTransaction Fixture.lib W Fixture.cfg
      Fixture.sender request [] = (r, []) /\ r = Throw e.
Proof.
  intros W request.
  destruct (blockchainService.buildUnsignedTransaction Fixture.lib W Fixture.cfg
              Fixture.sender request []) as [r es] eqn:Hrun.
  destruct (proj1 (X9_addresses_first_then_nonce_then_fee _ _ _ _ _ _ _ _ Hrun))
    as (-> & e & ->).
  { right. intros to Hto. injection Hto as <-. exact I. }
  exists (Throw e), e. split; reflexivity.
Defined.

(** X10. A transaction returned by [buildUnsignedTransaction] is an
    unsigned EIP-1559 transfer: type 2, empty data, no signature, the chain
    id of the configuration, [from] and [to] as normalised by [getAddress],
    and [value] the result of [parseEther] on the amount; the string handed
    to the signer is the serialisation of exactly this object. *)
Theorem X10_built_transaction_fields lib W cfg fromAddress request h tx dataHash es :
  blockchainService.buildUnsignedTransaction lib W cfg fromAddress request h
    = (Ok (tx, dataHash), es) ->
  tx_type tx = 2 /\
  tx_data tx = "0x" /\
  tx_signature tx = None /\
  tx_chainId tx = Config.chainId (Config.ethereum cfg) /\
  getAddress lib fromAddress = Ok (tx_from tx) /\
  blockchainService.getAddressOf lib (req_to request) = Ok (tx_to tx) /\
  blockchainService.parseEtherOf (req_amount request) = Ok (tx_value tx) /\
  serializeTransaction lib tx = Ok dataHash.
Proof.
  intros H.
  destruct (Runs.build_ok _ _ _ _ _ _ _ _ _ H)
    as (cf & ct & a & n & mf & mp & gl & mfg & mpg & v
        & Hcf & Hct & _ & _ & _ & _ & _ & _ & _ & Hv & Htx & Hser).
  subst tx. cbn. repeat split; assumption.
Qed.

Lemma X10_built_transaction_fields_witness :
  let W := Fixture.world (Fixture.readyAfter 0) 0 1 in
  let request := Fixture.sendRequest Fixture.recipient "1.5" in
  exists tx dataHash es,
    blockchainService.buildUnsignedTransaction Fixture.lib W Fixture.cfg
      Fixture.sender request [] = (Ok (tx, dataHash), es) /\
    tx_type tx = 2 /\ tx_data tx = "0x" /\ tx_signature tx = None.
Proof.
  intros W request.
  destruct (blockchainService.buildUnsignedTransaction Fixture.lib W Fixture.cfg
              Fixture.sender request []) as [[[tx dataHash]|e] es] eqn:Hrun;
    [|vm_compute in Hrun; discriminate].
  exists tx, dataHash, es. split; [reflexivity|].
  destruct (X10_built_transaction_fields _ _ _ _ _ _ _ _ _ Hrun) as (H1 & H2 & H3 & _).
  repeat split; assumption.
Defined.

Module PrefixFacts.

Lemma startsWith_0x (s : string) : JS.startsWith ("0x" +:+ s) "0x" = true.
Proof. destruct s; vm_compute; reflexivity. Qed.

Lemma cleanSignature_prefixed (s : string) :
  JS.startsWith (blockchainService.cleanSignature s) "0x" = true.
Proof.
  unfold blockchainService.cleanSignature.
  destruct (JS.startsWith s "0x") eqn:E; [exact E | apply startsWith_0x].
Qed.

End PrefixFacts.

(** X11. The signature attached to the transaction always starts with 0x:
    a signature that has the prefix is kept as it is, the prefix is added to
    one that lacks it, and cleaning twice changes nothing.  [signRaw] treats
    the data it sends to the custody provider the same way. *)
Theorem X11_hex_prefix_added_once W walletId dataHash h (signature : string) :
  JS.startsWith (blockchainService.cleanSignature signature) "0x" = true /\
  blockchainService.cleanSignature (blockchainService.cleanSignature signature)
  = blockchainService.cleanSignature signature /\
  (JS.startsWith signature "0x" = true ->
   blockchainService.cleanSignature signature = signature) /\
  exists data answer r,
    paraService.signRaw W walletId dataHash h = (r, [EvParaSignRaw walletId data answer]) /\
    JS.startsWith data "0x" = true /\
    data = blockchainService.cleanSignature dataHash.
Proof.
  split; [apply PrefixFacts.cleanSignature_prefixed|].
  split.
  { unfold blockchainService.cleanSignature at 1.
    now rewrite PrefixFacts.cleanSignature_prefixed. }
  split.
  { unfold blockchainService.cleanSignature. now intros ->. }
  destruct (paraService.signRaw W walletId dataHash h) as [r es] eqn:Hrun.
  apply SendRuns.signRaw_run in Hrun. cbn zeta in Hrun. destruct Hrun as [-> _].
  do 3 eexists. split; [reflexivity|].
  split; [apply PrefixFacts.cleanSignature_prefixed | reflexivity].
Qed.

(** X12. [getBalanceInEth] fails only when [getBalance] fails, and with
    the same error: the decimal string [getBalance] returns is always
    accepted by the conversion back to a bigint.  It makes the same single
    read of the node. *)
Theorem X12_eth_balance_follows_wei_balance lib W address h :
  match blockchainService.getBalance lib W address h with
  | (Throw e, es) => blockchainService.getBalanceInEth lib W address h = (Throw e, es)
  | (Ok balanceWei, es) =>
      exists b,
        balanceWei = JS.toString b /\
        blockchainService.getBalanceInEth lib W address h
        = (Ok (JS.toString (Z.quot b (10 ^ 18))), es)
  end.
Proof.
  unfold blockchainService.getBalanceInEth, bind.
  destruct (blockchainService.getBalance lib W address h) as [[s|e] es] eqn:Hb;
    [|reflexivity].
  assert (Hs : exists b, s = JS.toString b).
  { unfold blockchainService.getBalance in Hb. unfold_monad. run; eauto. }
  destruct Hs as [b ->]. exists b. split; [reflexivity|].
  unfold lift, ret, blockchainService.BigIntOf.
  rewrite JSFacts.BigInt_toString. now rewrite !app_nil_r.
Qed.

(* ===================================================================== *)
(** * More about the wallet routes *)
(* ===================================================================== *)

(** X13. A 200 from the wallet-details handler has one of two shapes.
    Without a balance, the custody wallet was not ready (or had no address)
    and the node was not contacted.  With a balance, the node was read
    twice, once by [getBalance] for the [wei] field and once more by
    [getBalanceInEth] for the [eth] field, so the two fields come from two
    separate readings. *)
Theorem X13_details_reads_balance_twice lib W req h
        id type status address publicKey balance createdAt msg es :
  wallet.details lib W req h
  = (Ok (json 200 (WalletBody id type status address publicKey balance createdAt msg)), es) ->
  exists uid answer walletId w,
    status = pw_status w /\
    address = orNull (pw_address w) /\
    match balance with
    | None =>
        es = [EvSelectUserWallet uid answer; EvParaGetWallet walletId (Ok w)] /\
        notReady w
    | Some bal =>
        exists a b1 b2,
          es = [EvSelectUserWallet uid answer; EvParaGetWallet walletId (Ok w);
                EvGetBalance a (Ok b1); EvGetBalance a (Ok b2)] /\
          wei bal = JS.toString b1 /\
          eth bal = JS.toString (Z.quot b2 (10 ^ 18))
    end.
Proof.
  intros H.
  unfold wallet.details in H.
  unfold bind at 1 2 3 4, tryCatch at 1, ret in H.
  run.
  all: unfold bind, ret in *; run.
  all: use_runs; subst.
  all: repeat match goal with
       | H : match ?x with _ => _ end |- _ => destruct x eqn:?; try discriminate
       | H : if ?x then _ else _ |- _ => destruct x eqn:?; try discriminate
       | H : Ok _ = Ok _ |- _ => inversion H; subst; clear H
       end.
  all: match goal with
       | H : forall w0, Ok ?w = Ok w0 <-> ?a = Ok w0 |- _ =>
           pose proof (proj1 (H w) eq_refl) as Hw; rewrite Hw in *
       end.
  all: try match goal with
       | H : blockchainService.getBalanceInEth _ _ _ _ = _ |- _ =>
           apply Runs.getBalanceInEth_ok in H; destruct H as (? & ? & Ha2 & _ & -> & ->)
       end.
  all: try match goal with
       | H : blockchainService.getBalance _ _ _ _ = _ |- _ =>
           unfold blockchainService.getBalance in H; unfold_monad; run
       end.
  all: do 4 eexists; split; [reflexivity|];
       split; [first [reflexivity | f_equal; symmetry; eassumption]|].
  all: try (split; [reflexivity|]; unfold notReady;
            first [left; assumption | right; rewrite ?Heqo0, ?Heqo1, ?Heqo2; reflexivity]).
  do 3 eexists. repeat split; reflexivity.
Qed.


Lemma X13_details_reads_balance_twice_witness :
  let W := Fixture.world (Fixture.readyAfter 0) 2000000000000000000 1 in
  let req := Fixture.authed (Fixture.sendRequest "" "") "" in
  exists bal es,
    wallet.details Fixture.lib W req []
    = (Ok (json 200 (WalletBody "wallet-1" "EVM" "ready" (Some Fixture.sender) (Some "0x04ab")
             (Some bal) "2024-01-01T00:00:00.000Z" "Wallet is ready for transactions!")), es) /\
    exists a b1 b2, wei bal = JS.toString b1 /\
      es = [EvSelectUserWallet "user-1" {| db_data := Some Fixture.mapping; db_error := None |};
            EvParaGetWallet "wallet-1" (Ok Fixture.ready);
            EvGetBalance a (Ok b1); EvGetBalance a (Ok b2)].
Proof.
  intros W req.
  destruct (wallet.details Fixture.lib W req []) as [r es] eqn:Hrun.
  assert (Hr : exists bal, r = Ok (json 200 (WalletBody "wallet-1" "EVM" "ready"
             (Some Fixture.sender) (Some "0x04ab")
             (Some bal) "2024-01-01T00:00:00.000Z" "Wallet is ready for transactions!"))).
  { vm_compute in Hrun. inversion Hrun; subst. eexists. reflexivity. }
  destruct Hr as [bal ->]. exists bal, es. split; [reflexivity|].
  destruct (X13_details_reads_balance_twice _ _ _ _ _ _ _ _ _ _ _ _ _ Hrun)
    as (uid & answer & walletId & w & _ & _ & a & b1 & b2 & Hes & Hwei & _).
  exists a, b1, b2. split; [exact Hwei|].
  rewrite Hes in Hrun. vm_compute in Hrun. inversion Hrun; subst. reflexivity.
Defined.

(** X14. The wallet-status handler never contacts the node: a run makes at
    most the mapping lookup and one custody fetch.  Its 200 reports the
    fetched wallet's status as it is, with the address or null, also for a
    wallet that is not ready. *)
Theorem X14_status_route_never_reads_chain W req h r es :
  walletStatus.status W req h = (r, es) ->
  Forall (fun e => isChainCall e = false) es /\
  (length es <= 2)%nat /\
  (forall st address,
     r = Ok (200, walletStatus.StatusOk st address) ->
     exists uid answer walletId w,
       es = [EvSelectUserWallet uid answer; EvParaGetWallet walletId (Ok w)] /\
       st = pw_status w /\ address = orNull (pw_address w)).
Proof.
  intros H.
  unfold walletStatus.status in H.
  unfold bind, tryCatch, ret in H.
  run.
  all: use_runs; subst.
  all: split; [repeat constructor|]; split; [cbn; lia|].
  all: intros st address Hr; try discriminate; inversion Hr; subst.
  all: match goal with
       | H : forall w0, Ok ?w = Ok w0 <-> ?a = Ok w0 |- _ =>
           pose proof (proj1 (H w) eq_refl) as Hw; rewrite Hw in *
       end.
  all: do 4 eexists; split; [reflexivity|]; split; reflexivity.
Qed.

Lemma X14_status_route_never_reads_chain_witness :
  let W := Fixture.world (Fixture.readyAfter 1) 0 1 in
  let req := Fixture.authed (Fixture.sendRequest "" "") "" in
  exists es,
    walletStatus.status W req [] = (Ok (200, walletStatus.StatusOk "creating" None), es) /\
    Forall (fun e => isChainCall e = false) es.
Proof.
  intros W req.
  destruct (walletStatus.status W req []) as [r es] eqn:Hrun.
  exists es.
  assert (Hr : r = Ok (200, walletStatus.StatusOk "creating" None)).
  { vm_compute in Hrun. inversion Hrun; subst. reflexivity. }
  subst r. split; [reflexivity|].
  exact (proj1 (X14_status_route_never_reads_chain W req [] _ es Hrun)).
Defined.

(* ===================================================================== *)
(** * More about polling, the configuration and the status route *)
(* ===================================================================== *)

Module PauseFacts.

Lemma sleeps_app (es1 es2 : list Event) :
  sleeps (es1 ++ es2) = (sleeps es1 + sleeps es2)%nat.
Proof.
  induction es1 as [|e es1 IH]; [reflexivity|].
  destruct e; cbn; rewrite ?IH; reflexivity.
Qed.

(** Fetches and pauses alternate, and the loop ends on a fetch. *)
Lemma pollLoop_pauses W walletId maxAttempts delayMs :
  forall fuel attempts h r es,
    fuel = Z.to_nat (maxAttempts - attempts) ->
    paraService.pollLoop W fuel walletId attempts maxAttempts delayMs h = (r, es) ->
    (attempts < maxAttempts -> fetches es = S (sleeps es)) /\
    (maxAttempts <= attempts -> es = []).
Proof.
  induction fuel as [|fuel IH]; intros attempts h r es Hfuel H.
  - cbn in H. unfold throw in H. inversion H; subst.
    split; [lia | reflexivity].
  - split; [intros _ | lia].
    cbn [paraService.pollLoop] in H.
    assert (Hlt : (attempts <? maxAttempts) = true) by (apply Z.ltb_lt; lia).
    rewrite Hlt in H.
    unfold bind at 1 in H.
    destruct (paraService.getWallet W walletId h) as [rw ew] eqn:Eg.
    apply Runs.getWallet_run in Eg. destruct Eg as (answer & _ & -> & _ & _).
    destruct rw as [w | e0]; [|inversion H; subst; reflexivity].
    destruct (String.eqb (pw_status w) "ready").
    + unfold ret in H. inversion H; subst. reflexivity.
    + unfold bind at 1 in H.
      destruct (Z.ltb_spec (attempts + 1) maxAttempts) as [Hmore | Hlast].
      * unfold sleep at 1 in H.
        destruct (paraService.pollLoop W fuel walletId (attempts + 1) maxAttempts delayMs
                    ((h ++ [EvParaGetWallet walletId answer]) ++ [EvSleep delayMs]))
          as [r' es'] eqn:Er.
        inversion H; subst. clear H.
        apply IH in Er; [|lia]. destruct Er as [Hcount _].
        specialize (Hcount Hmore).
        cbn [app fetches isFetch sleeps Nat.add]. rewrite Hcount. reflexivity.
      * unfold ret at 1 in H.
        destruct (paraService.pollLoop W fuel walletId (attempts + 1) maxAttempts delayMs
                    ((h ++ [EvParaGetWallet walletId answer]) ++ []))
          as [r' es'] eqn:Er.
        inversion H; subst. clear H.
        apply IH in Er; [|lia]. destruct Er as [_ Hnil].
        rewrite (Hnil Hlast). reflexivity.
Qed.

Lemma pollLoop_pause_length W walletId maxAttempts delayMs :
  forall fuel attempts h r es,
    paraService.pollLoop W fuel walletId attempts maxAttempts delayMs h = (r, es) ->
    forall ms, In (EvSleep ms) es -> ms = delayMs.
Proof.
  induction fuel as [|fuel IH]; intros attempts h r es H ms HIn.
  - cbn in H. unfold throw in H. inversion H; subst. destruct HIn.
  - cbn [paraService.pollLoop] in H.
    destruct (attempts <? maxAttempts);
      [|unfold throw in H; inversion H; subst; destruct HIn].
    unfold bind at 1 in H.
    destruct (paraService.getWallet W walletId h) as [rw ew] eqn:Eg.
    apply Runs.getWallet_run in Eg. destruct Eg as (answer & _ & -> & _ & _).
    destruct rw as [w | e0];
      [|inversion H; subst; cbn in HIn; in_cases; discriminate].
    destruct (String.eqb (pw_status w) "ready").
    + unfold ret in H. inversion H; subst. cbn in HIn. in_cases; discriminate.
    + unfold bind at 1 in H.
      destruct ((if attempts + 1 <? maxAttempts then sleep delayMs else ret tt)
                  (h ++ [EvParaGetWallet walletId answer])) as [rs esl] eqn:Esl.
      assert (Hsl : rs = Ok tt /\ (esl = [EvSleep delayMs] \/ esl = [])).
      { destruct (attempts + 1 <? maxAttempts); unfold sleep, ret in Esl;
          inversion Esl; subst; auto. }
      destruct Hsl as (-> & Hesl).
      destruct (paraService.pollLoop W fuel walletId (attempts + 1) maxAttempts delayMs
                  ((h ++ [EvParaGetWallet walletId answer]) ++ esl)) as [r' es'] eqn:Er.
      inversion H; subst. clear H.
      cbn [app] in HIn. destruct HIn as [HIn | HIn]; [discriminate|].
      apply in_app_or in HIn. destruct HIn as [HIn | HIn].
      * destruct Hesl as [-> | ->]; cbn in HIn; in_cases; congruence.
      * exact (IH _ _ _ _ Er ms HIn).
Qed.

End PauseFacts.

(** X15. [pollWalletReady] pauses only between two fetches: a run with at
    least one fetch holds exactly one pause fewer than fetches, a run
    without a fetch holds none, and every pause lasts [delayMs].  So the
    function never waits after its last attempt, and with [maxAttempts] at
    least 1 it waits at most [maxAttempts - 1] times. *)
Theorem X15_pauses_only_between_fetches W walletId maxAttempts delayMs h r es :
  paraService.pollWalletReady W walletId maxAttempts delayMs h = (r, es) ->
  sleeps es = (fetches es - 1)%nat /\
  (forall ms, In (EvSleep ms) es -> ms = delayMs) /\
  (1 <= maxAttempts -> Z.of_nat (sleeps es) <= maxAttempts - 1) /\
  (maxAttempts <= 0 -> es = [] /\ r = Throw (paraService.timeoutError walletId maxAttempts)).
Proof.
  unfold paraService.pollWalletReady. intros H.
  assert (Hfuel : Z.to_nat maxAttempts = Z.to_nat (maxAttempts - 0)) by (f_equal; lia).
  destruct (PauseFacts.pollLoop_pauses W walletId maxAttempts delayMs _ _ _ _ _ Hfuel H)
    as [Hpos Hneg].
  destruct (PollFacts.pollLoop_run W walletId maxAttempts delayMs _ _ _ _ _ Hfuel H)
    as [Hle _].
  assert (Hcount : sleeps es = (fetches es - 1)%nat).
  { destruct (Z.lt_ge_cases 0 maxAttempts) as [Hp | Hn].
    - rewrite (Hpos Hp). lia.
    - rewrite (Hneg Hn). reflexivity. }
  split; [exact Hcount|].
  split; [exact (PauseFacts.pollLoop_pause_length _ _ _ _ _ _ _ _ _ H)|].
  split; [lia|].
  intros Hn. split; [exact (Hneg Hn)|].
  replace (Z.to_nat maxAttempts) with 0%nat in H by lia.
  cbn in H. unfold throw in H. now inversion H.
Qed.

Lemma X15_pauses_only_between_fetches_witness :
  let W := Fixture.world (Fixture.readyAfter 9) 0 1 in
  exists r es,
    paraService.pollWalletReady W "wallet-1" 3 250 [] = (r, es) /\
    fetches es = 3%nat /\ sleeps es = 2%nat /\
    forall ms, In (EvSleep ms) es -> ms = 250.
Proof.
  intros W.
  destruct (paraService.pollWalletReady W "wallet-1" 3 250 []) as [r es] eqn:Hrun.
  exists r, es. split; [reflexivity|].
  destruct (X15_pauses_only_between_fetches W "wallet-1" 3 250 [] r es Hrun)
    as (Hs & Hms & _ & _).
  assert (Hf : fetches es = 3%nat).
  { vm_compute in Hrun. inversion Hrun; subst. reflexivity. }
  rewrite Hf in Hs. repeat split; assumption.
Defined.

Module OrderFacts.

Lemma validate_first_missing (env : gmap string string) (vars : list string) (e : JS.Error) :
  Config.validate env vars = Throw e ->
  exists before v after,
    vars = before ++ v :: after /\
    Forall (fun x => JS.truthy (env !! x) = true) before /\
    JS.truthy (env !! v) = false /\
    e = JS.newError ("Missing required environment variable: " +:+ v).
Proof.
  induction vars as [|x vars IH]; cbn; [discriminate|].
  destruct (JS.truthy (env !! x)) eqn:E; cbn.
  - intros H. destruct (IH H) as (before & v & after & -> & Hb & Hv & He).
    exists (x :: before), v, after. repeat split; auto.
  - intros H. inversion H; subst.
    exists [], x, vars. repeat split; auto.
Qed.

End OrderFacts.

(** X16. When the configuration refuses to load, the error names the first
    variable of the list of required variables that is unset or empty:
    every required variable listed before it is set. *)
Theorem X16_error_names_first_missing_variable (env : gmap string string) (e : JS.Error) :
  Config.load env = Throw e ->
  exists before v after,
    Config.requiredVars = before ++ v :: after /\
    Forall (fun x => JS.truthy (env !! x) = true) before /\
    JS.truthy (env !! v) = false /\
    e = JS.newError ("Missing required environment variable: " +:+ v).
Proof.
  unfold Config.load.
  destruct (Config.validate env Config.requiredVars) as [u|e'] eqn:E; [discriminate|].
  intros H. inversion H; subst.
  exact (OrderFacts.validate_first_missing _ _ _ E).
Qed.

Lemma X16_error_names_first_missing_variable_witness :
  let env := delete "PARA_API_KEY" (delete "SUPABASE_ANON_KEY" Fixture.env) in
  Config.load env
  = Throw (JS.newError "Missing required environment variable: SUPABASE_ANON_KEY") /\
  exists before v after,
    Config.requiredVars = before ++ v :: after /\
    Forall (fun x => JS.truthy (env !! x) = true) before /\
    JS.truthy (env !! v) = false /\
    JS.newError "Missing required environment variable: SUPABASE_ANON_KEY"
    = JS.newError ("Missing required environment variable: " +:+ v).
Proof.
  intros env.
  assert (Hrun : Config.load env
    = Throw (JS.newError "Missing required environment variable: SUPABASE_ANON_KEY"))
    by (vm_compute; reflexivity).
  split; [exact Hrun|].
  exact (X16_error_names_first_missing_variable env _ Hrun).
Defined.

(** X17. On the status route a mined transaction is reported "success"
    exactly when the receipt's status code is 1; every other receipt, also
    one without a status code, is reported "failed". *)
Theorem X17_only_code_one_is_success W req h receipt :
  hashShape (params_txHash req) = true ->
  provider_waitForTransaction W h (params_txHash req) 0 = Ok (Some receipt) ->
  exists outcome,
    transaction.status W req h
    = (Ok (json 200
             (ReceiptBody (rc_hash receipt) (rc_blockNumber receipt) (rc_blockHash receipt)
                outcome (JS.toString (rc_gasUsed receipt))
                (option_map JS.toString (rc_gasPrice receipt))
                (rc_from receipt) (rc_to receipt)
                (JS.orElse (option_map JS.toString (rc_value receipt)) "0"))),
       [EvWaitForTransaction (params_txHash req) 0 (Ok (Some receipt))]) /\
    (outcome = "success" <-> rc_status receipt = Some 1) /\
    (outcome = "failed" <-> rc_status receipt <> Some 1).
Proof.
  unfold hashShape. intros Hs Hw.
  apply andb_prop in Hs. destruct Hs as [Hp Hl].
  unfold transaction.status, blockchainService.waitForTransaction.
  unfold_monad. rewrite Hp, Hl. cbn [negb orb]. rewrite app_nil_r, Hw. cbn.
  eexists. split; [reflexivity|].
  destruct (rc_status receipt) as [[|[p|p|]|p]|]; cbn;
    split; split; intros H; try reflexivity; try discriminate; try congruence.
Qed.

Lemma X17_only_code_one_is_success_witness :
  let W := Fixture.world (Fixture.readyAfter 0) 0 2 in
  let req := Fixture.authed (Fixture.sendRequest "" "") Fixture.minedHash in
  hashShape (params_txHash req) = true /\
  exists outcome es b n bh g gp f t v,
    transaction.status W req []
    = (Ok (json 200 (ReceiptBody b n bh outcome g gp f t v)), es) /\
    outcome = "failed".
Proof.
  intros W req. split; [reflexivity|].
  destruct (X17_only_code_one_is_success W req [] (Fixture.receipt 2) eq_refl eq_refl)
    as (outcome & Hrun & _ & Hfailed).
  exists outcome. do 9 eexists. split; [exact Hrun|].
  apply Hfailed. cbn. discriminate.
Defined.

(* ===================================================================== *)
(** * The signup and login routes *)
(* ===================================================================== *)

Module SignupFacts.
Import AuthFlow SignupSteps.

Ltac unfold_flow :=
  unfold routes.signup, routes.login, supabaseService.signup, supabaseService.login,
    paraService.createWallet, databaseService.saveUserWallet, authResponseOf,
    Flow.tryCatch, Flow.bind, Flow.query, Flow.ret, Flow.throw in *.

Lemma signup_run W body h r es :
  routes.signup W body h = (r, es) ->
  exists response, r = Ok response /\ Shape W body h response es.
Proof.
  intros H.
  destruct body as [[[|c1 s1]|] [[|c2 s2]|]]; unfold_flow; cbn in H;
    try (inversion H; subst; eexists; split; [reflexivity|];
         apply NoCredentials; cbn; auto; fail).
  set (email := String c1 s1) in *. set (password := String c2 s2) in *.
  destruct (ares_error (auth_signUp W h email password)) as [error|] eqn:Eerr.
  { cbn in H. inversion H; subst. eexists; split; [reflexivity|].
    eapply IdentityFailed; try reflexivity. rewrite Eerr. reflexivity. }
  destruct (ares_user (auth_signUp W h email password)) as [user|] eqn:Euser;
    [destruct (ares_session (auth_signUp W h email password)) as [token|] eqn:Etoken|];
    cbn in H;
    try (inversion H; subst; eexists; split; [reflexivity|];
         eapply IdentityFailed; try reflexivity; rewrite Eerr; auto; fail).
  destruct (para_postWallet W (h ++ [EvSignUp email password (auth_signUp W h email password)])
              (su_id user)) as [wallet|error] eqn:Ewallet.
  - cbn in H. rewrite <- !app_assoc in H. cbn [app] in H.
    destruct (db_error (db_insertUserWallet W _ (su_id user) (pw_id wallet) None))
      as [dberr|] eqn:Edb; cbn in H; inversion H; subst;
      (eexists; split; [reflexivity|]);
      eapply Stored; try eassumption; try reflexivity; rewrite Edb; reflexivity.
  - assert (Hcase : ax_status error = Some 409 \/ ax_status error <> Some 409)
      by (destruct (decide (ax_status error = Some 409)); auto).
    destruct Hcase as [H409 | H409].
    + rewrite H409 in H. cbn in H. inversion H; subst.
      eexists; split; [reflexivity|].
      eapply WalletFailed; try eassumption; try reflexivity.
      destruct (decide _); [reflexivity | contradiction].
    + assert (Hmsg : forall A (a b : A),
                 match ax_status error with Some 409 => a | _ => b end = b).
      { intros. destruct (ax_status error) as [[|p|p]|]; try reflexivity.
        do 9 (destruct p; try reflexivity). contradiction H409. reflexivity. }
      rewrite Hmsg in H. cbn in H. inversion H; subst.
      eexists; split; [reflexivity|].
      eapply WalletFailed; try eassumption; try reflexivity.
      destruct (decide _); [contradiction | reflexivity].
Qed.

Lemma login_run W body h :
  routes.login W body h
  = match cr_email body, cr_password body with
    | Some (String c1 s1), Some (String c2 s2) =>
        let answer := auth_signInWithPassword W h (String c1 s1) (String c2 s2) in
        (Ok match ares_error answer, ares_user answer, ares_session answer with
            | None, Some user, Some token =>
                json 200 (LoginBody
                  {| ar_user := {| au_id := su_id user; au_email := su_email user |};
                     ar_session := {| access_token := token; token_type := "Bearer" |} |})
            | _, _, _ => json 401 (ErrorBody "Unauthorized" "Invalid email or password")
            end,
         [EvSignInWithPassword (String c1 s1) (String c2 s2) answer])
    | _, _ =>
        (Ok (json 400 (ErrorBody "Bad Request" "Email and password are required")), [])
    end.
Proof.
  destruct body as [[[|c1 s1]|] [[|c2 s2]|]]; unfold_flow; cbn; try reflexivity.
  destruct (ares_error _); [reflexivity|].
  destruct (ares_user _); [|reflexivity].
  destruct (ares_session _); reflexivity.
Qed.

End SignupFacts.

(** X18. In every run of the signup handler the custody wallet is requested
    for the user id the identity provider has just returned for the
    submitted email and password, and the row written to the database links
    that same user id to the id of the wallet the custody API returned,
    with no wallet address. *)
Theorem X18_signup_links_user_and_wallet W body h r es :
  AuthFlow.routes.signup W body h = (r, es) ->
  (forall uid created, In (AuthFlow.EvCreateWallet uid created) es ->
     exists email password answer user rest,
       es = AuthFlow.EvSignUp email password answer
            :: AuthFlow.EvCreateWallet uid created :: rest /\
       AuthFlow.cr_email body = Some email /\
       AuthFlow.cr_password body = Some password /\
       AuthFlow.ares_error answer = None /\
       AuthFlow.ares_user answer = Some user /\
       su_id user = uid) /\
  (forall uid walletId address saved,
     In (AuthFlow.EvInsertUserWallet uid walletId address saved) es ->
     exists first wallet,
       es = [first; AuthFlow.EvCreateWallet uid (inl wallet);
             AuthFlow.EvInsertUserWallet uid walletId address saved] /\
       pw_id wallet = walletId /\ address = None).
Proof.
  intros H. apply SignupFacts.signup_run in H.
  destruct H as (response & -> & Hshape).
  split.
  - intros uid created HIn.
    destruct Hshape; cbn in HIn; in_cases; try discriminate;
      inversion HIn; subst; do 5 eexists; (split; [reflexivity|]);
      repeat (split; [eassumption|]); reflexivity.
  - intros uid walletId address saved0 HIn.
    destruct Hshape; cbn in HIn; in_cases; try discriminate.
    inversion HIn; subst. do 2 eexists. split; [reflexivity|]. auto.
Qed.

Lemma X18_signup_links_user_and_wallet_witness :
  let W := AuthFlow.Fixture.world (inl Fixture.creating) AuthFlow.Fixture.inserted in
  let body := AuthFlow.Fixture.credentials "a@x.com" "secret" in
  exists r es,
    AuthFlow.routes.signup W body [] = (r, es) /\
    In (AuthFlow.EvInsertUserWallet "user-1" "wallet-1" None AuthFlow.Fixture.inserted) es /\
    exists first wallet,
      es = [first; AuthFlow.EvCreateWallet "user-1" (inl wallet);
            AuthFlow.EvInsertUserWallet "user-1" "wallet-1" None AuthFlow.Fixture.inserted] /\
      pw_id wallet = "wallet-1" /\ @None string = None.
Proof.
  intros W body.
  destruct (AuthFlow.routes.signup W body []) as [r es] eqn:Hrun.
  exists r, es. split; [reflexivity|].
  assert (HIn : In (AuthFlow.EvInsertUserWallet "user-1" "wallet-1" None
                      AuthFlow.Fixture.inserted) es).
  { vm_compute in Hrun. inversion Hrun; subst. cbn. auto. }
  split; [exact HIn|].
  exact (proj2 (X18_signup_links_user_and_wallet W body [] r es Hrun) _ _ _ _ HIn).
Defined.

(** X19. The signup handler answers 201 exactly when all three steps were
    taken and succeeded: the identity provider returned a user and a
    session, the custody API returned a wallet, and the insert reported no
    error.  The body then carries that user, the session's token as a
    Bearer token, the wallet's id, status and address (null when it has
    none), and the polling hint exactly for a wallet in status "creating". *)
Theorem X19_signup_created_means_all_three W body h r es :
  AuthFlow.routes.signup W body h = (r, es) ->
  ((exists b, r = Ok (AuthFlow.json 201 b)) <->
   (exists email password answer uid wallet saved,
      es = [AuthFlow.EvSignUp email password answer;
            AuthFlow.EvCreateWallet uid (inl wallet);
            AuthFlow.EvInsertUserWallet uid (pw_id wallet) None saved] /\
      db_error saved = None)) /\
  (forall b, r = Ok (AuthFlow.json 201 b) ->
     exists email password answer user token wallet saved,
       es = [AuthFlow.EvSignUp email password answer;
             AuthFlow.EvCreateWallet (su_id user) (inl wallet);
             AuthFlow.EvInsertUserWallet (su_id user) (pw_id wallet) None saved] /\
       AuthFlow.ares_user answer = Some user /\
       AuthFlow.ares_session answer = Some token /\
       AuthFlow.ares_error answer = None /\
       db_error saved = None /\
       exists message,
         b = AuthFlow.SignupBody
               {| AuthFlow.au_id := su_id user; AuthFlow.au_email := su_email user |}
               {| AuthFlow.access_token := token; AuthFlow.token_type := "Bearer" |}
               (pw_id wallet) (pw_status wallet) (orNull (pw_address wallet)) message /\
         (pw_status wallet = "creating" ->
          message = "Wallet is being created. Poll the /wallet endpoint to check status.") /\
         (pw_status wallet <> "creating" -> message = "Wallet is ready!")).
Proof.
  intros H. apply SignupFacts.signup_run in H.
  destruct H as (response & -> & Hshape).
  split; [split|].
  - intros (b & Hb). inversion Hb; subst. clear Hb.
    inversion Hshape; subst.
    match goal with
    | Hr : AuthFlow.json 201 b = _ |- _ =>
        destruct (db_error _) eqn:Edb in Hr; [discriminate Hr|]
    end.
    do 6 eexists. split; [reflexivity|]. eassumption.
  - intros (email & password & answer & uid & wallet & saved & Hes & Hok).
    destruct Hshape; try discriminate Hes.
    inversion Hes; subst. rewrite Hok. eexists. reflexivity.
  - intros b Hb. inversion Hb; subst. clear Hb.
    inversion Hshape; subst.
    match goal with
    | Hr : AuthFlow.json 201 b = _ |- _ =>
        destruct (db_error _) eqn:Edb in Hr; [discriminate Hr|];
        inversion Hr; subst; clear Hr
    end.
    do 7 eexists. split; [reflexivity|].
    repeat (split; [eassumption || reflexivity|]).
    eexists. split; [reflexivity|].
    split.
    + intros ->. reflexivity.
    + intros Hne. destruct (String.eqb_spec (pw_status wallet) "creating");
        [contradiction | reflexivity].
Qed.

Lemma X19_signup_created_means_all_three_witness :
  let W := AuthFlow.Fixture.world (inl Fixture.creating) AuthFlow.Fixture.inserted in
  let body := AuthFlow.Fixture.credentials "a@x.com" "secret" in
  exists r es b,
    AuthFlow.routes.signup W body [] = (r, es) /\
    r = Ok (AuthFlow.json 201 b) /\
    length es = 3%nat /\
    exists user token message,
      b = AuthFlow.SignupBody user token "wallet-1" "creating" None message.
Proof.
  intros W body.
  destruct (AuthFlow.routes.signup W body []) as [r es] eqn:Hrun.
  destruct (X19_signup_created_means_all_three W body [] r es Hrun) as [[_ Hthree] Hbody].
  assert (Hes : es = [AuthFlow.EvSignUp "a@x.com" "secret"
                        (AuthFlow.auth_signUp W [] "a@x.com" "secret");
                      AuthFlow.EvCreateWallet "user-1" (inl Fixture.creating);
                      AuthFlow.EvInsertUserWallet "user-1" (pw_id Fixture.creating) None
                        AuthFlow.Fixture.inserted]).
  { clear - Hrun. vm_compute in Hrun. inversion Hrun. reflexivity. }
  destruct Hthree as (b & Hb).
  { do 6 eexists. split; [exact Hes | reflexivity]. }
  destruct (Hbody b Hb) as (e1 & p1 & a1 & user & token & wallet & saved & Hes' & _ & _ & _ & _
                            & message & Hbody' & _).
  exists r, es, b. split; [reflexivity|]. split; [exact Hb|].
  split; [rewrite Hes; reflexivity|].
  rewrite Hes in Hes'. inversion Hes'; subst wallet.
  do 3 eexists. exact Hbody'.
Defined.

(** X20. When the custody API refuses the wallet request during signup, the
    handler stops there: the identity provider's user has been created, no
    row is written, and the answer is 500 "Wallet Creation Failed".  A 409
    of the custody API is not passed on as a 409: it only changes the
    message, which then names the user id; any other failure is reported
    with the HTTP client's message. *)
Theorem X20_wallet_failure_stops_signup W body h r es uid error :
  AuthFlow.routes.signup W body h = (r, es) ->
  In (AuthFlow.EvCreateWallet uid (inr error)) es ->
  exists email password answer user message,
    es = [AuthFlow.EvSignUp email password answer;
          AuthFlow.EvCreateWallet uid (inr error)] /\
    AuthFlow.ares_error answer = None /\
    AuthFlow.ares_user answer = Some user /\ su_id user = uid /\
    r = Ok (AuthFlow.json 500 (AuthFlow.ErrorBody "Wallet Creation Failed" message)) /\
    (AuthFlow.ax_status error = Some 409 ->
     message = "Wallet already exists for user " +:+ uid
               +:+ ". One wallet per (type, scheme, userIdentifier) is allowed.") /\
    (AuthFlow.ax_status error <> Some 409 ->
     message = "Para wallet creation failed: " +:+ AuthFlow.ax_message error).
Proof.
  intros H HIn. apply SignupFacts.signup_run in H.
  destruct H as (response & -> & Hshape).
  destruct Hshape; cbn in HIn; in_cases; try discriminate.
  inversion HIn; subst.
  do 5 eexists. split; [reflexivity|].
  repeat (split; [eassumption || reflexivity|]).
  split; intros Hcode; destruct (decide _); try reflexivity; contradiction.
Qed.

Lemma X20_wallet_failure_stops_signup_witness :
  let W := AuthFlow.Fixture.world (inr AuthFlow.Fixture.conflict) AuthFlow.Fixture.inserted in
  let body := AuthFlow.Fixture.credentials "a@x.com" "secret" in
  exists es,
    AuthFlow.routes.signup W body []
    = (Ok (AuthFlow.json 500
             (AuthFlow.ErrorBody "Wallet Creation Failed"
                ("Wallet already exists for user user-1. "
                 +:+ "One wallet per (type, scheme, userIdentifier) is allowed."))), es) /\
    length es = 2%nat.
Proof.
  intros W body.
  destruct (AuthFlow.routes.signup W body []) as [r es] eqn:Hrun.
  assert (HIn : In (AuthFlow.EvCreateWallet "user-1" (inr AuthFlow.Fixture.conflict)) es).
  { clear - Hrun. vm_compute in Hrun. inversion Hrun. cbn. auto. }
  destruct (X20_wallet_failure_stops_signup W body [] r es "user-1" _ Hrun HIn)
    as (email & password & answer & user & message & Hes & _ & _ & _ & Hr & H409 & _).
  exists es. rewrite Hr, (H409 eq_refl), Hes. split; reflexivity.
Defined.

(** X21. When the insert of the mapping row fails during signup, the answer
    is 500 "Database Error" with the database's message, although by then
    the identity provider's user and the custody wallet both exist: the
    failing insert is the last call of the run. *)
Theorem X21_database_failure_after_wallet W body h r es uid walletId address saved error :
  AuthFlow.routes.signup W body h = (r, es) ->
  In (AuthFlow.EvInsertUserWallet uid walletId address saved) es ->
  db_error saved = Some error ->
  r = Ok (AuthFlow.json 500
            (AuthFlow.ErrorBody "Database Error"
               ("Failed to save user wallet: " +:+ db_message error))) /\
  exists email password answer user wallet,
    es = [AuthFlow.EvSignUp email password answer;
          AuthFlow.EvCreateWallet uid (inl wallet);
          AuthFlow.EvInsertUserWallet uid walletId address saved] /\
    AuthFlow.ares_error answer = None /\
    AuthFlow.ares_user answer = Some user /\ su_id user = uid /\
    pw_id wallet = walletId.
Proof.
  intros H HIn Herr. apply SignupFacts.signup_run in H.
  destruct H as (response & -> & Hshape).
  destruct Hshape; cbn in HIn; in_cases; try discriminate.
  inversion HIn; subst.
  rewrite Herr. split; [reflexivity|].
  do 5 eexists. split; [reflexivity|].
  repeat (split; [eassumption || reflexivity|]). reflexivity.
Qed.

Lemma X21_database_failure_after_wallet_witness :
  let failed := {| db_data := None;
                   db_error := Some {| db_code := "23505";
                                       db_message := "duplicate key value" |} |} in
  let W := AuthFlow.Fixture.world (inl Fixture.ready) failed in
  let body := AuthFlow.Fixture.credentials "a@x.com" "secret" in
  exists es,
    AuthFlow.routes.signup W body []
    = (Ok (AuthFlow.json 500
             (AuthFlow.ErrorBody "Database Error"
                "Failed to save user wallet: duplicate key value")), es) /\
    length es = 3%nat.
Proof.
  intros failed W body.
  destruct (AuthFlow.routes.signup W body []) as [r es] eqn:Hrun.
  assert (HIn : In (AuthFlow.EvInsertUserWallet "user-1" "wallet-1" None failed) es).
  { clear - Hrun. vm_compute in Hrun. inversion Hrun. cbn. auto. }
  destruct (X21_database_failure_after_wallet W body [] r es _ _ _ _ _ Hrun HIn eq_refl)
    as (Hr & email & password & answer & user & wallet & Hes & _).
  exists es. rewrite Hr, Hes. split; reflexivity.
Defined.

(** X22. The login handler makes at most one call, the password sign-in
    with the submitted email and password, and none when either is missing
    or empty (400).  Whatever makes the sign-in fail (an error of the
    provider, a missing user or a missing session), the answer is the same
    401 body; a success answers 200 with the provider's user id and email
    and the session's access token as a Bearer token. *)
Theorem X22_login_failures_look_alike W body h :
  exists response es,
    AuthFlow.routes.login W body h = (Ok response, es) /\
    ((JS.truthy (AuthFlow.cr_email body) && JS.truthy (AuthFlow.cr_password body) = false /\
      es = [] /\
      response = AuthFlow.json 400
                   (AuthFlow.ErrorBody "Bad Request" "Email and password are required"))
     \/
     exists email password answer,
       AuthFlow.cr_email body = Some email /\
       AuthFlow.cr_password body = Some password /\
       answer = AuthFlow.auth_signInWithPassword W h email password /\
       es = [AuthFlow.EvSignInWithPassword email password answer] /\
       ((response = AuthFlow.json 401
                      (AuthFlow.ErrorBody "Unauthorized" "Invalid email or password") /\
         (AuthFlow.ares_error answer <> None \/ AuthFlow.ares_user answer = None
          \/ AuthFlow.ares_session answer = None))
        \/
        exists user token,
          AuthFlow.ares_error answer = None /\
          AuthFlow.ares_user answer = Some user /\
          AuthFlow.ares_session answer = Some token /\
          response = AuthFlow.json 200
            (AuthFlow.LoginBody
               {| AuthFlow.ar_user :=
                    {| AuthFlow.au_id := su_id user; AuthFlow.au_email := su_email user |};
                  AuthFlow.ar_session :=
                    {| AuthFlow.access_token := token;
                       AuthFlow.token_type := "Bearer" |} |}))).
Proof.
  rewrite SignupFacts.login_run.
  destruct body as [[[|c1 s1]|] [[|c2 s2]|]]; cbn;
    try (do 2 eexists; split; [reflexivity|]; left; auto; fail).
  do 2 eexists. split; [reflexivity|]. right.
  do 3 eexists. do 4 (split; [reflexivity|]).
  destruct (AuthFlow.ares_error _) as [e|] eqn:Eerr.
  { left. split; [reflexivity|]. left. discriminate. }
  destruct (AuthFlow.ares_user _) as [u|] eqn:Euser; [|left; auto].
  destruct (AuthFlow.ares_session _) as [t|] eqn:Etoken; [|left; auto].
  right. exists u, t. auto.
Qed.
